(** * OSC buzzer server: the serial line parser, the device state store
      and the OSC dispatch engine, embedded from
      [services/esp32Service.js], [services/oscService.js] and
      [services/database.js]. *)

From stdpp Require Import gmap strings list pretty.
From Stdlib Require Import ZArith Ascii String Lia.

Open Scope string_scope.
Open Scope Z_scope.
Open Scope list_scope.

(** ** JavaScript values and the string primitives the services use

    A string is the sequence of its UTF-16 code units, and the code
    units represented are those below 256, one [ascii] each: ASCII and
    the Latin-1 supplement.  Code units from 256 on do not occur in the
    strings of this development. *)

Module Js.

(** The primitive values that flow through the two services.  Numbers are
    the integers (timestamps, counters, ports) plus [VNaN]; the rounding of
    doubles above 2^53 is not represented. *)
Inductive Val : Type :=
| VUndef
| VNull
| VBool (b : bool)
| VNum (z : Z)
| VNaN
| VStr (s : string).

(** A plain object used as a dictionary: absent properties read [undefined]. *)
Abbreviation Obj := (gmap string Val).

Definition prop (o : Obj) (k : string) : Val := default VUndef (o !! k).

Definition truthy (v : Val) : bool :=
  match v with
  | VUndef | VNull | VNaN => false
  | VBool b => b
  | VNum z => negb (z =? 0)
  | VStr s => negb (String.eqb s "")
  end.

(** [a || b] *)
Definition or (a b : Val) : Val := if truthy a then a else b.

(** [v === true] *)
Definition is_true (v : Val) : bool :=
  match v with VBool true => true | _ => false end.

Definition ToString (v : Val) : string :=
  match v with
  | VUndef => "undefined"
  | VNull => "null"
  | VBool true => "true"
  | VBool false => "false"
  | VNum z => pretty z
  | VNaN => "NaN"
  | VStr s => s
  end.

(** [ToNumber]; [None] is NaN.  The conversion of strings is the
    runtime's StringToNumber, passed in by the caller. *)
Definition ToNumber (str2num : string -> option Z) (v : Val) : option Z :=
  match v with
  | VUndef | VNaN => None
  | VNull => Some 0
  | VBool b => Some (if b then 1 else 0)
  | VNum z => Some z
  | VStr s => str2num s
  end.

(** [a - b] *)
Definition sub (str2num : string -> option Z) (a b : Val) : Val :=
  match ToNumber str2num a, ToNumber str2num b with
  | Some x, Some y => VNum (x - y)
  | _, _ => VNaN
  end.

(** [a + b]: concatenation as soon as one operand is a string. *)
Definition add (a b : Val) : Val :=
  match a, b with
  | VStr _, _ | _, VStr _ => VStr (ToString a +:+ ToString b)
  | _, _ =>
      match ToNumber (fun _ => None) a, ToNumber (fun _ => None) b with
      | Some x, Some y => VNum (x + y)
      | _, _ => VNaN
      end
  end.

(** [a < b] for operands that are not both strings. *)
Definition lt (str2num : string -> option Z) (a b : Val) : bool :=
  match ToNumber str2num a, ToNumber str2num b with
  | Some x, Some y => x <? y
  | _, _ => false
  end.

(** *** Characters *)

Definition code (c : ascii) : Z := Z.of_N (N_of_ascii c).

Definition is_digit (c : ascii) : bool := (48 <=? code c) && (code c <=? 57).

(** The regular-expression class [[A-F0-9:]]: the colon is code 58, just
    after the digits. *)
Definition is_mac_char (c : ascii) : bool :=
  ((48 <=? code c) && (code c <=? 58)) || ((65 <=? code c) && (code c <=? 70)).

(** StrWhiteSpaceChar, which [parseInt] skips: the white space and the
    line terminators of ECMAScript.  Below 256 these are TAB, LF, VT,
    FF, CR (codes 9 to 13), SP (32) and NBSP (U+00A0, code 160); the
    others (U+1680, U+2000 to U+200A, U+2028, U+2029, U+202F, U+205F,
    U+3000, U+FEFF) lie above. *)
Definition is_space (c : ascii) : bool :=
  ((9 <=? code c) && (code c <=? 13)) || (code c =? 32) || (code c =? 160).

(** Value of a character as a digit in [radix], when it is one. *)
Definition digit_value (radix : Z) (c : ascii) : option Z :=
  let n := code c in
  let v := if (48 <=? n) && (n <=? 57) then Some (n - 48)
           else if (97 <=? n) && (n <=? 122) then Some (n - 87)
           else if (65 <=? n) && (n <=? 90) then Some (n - 55)
           else None in
  match v with
  | Some d => if d <? radix then Some d else None
  | None => None
  end.

(** *** Strings *)

(** [s.startsWith(p)] *)
Definition startsWith (p s : string) : bool := String.prefix p s.

(** [s.substring(n)] *)
Fixpoint substring (n : nat) (s : string) : string :=
  match n, s with
  | O, _ => s
  | S n', String _ r => substring n' r
  | S _, EmptyString => EmptyString
  end.

(** [s.split(sep)] for a one-character separator; never empty. *)
Fixpoint split (sep : ascii) (s : string) : list string :=
  match s with
  | EmptyString => [EmptyString]
  | String c r =>
      if Ascii.eqb c sep then EmptyString :: split sep r
      else match split sep r with
           | f :: fs => String c f :: fs
           | [] => [String c EmptyString]
           end
  end.

(** [s.includes(p)] *)
Fixpoint includes (p s : string) : bool :=
  String.prefix p s ||
  match s with
  | EmptyString => false
  | String _ r => includes p r
  end.

Fixpoint take_while (f : ascii -> bool) (s : string) : string :=
  match s with
  | EmptyString => EmptyString
  | String c r => if f c then String c (take_while f r) else EmptyString
  end.

Fixpoint trimStart (s : string) : string :=
  match s with
  | String c r => if is_space c then trimStart r else s
  | EmptyString => EmptyString
  end.

Fixpoint all_chars (f : ascii -> bool) (s : string) : bool :=
  match s with
  | EmptyString => true
  | String c r => f c && all_chars f r
  end.

(** The first [n] characters when all of them satisfy [f]. *)
Fixpoint take_class (f : ascii -> bool) (n : nat) (s : string) : option string :=
  match n with
  | O => Some EmptyString
  | S n' =>
      match s with
      | String c r =>
          if f c then option_map (String c) (take_class f n' r) else None
      | EmptyString => None
      end
  end.

(** Leading digits of [s] in [radix], most significant first. *)
Fixpoint leading_digits (radix : Z) (s : string) : list Z :=
  match s with
  | EmptyString => []
  | String c r =>
      match digit_value radix c with
      | Some d => d :: leading_digits radix r
      | None => []
      end
  end.

Definition digits_value (radix : Z) (ds : list Z) : Z :=
  fold_left (fun acc d => acc * radix + d) ds 0.

(** [parseInt(s)] without a radix argument: leading white space, an
    optional sign, an optional [0x]/[0X], then the longest run of digits;
    NaN when that run is empty. *)
Definition parseInt_string (s : string) : Val :=
  let s1 := trimStart s in
  let '(sign, s2) :=
    match s1 with
    | String c r =>
        if Ascii.eqb c "-" then (-1, r)
        else if Ascii.eqb c "+" then (1, r)
        else (1, s1)
    | EmptyString => (1, s1)
    end in
  let '(radix, s3) :=
    match s2 with
    | String c (String x r) =>
        if Ascii.eqb c "0" && (Ascii.eqb x "x" || Ascii.eqb x "X")
        then (16, r) else (10, s2)
    | _ => (10, s2)
    end in
  match leading_digits radix s3 with
  | [] => VNaN
  | ds => VNum (sign * digits_value radix ds)
  end.

(** Whether [s] begins with something [parseInt] can start on: white
    space, a sign or a digit. *)
Definition starts_numeric (s : string) : bool :=
  match s with
  | String c _ =>
      is_space c || is_digit c || Ascii.eqb c "-" || Ascii.eqb c "+"
  | EmptyString => false
  end.

(** [parseInt(v)]: the argument is converted to a string first. *)
Definition parseInt (v : Val) : Val := parseInt_string (ToString v).

(** [a[i]] on an array of strings: [undefined] out of range. *)
Definition index (l : list string) (i : nat) : Val :=
  match l !! i with Some s => VStr s | None => VUndef end.

(** First capture of [/Heartbeat from device (\d+)/]: leftmost match. *)
Fixpoint match_heartbeat (s : string) : option string :=
  let here :=
    if String.prefix "Heartbeat from device " s
    then match take_while is_digit (substring 22 s) with
         | EmptyString => None
         | ds => Some ds
         end
    else None in
  match here with
  | Some ds => Some ds
  | None =>
      match s with
      | EmptyString => None
      | String _ r => match_heartbeat r
      end
  end.

(** First capture of [/from: ([A-F0-9:]{17})/]: leftmost match. *)
Fixpoint match_from_mac (s : string) : option string :=
  let here :=
    if String.prefix "from: " s
    then take_class is_mac_char 17 (substring 6 s)
    else None in
  match here with
  | Some mac => Some mac
  | None =>
      match s with
      | EmptyString => None
      | String _ r => match_from_mac r
      end
  end.

(** How a statement ends: normally, or with a thrown [Error] whose
    [message] is kept. *)
Inductive Completion (A : Type) : Type :=
| Normal (a : A)
| Throw (message : string).
Arguments Normal {A} a.
Arguments Throw {A} message.

End Js.

(** ** The serial line parser and the device state store
      ([services/esp32Service.js]) *)

Module Esp32.
Import Js.

(** What the service takes from its surroundings: the wall clock (one
    reading per [Date.now()] or [new Date()], in call order), the
    runtime's StringToNumber ([None] is NaN), and what the listeners of
    an [emit] throw, if anything, given the number of events emitted
    before it. *)
Record Runtime : Type := {
  tick : nat -> Z;
  StringToNumber : string -> option Z;
  listener_error : nat -> option string
}.

Inductive Event : Type :=
| BuzzerPress (mac_address : string) (timestamp : Val) (received_at : Z)
| DeviceUpdate (esp32_data : string) (timestamp : Z)
| Esp32Status (statusData : Obj) (timestamp : Z).

(** [deviceStates] is a [Map]: insertion-ordered, one entry per key. *)
Record State : Type := {
  deviceStates : list (string * Obj);
  lastHeartbeatDevice : option string;
  lastHeartbeatTime : option Z;
  emitted : list Event;
  clock_reads : nat
}.

Definition initial : State :=
  {| deviceStates := []; lastHeartbeatDevice := None;
     lastHeartbeatTime := None; emitted := []; clock_reads := O |}.

Fixpoint Map_get (k : string) (m : list (string * Obj)) : option Obj :=
  match m with
  | [] => None
  | (k', v) :: r => if String.eqb k k' then Some v else Map_get k r
  end.

Fixpoint Map_set (k : string) (v : Obj) (m : list (string * Obj))
  : list (string * Obj) :=
  match m with
  | [] => [(k, v)]
  | (k', v') :: r =>
      if String.eqb k k' then (k, v) :: r else (k', v') :: Map_set k v r
  end.

Definition set_deviceStates (m : list (string * Obj)) (s : State) : State :=
  {| deviceStates := m; lastHeartbeatDevice := lastHeartbeatDevice s;
     lastHeartbeatTime := lastHeartbeatTime s; emitted := emitted s;
     clock_reads := clock_reads s |}.

(** [Date.now()] *)
Definition Date_now (rt : Runtime) (s : State) : Z * State :=
  (tick rt (clock_reads s),
   {| deviceStates := deviceStates s;
      lastHeartbeatDevice := lastHeartbeatDevice s;
      lastHeartbeatTime := lastHeartbeatTime s; emitted := emitted s;
      clock_reads := S (clock_reads s) |}).

(** [this.emit(...)]: the call is recorded; the listeners run
    synchronously and what they throw comes out of [emit]. *)
Definition emit (rt : Runtime) (e : Event) (s : State) : Completion unit * State :=
  (match listener_error rt (List.length (emitted s)) with
   | Some msg => Throw msg
   | None => Normal tt
   end,
   {| deviceStates := deviceStates s;
      lastHeartbeatDevice := lastHeartbeatDevice s;
      lastHeartbeatTime := lastHeartbeatTime s;
      emitted := emitted s ++ [e];
      clock_reads := clock_reads s |}).

Definition handleBuzzerPress (rt : Runtime) (macAddress : string)
    (timestamp : Val) (s : State) : Completion unit * State :=
  let '(received_at, s1) := Date_now rt s in
  match emit rt (BuzzerPress macAddress timestamp received_at) s1 with
  | (Throw msg, s2) => (Throw msg, s2)
  | (Normal _, s2) =>
      match Map_get macAddress (deviceStates s2) with
      | Some deviceState =>
          let deviceState1 := <["pressed" := VBool true]> deviceState in
          let deviceState2 := <["last_press" := timestamp]> deviceState1 in
          let deviceState3 :=
            <["press_count" :=
                add (or (prop deviceState2 "press_count") (VNum 0)) (VNum 1)]>
              deviceState2 in
          (Normal tt,
           set_deviceStates (Map_set macAddress deviceState3 (deviceStates s2)) s2)
      | None => (Normal tt, s2)
      end
  end.

(** The loop over [parts[1..]] of [parseDeviceData]. *)
Definition device_field (params : Obj) (part : string) : Obj :=
  let kv := split "=" part in
  match index kv 0, index kv 1 with
  | VStr key, VStr value =>
      if truthy (VStr key)
      then <[key := if String.eqb value "1" then VBool true
                    else if String.eqb value "0" then VBool false
                    else VStr value]> params
      else params
  | _, _ => params
  end.

Definition parseDeviceData (rt : Runtime) (deviceString : string) (s : State)
  : State :=
  let parts := split "," deviceString in
  if (List.length parts <? 2)%nat then s else
  let devicePart := default "" (head parts) in
  if negb (startsWith "DEVICE:" devicePart) then s else
  let macAddress := index (split ":" devicePart) 1 in
  match macAddress with
  | VStr mac =>
      if negb (truthy macAddress) then s else
      let existingState := default ∅ (Map_get mac (deviceStates s)) in
      let '(last_seen, s1) := Date_now rt s in
      let params0 : Obj :=
        <["last_press" := or (prop existingState "last_press") VNull]>
        (<["press_count" := or (prop existingState "press_count") (VNum 0)]>
        (<["pressed" := VBool false]>
        (<["armed" := VBool false]>
        (<["online" := VBool false]>
        (<["last_online" := prop existingState "last_online"]>
        (<["last_seen" := VNum last_seen]>
        (<["mac_address" := VStr mac]> ∅))))))) in
      let params1 := fold_left device_field (tail parts) params0 in
      let '(params2, s2) :=
        if is_true (prop params1 "online")
        then let '(now, s2) := Date_now rt s1 in
             (<["last_online" := VNum now]> params1, s2)
        else if negb (truthy (prop params1 "last_online"))
                && truthy (prop existingState "last_online")
        then (<["last_online" := prop existingState "last_online"]> params1, s1)
        else (params1, s1) in
      set_deviceStates (Map_set mac params2 (deviceStates s2)) s2
  | _ => s
  end.

(** [this.io.to('admin').emit(...)]: a broadcast to the admin room; no
    listener of the service runs. *)
Definition io_emit (e : Event) (s : State) : State :=
  {| deviceStates := deviceStates s;
     lastHeartbeatDevice := lastHeartbeatDevice s;
     lastHeartbeatTime := lastHeartbeatTime s;
     emitted := emitted s ++ [e];
     clock_reads := clock_reads s |}.

(** The payload is [{connected: true, ...statusData, timestamp}]: a
    [connected] key of [statusData] wins over the literal one, and the
    [timestamp] written last replaces any [timestamp] key; it is kept
    beside the object. *)
Definition updateSystemStatus (rt : Runtime) (statusData : Obj) (s : State)
  : State :=
  let '(now, s1) := Date_now rt s in
  io_emit (Esp32Status
             (delete "timestamp" (statusData ∪ {["connected" := VBool true]}))
             now) s1.

(** The [forEach] body of the STATUS branch. *)
Definition status_field (rt : Runtime) (statusData : Obj) (part : string) : Obj :=
  if includes "=" part then
    let kv := split "=" part in
    match index kv 0, index kv 1 with
    | VStr key, VStr value =>
        <[key := match StringToNumber rt value with
                 | None => VStr value
                 | Some _ => parseInt (VStr value)
                 end]> statusData
    | _, _ => statusData
    end
  else statusData.

Definition handleTriviaModeDevice (rt : Runtime) (macAddress : string)
    (s : State) : Completion unit * State :=
  let existingState := default ∅ (Map_get macAddress (deviceStates s)) in
  let '(last_seen, s1) := Date_now rt s in
  let '(last_online, s2) := Date_now rt s1 in
  let deviceState : Obj :=
    <["discovery_mode" := VStr "trivia_heartbeat"]>
    (<["last_press" := or (prop existingState "last_press") VNull]>
    (<["press_count" := or (prop existingState "press_count") (VNum 0)]>
    (<["pressed" := VBool false]>
    (<["armed" := VBool false]>
    (<["online" := VBool true]>
    (<["last_online" := VNum last_online]>
    (<["last_seen" := VNum last_seen]>
    (<["mac_address" := VStr macAddress]> ∅)))))))) in
  let s3 := set_deviceStates (Map_set macAddress deviceState (deviceStates s2)) s2 in
  let '(now, s4) := Date_now rt s3 in
  emit rt (DeviceUpdate ("DISCOVERED:" +:+ macAddress) now) s4.

Definition handleTriviaModeHeartbeat (rt : Runtime) (deviceId : string)
    (s : State) : State :=
  let '(now, s1) := Date_now rt s in
  {| deviceStates := deviceStates s1;
     lastHeartbeatDevice := Some deviceId;
     lastHeartbeatTime := Some now;
     emitted := emitted s1;
     clock_reads := clock_reads s1 |}.

(** [handleSerialData]: the branches in source order; the enclosing
    [try]/[catch] only logs, so whatever a branch throws ends the line's
    processing with the state reached so far. *)
Definition handleSerialData (rt : Runtime) (data : string) (s : State) : State :=
  if startsWith "BUZZER:" data then
    let buzzerData := substring 7 data in
    let fields := split "," buzzerData in
    match index fields 0 with
    | VStr macAddress =>
        snd (handleBuzzerPress rt macAddress (parseInt (index fields 1)) s)
    | _ => s
    end
  else if startsWith "STATUS:" data then
    let statusStr := substring 7 data in
    let parts := split "," statusStr in
    let statusData := fold_left (status_field rt) parts ∅ in
    updateSystemStatus rt statusData s
  else if startsWith "DEVICE:" data then
    let s1 := parseDeviceData rt data s in
    let '(now, s2) := Date_now rt s1 in
    snd (emit rt (DeviceUpdate data now) s2)
  else if includes "Heartbeat from device" data then
    match match_heartbeat data with
    | Some deviceId => handleTriviaModeHeartbeat rt deviceId s
    | None => s
    end
  else if includes "Received" data && includes "bytes from:" data then
    match match_from_mac data with
    | Some macAddress => snd (handleTriviaModeDevice rt macAddress s)
    | None => s
    end
  else s.

(** One entry of the list [getDevices] returns. *)
Record DeviceView : Type := {
  mac_address : string;
  status : string;
  last_seen : Val;
  last_online : Val;
  online : bool;
  armed : bool;
  pressed : bool;
  press_count : Val;
  last_press : Val;
  time_since_last_seen : Val;
  time_since_last_online : Val
}.

Definition staleThreshold : Z := 60000.

(** The body of the [for] loop of [getDevices]. *)
Definition device_view (rt : Runtime) (now : Z) (entry : string * Obj)
  : DeviceView :=
  let '(macAddress, state) := entry in
  let timeSinceLastSeen :=
    sub (StringToNumber rt) (VNum now) (or (prop state "last_seen") (VNum 0)) in
  let isOnline :=
    is_true (prop state "online")
    && lt (StringToNumber rt) timeSinceLastSeen (VNum staleThreshold) in
  let lastOnlineTimestamp :=
    if isOnline
    then or (or (prop state "last_online") (prop state "last_seen")) (VNum now)
    else or (prop state "last_online") VNull in
  let timeSinceLastOnline :=
    if truthy lastOnlineTimestamp
    then sub (StringToNumber rt) (VNum now) lastOnlineTimestamp
    else VNull in
  {| mac_address := macAddress;
     status := if isOnline then "online" else "offline";
     last_seen := or (prop state "last_seen") (VNum now);
     last_online := or lastOnlineTimestamp VNull;
     online := isOnline;
     armed := is_true (prop state "armed");
     pressed := is_true (prop state "pressed");
     press_count := or (prop state "press_count") (VNum 0);
     last_press := or (prop state "last_press") VNull;
     time_since_last_seen := timeSinceLastSeen;
     time_since_last_online := timeSinceLastOnline |}.

Definition getDevices (rt : Runtime) (s : State) : list DeviceView * State :=
  let '(now, s1) := Date_now rt s in
  (map (device_view rt now) (deviceStates s1), s1).

(** The property [field] of the entry stored under [k]; [undefined]
    when there is no such entry. *)
Definition stored (s : State) (k field : string) : Val :=
  prop (default ∅ (Map_get k (deviceStates s))) field.




(** Feeding the lines the transport delivers, in order. *)
Definition feed (rt : Runtime) (lines : list string) (s : State) : State :=
  fold_left (fun st line => handleSerialData rt line st) lines s.




End Esp32.

(** ** The OSC dispatch engine ([services/oscService.js]) over the
      configuration store ([services/database.js]) *)

Module Osc.
Import Js.

(** What [JSON.parse] returns. *)
#[local] Unset Elimination Schemes.
Inductive Json : Type :=
| JNull
| JBool (b : bool)
| JInt (z : Z)
| JFloat (literal : string)
| JString (s : string)
| JArray (items : list Json)
| JObject (members : list (string * Json)).
#[local] Set Elimination Schemes.

(** The surroundings of the service: the wall clock, [JSON.parse]
    ([None] is a SyntaxError), the text of the TypeError of spreading a
    value that is not iterable, and three sources of failure, each asked
    in call order: the n-th database operation, the n-th [client.send],
    the listeners of the n-th [emit]. *)
Record Environment : Type := {
  clock : nat -> Z;
  JSON_parse : string -> option Json;
  not_iterable : string;
  db_error : nat -> option string;
  send_error : nat -> string -> Z -> string -> list Json -> option string;
  listener_error : nat -> option string
}.

(** *** Tables *)

Record buzzer_binding : Type := {
  bb_id : Z;
  bb_mac_address : string;
  bb_device_name : string;
  bb_is_active : Z
}.

Record osc_command : Type := {
  oc_id : Z;
  oc_name : string;
  oc_address : string;
  oc_arguments : option string
}.

Record osc_target : Type := {
  ot_id : Z;
  ot_name : string;
  ot_ip_address : string;
  ot_port : Z;
  ot_is_active : Z
}.

Record buzzer_command_mapping : Type := {
  bcm_id : Z;
  buzzer_binding_id : option Z;
  osc_command_id : option Z;
  osc_target_id : option Z;
  bcm_is_active : Z
}.

(** A row of [activity_log]; the three middle columns take whatever the
    caller passes. *)
Record activity : Type := {
  event_type : string;
  buzzer_mac : Val;
  osc_address : Val;
  target_ip : Val;
  success : bool;
  message : string
}.

Record Database : Type := {
  buzzer_bindings : list buzzer_binding;
  osc_commands : list osc_command;
  osc_targets : list osc_target;
  buzzer_command_mappings : list buzzer_command_mapping;
  activity_log : list activity
}.

(** A row of the join of [getMappingsForBuzzer]. *)
Record Mapping : Type := {
  bcm : buzzer_command_mapping;
  mac_address : string;
  device_name : string;
  command_name : string;
  command_address : string;
  command_args : option string;
  target_name : string;
  ip_address : string;
  port : Z
}.

Definition refers (fk : option Z) (id : Z) : bool :=
  match fk with Some k => k =? id | None => false end.

(** The SELECT of [getMappingsForBuzzer]: the three joins, then the WHERE
    clause; rows come in storage order. *)
Definition select_mappings (d : Database) (macAddress : string) : list Mapping :=
  flat_map (fun m =>
    flat_map (fun bb =>
      flat_map (fun oc =>
        flat_map (fun ot =>
          if String.eqb (bb_mac_address bb) macAddress
             && (bcm_is_active m =? 1) && (bb_is_active bb =? 1)
             && (ot_is_active ot =? 1)
          then [ {| bcm := m;
                    mac_address := bb_mac_address bb;
                    device_name := bb_device_name bb;
                    command_name := oc_name oc;
                    command_address := oc_address oc;
                    command_args := oc_arguments oc;
                    target_name := ot_name ot;
                    ip_address := ot_ip_address ot;
                    port := ot_port ot |} ]
          else [])
          (filter (fun ot => refers (osc_target_id m) (ot_id ot) = true)
                  (osc_targets d)))
        (filter (fun oc => refers (osc_command_id m) (oc_id oc) = true)
                (osc_commands d)))
      (filter (fun bb => refers (buzzer_binding_id m) (bb_id bb) = true)
              (buzzer_bindings d)))
    (buzzer_command_mappings d).

Definition insert_activity (row : activity) (d : Database) : Database :=
  {| buzzer_bindings := buzzer_bindings d;
     osc_commands := osc_commands d;
     osc_targets := osc_targets d;
     buzzer_command_mappings := buzzer_command_mappings d;
     activity_log := activity_log d ++ [row] |}.

(** *** The service *)

(** An [osc.Client]; [serial] tells the constructions apart. *)
Record Client : Type := {
  host : string;
  client_port : Z;
  serial : nat
}.

(** One call of [client.send] and how it ended. *)
Record Datagram : Type := {
  via : Client;
  dg_address : string;
  dg_args : list Json;
  dg_error : option string
}.

(** The payload of an [osc-sent] event; the fields a variant of the
    payload leaves out are [None]. *)
Record Notice : Type := {
  n_test : bool;
  n_buzzer_mac : option string;
  n_device_name : option string;
  n_command_name : option string;
  n_osc_address : option string;
  n_osc_args : option Json;
  n_target_name : option string;
  n_target_ip : option string;
  n_target_port : option Z;
  n_timestamp : Z;
  n_success : bool;
  n_error : option string
}.

(** The service ([clients]), its collaborators (the database, the
    sockets, the listeners) and the counters that index the environment. *)
Record State : Type := {
  db : Database;
  db_calls : nat;
  clients : gmap string Client;
  created : nat;
  sent : list Datagram;
  published : list Notice;
  clock_reads : nat
}.

Definition initial (d : Database) : State :=
  {| db := d; db_calls := O; clients := ∅; created := O; sent := [];
     published := []; clock_reads := O |}.

(** The press event as [ESP32Service] emits it. *)
Record BuzzerData : Type := {
  bd_mac_address : string;
  bd_timestamp : Val;
  bd_received_at : Z
}.

Record TestData : Type := {
  commandId : Z;
  targetId : Z;
  customArgs : option string
}.

(** Statements run on the state and end normally or by throwing; an
    [await] on a rejected promise throws.  A call of an [async] method is
    run to its end: other events are not interleaved at its [await]s. *)
Definition M (A : Type) : Type := State -> Completion A * State.

Definition ret {A} (a : A) : M A := fun s => (Normal a, s).

Definition throw {A} (msg : string) : M A := fun s => (Throw msg, s).

Definition bind {A B} (m : M A) (f : A -> M B) : M B :=
  fun s =>
    match m s with
    | (Normal a, s') => f a s'
    | (Throw msg, s') => (Throw msg, s')
    end.

(** [try { m } catch (error) { h error.message }] *)
Definition try_catch {A} (m : M A) (h : string -> M A) : M A :=
  fun s =>
    match m s with
    | (Normal a, s') => (Normal a, s')
    | (Throw msg, s') => h msg s'
    end.

Declare Scope osc_scope.
Delimit Scope osc_scope with osc.
Notation "x <- m ;; k" := (bind m (fun x => k))
  (at level 100, m at next level, right associativity) : osc_scope.
Notation "m ;; k" := (bind m (fun _ => k))
  (at level 100, right associativity) : osc_scope.
Open Scope osc_scope.

Section Service.
Variable env : Environment.

(** A database operation: counted, and rejected when the environment
    says so, in which case the database is left as it was. *)
Definition db_operation {A} (f : Database -> A * Database) : M A :=
  fun s =>
    let s' := {| db := db s; db_calls := S (db_calls s); clients := clients s;
                 created := created s; sent := sent s;
                 published := published s; clock_reads := clock_reads s |} in
    match db_error env (db_calls s) with
    | Some msg => (Throw msg, s')
    | None =>
        let '(a, d) := f (db s) in
        (Normal a,
         {| db := d; db_calls := db_calls s'; clients := clients s';
            created := created s'; sent := sent s';
            published := published s'; clock_reads := clock_reads s' |})
    end.

Definition getMappingsForBuzzer (macAddress : string) : M (list Mapping) :=
  db_operation (fun d => (select_mappings d macAddress, d)).

Definition logActivity (eventType : string) (buzzerMac oscAddress targetIp : Val)
    (ok : bool) (msg : string) : M unit :=
  db_operation (fun d =>
    (tt, insert_activity
           {| event_type := eventType; buzzer_mac := buzzerMac;
              osc_address := oscAddress; target_ip := targetIp;
              success := ok; message := msg |} d)).

(** [db.get('SELECT * FROM osc_commands WHERE id = ?')] *)
Definition get_command (id : Z) : M (option osc_command) :=
  db_operation (fun d =>
    (head (filter (fun c => oc_id c = id) (osc_commands d)), d)).

(** [db.get('SELECT * FROM osc_targets WHERE id = ?')] *)
Definition get_target (id : Z) : M (option osc_target) :=
  db_operation (fun d =>
    (head (filter (fun t => ot_id t = id) (osc_targets d)), d)).

(** [new Date()] *)
Definition new_Date : M Z :=
  fun s =>
    (Normal (clock env (clock_reads s)),
     {| db := db s; db_calls := db_calls s; clients := clients s;
        created := created s; sent := sent s; published := published s;
        clock_reads := S (clock_reads s) |}).

(** [this.emit('osc-sent', notice)]: the call is recorded; what the
    listeners throw comes out of [emit]. *)
Definition emit (notice : Notice) : M unit :=
  fun s =>
    (match listener_error env (List.length (published s)) with
     | Some msg => Throw msg
     | None => Normal tt
     end,
     {| db := db s; db_calls := db_calls s; clients := clients s;
        created := created s; sent := sent s;
        published := published s ++ [notice];
        clock_reads := clock_reads s |}).

Definition targetKey (ip : string) (p : Z) : string :=
  ip +:+ ":" +:+ pretty p.

(** The "get or create OSC client" lines, the same in [sendOSCMessage]
    and in [sendTestCommand]; there is no [await] between the [get] and
    the [set].  [new osc.Client] only opens a UDP socket and is taken to
    return; [created] counts the constructions. *)
Definition pooled_client (ip : string) (p : Z) : M Client :=
  fun s =>
    match clients s !! targetKey ip p with
    | Some client => (Normal client, s)
    | None =>
        let client := {| host := ip; client_port := p; serial := created s |} in
        (Normal client,
         {| db := db s; db_calls := db_calls s;
            clients := <[targetKey ip p := client]> (clients s);
            created := S (created s); sent := sent s;
            published := published s; clock_reads := clock_reads s |})
    end.

(** [...args] in the argument list of [client.send]. *)
Definition spread (args : Json) : M (list Json) :=
  match args with
  | JArray items => ret items
  | JString str =>
      ret (map (fun c => JString (String c EmptyString)) (list_ascii_of_string str))
  | _ => throw (not_iterable env)
  end.

(** [await new Promise(... client.send(address, ...args, callback))] *)
Definition client_send (client : Client) (address : string) (args : list Json)
  : M unit :=
  fun s =>
    let outcome :=
      send_error env (List.length (sent s)) (host client) (client_port client)
        address args in
    (match outcome with Some msg => Throw msg | None => Normal tt end,
     {| db := db s; db_calls := db_calls s; clients := clients s;
        created := created s;
        sent := sent s ++ [ {| via := client; dg_address := address;
                               dg_args := args; dg_error := outcome |} ];
        published := published s; clock_reads := clock_reads s |}).

(** [JSON.parse(text)] inside its own [try]: [[]] on a SyntaxError. *)
Definition parse_args (text : string) : Json :=
  match JSON_parse env text with
  | Some j => j
  | None => JArray []
  end.

(** [x || y] on a nullable text column. *)
Definition text_or (x : option string) (y : string) : string :=
  match x with
  | Some t => if String.eqb t "" then y else t
  | None => y
  end.

Definition sendOSCMessage (mapping : Mapping) (buzzerData : BuzzerData) : M unit :=
  try_catch
    (let args := parse_args (text_or (command_args mapping) "[]") in
     client <- pooled_client (ip_address mapping) (port mapping) ;;
     items <- spread args ;;
     client_send client (command_address mapping) items ;;
     logActivity "osc_sent" (VStr (bd_mac_address buzzerData))
       (VStr (command_address mapping)) (VStr (ip_address mapping)) true
       ("Sent to " +:+ target_name mapping +:+ " from " +:+
        text_or (Some (device_name mapping)) (bd_mac_address buzzerData)) ;;
     now <- new_Date ;;
     emit {| n_test := false;
             n_buzzer_mac := Some (bd_mac_address buzzerData);
             n_device_name :=
               Some (text_or (Some (device_name mapping)) (bd_mac_address buzzerData));
             n_command_name := None;
             n_osc_address := Some (command_address mapping);
             n_osc_args := Some args;
             n_target_name := Some (target_name mapping);
             n_target_ip := Some (ip_address mapping);
             n_target_port := Some (port mapping);
             n_timestamp := now;
             n_success := true;
             n_error := None |})
    (fun error_message =>
       logActivity "osc_failed" (VStr (bd_mac_address buzzerData))
         (VStr (command_address mapping)) (VStr (ip_address mapping)) false
         error_message ;;
       now <- new_Date ;;
       emit {| n_test := false;
               n_buzzer_mac := Some (bd_mac_address buzzerData);
               n_device_name :=
                 Some (text_or (Some (device_name mapping)) (bd_mac_address buzzerData));
               n_command_name := None;
               n_osc_address := Some (command_address mapping);
               n_osc_args := None;
               n_target_name := Some (target_name mapping);
               n_target_ip := Some (ip_address mapping);
               n_target_port := Some (port mapping);
               n_timestamp := now;
               n_success := false;
               n_error := Some error_message |}).

(** [for (const mapping of mappings) await body(mapping)] *)
Fixpoint for_each {A} (l : list A) (body : A -> M unit) : M unit :=
  match l with
  | [] => ret tt
  | x :: r => body x ;; for_each r body
  end.

Definition processBuzzerPress (buzzerData : BuzzerData) : M unit :=
  try_catch
    (mappings <- getMappingsForBuzzer (bd_mac_address buzzerData) ;;
     if (List.length mappings =? 0)%nat
     then logActivity "buzzer_press_unmapped" (VStr (bd_mac_address buzzerData))
            VNull VNull false "No mappings configured"
     else for_each mappings (fun mapping => sendOSCMessage mapping buzzerData))
    (fun error_message =>
       logActivity "buzzer_press_error" (VStr (bd_mac_address buzzerData))
         VNull VNull false error_message).

Definition sendTestCommand (testData : TestData) : M unit :=
  try_catch
    (found_command <- get_command (commandId testData) ;;
     match found_command with
     | None => throw ("Command not found: " +:+ pretty (commandId testData))
     | Some command =>
         found_target <- get_target (targetId testData) ;;
         match found_target with
         | None => throw ("Target not found: " +:+ pretty (targetId testData))
         | Some target =>
             let args :=
               match customArgs testData with
               | Some custom =>
                   if String.eqb custom ""
                   then parse_args (text_or (oc_arguments command) "[]")
                   else parse_args custom
               | None => parse_args (text_or (oc_arguments command) "[]")
               end in
             client <- pooled_client (ot_ip_address target) (ot_port target) ;;
             items <- spread args ;;
             client_send client (oc_address command) items ;;
             logActivity "test_osc_sent" VNull (VStr (oc_address command))
               (VStr (ot_ip_address target)) true
               ("Test command: " +:+ oc_name command +:+ " to " +:+ ot_name target) ;;
             now <- new_Date ;;
             emit {| n_test := true;
                     n_buzzer_mac := None;
                     n_device_name := None;
                     n_command_name := Some (oc_name command);
                     n_osc_address := Some (oc_address command);
                     n_osc_args := Some args;
                     n_target_name := Some (ot_name target);
                     n_target_ip := Some (ot_ip_address target);
                     n_target_port := Some (ot_port target);
                     n_timestamp := now;
                     n_success := true;
                     n_error := None |}
         end
     end)
    (fun error_message =>
       logActivity "test_osc_failed" VNull (VNum (commandId testData))
         (VNum (targetId testData)) false error_message ;;
       now <- new_Date ;;
       emit {| n_test := true;
               n_buzzer_mac := None;
               n_device_name := None;
               n_command_name := None;
               n_osc_address := None;
               n_osc_args := None;
               n_target_name := None;
               n_target_ip := None;
               n_target_port := None;
               n_timestamp := now;
               n_success := false;
               n_error := Some error_message |} ;;
       throw error_message).

(** A request that reaches the pool: a mapping being dispatched for a
    press, or an administrator's test. *)
Inductive Request : Type :=
| Dispatch (mapping : Mapping) (buzzerData : BuzzerData)
| Test (testData : TestData).

Definition serve (r : Request) : M unit :=
  match r with
  | Dispatch mapping buzzerData => sendOSCMessage mapping buzzerData
  | Test testData => sendTestCommand testData
  end.

(** *** The stages of a dispatch

    [sendOSCMessage] and [sendTestCommand] both make an attempt (pooled
    client, spread arguments, send) and then report an outcome (activity
    row, then event).  The stages are named here for the proofs. *)

Definition attempt (ip : string) (p : Z) (address : string) (args : Json)
  : M unit :=
  client <- pooled_client ip p ;;
  items <- spread args ;;
  client_send client address items.

Definition report (row : activity) (notice : Z -> Notice) : M unit :=
  logActivity (event_type row) (buzzer_mac row) (osc_address row)
    (target_ip row) (success row) (message row) ;;
  now <- new_Date ;;
  emit (notice now).

Definition mapping_args (mapping : Mapping) : Json :=
  parse_args (text_or (command_args mapping) "[]").

Definition sent_row (mapping : Mapping) (buzzerData : BuzzerData) : activity :=
  {| event_type := "osc_sent";
     buzzer_mac := VStr (bd_mac_address buzzerData);
     osc_address := VStr (command_address mapping);
     target_ip := VStr (ip_address mapping);
     success := true;
     message := "Sent to " +:+ target_name mapping +:+ " from " +:+
                text_or (Some (device_name mapping)) (bd_mac_address buzzerData) |}.

Definition failed_row (mapping : Mapping) (buzzerData : BuzzerData)
    (error_message : string) : activity :=
  {| event_type := "osc_failed";
     buzzer_mac := VStr (bd_mac_address buzzerData);
     osc_address := VStr (command_address mapping);
     target_ip := VStr (ip_address mapping);
     success := false;
     message := error_message |}.

Definition sent_notice (mapping : Mapping) (buzzerData : BuzzerData) (now : Z)
  : Notice :=
  {| n_test := false;
     n_buzzer_mac := Some (bd_mac_address buzzerData);
     n_device_name :=
       Some (text_or (Some (device_name mapping)) (bd_mac_address buzzerData));
     n_command_name := None;
     n_osc_address := Some (command_address mapping);
     n_osc_args := Some (mapping_args mapping);
     n_target_name := Some (target_name mapping);
     n_target_ip := Some (ip_address mapping);
     n_target_port := Some (port mapping);
     n_timestamp := now;
     n_success := true;
     n_error := None |}.

Definition failed_notice (mapping : Mapping) (buzzerData : BuzzerData)
    (error_message : string) (now : Z) : Notice :=
  {| n_test := false;
     n_buzzer_mac := Some (bd_mac_address buzzerData);
     n_device_name :=
       Some (text_or (Some (device_name mapping)) (bd_mac_address buzzerData));
     n_command_name := None;
     n_osc_address := Some (command_address mapping);
     n_osc_args := None;
     n_target_name := Some (target_name mapping);
     n_target_ip := Some (ip_address mapping);
     n_target_port := Some (port mapping);
     n_timestamp := now;
     n_success := false;
     n_error := Some error_message |}.

Definition test_args (command : osc_command) (testData : TestData) : Json :=
  match customArgs testData with
  | Some custom =>
      if String.eqb custom ""
      then parse_args (text_or (oc_arguments command) "[]")
      else parse_args custom
  | None => parse_args (text_or (oc_arguments command) "[]")
  end.

Definition test_sent_row (command : osc_command) (target : osc_target)
  : activity :=
  {| event_type := "test_osc_sent";
     buzzer_mac := VNull;
     osc_address := VStr (oc_address command);
     target_ip := VStr (ot_ip_address target);
     success := true;
     message := "Test command: " +:+ oc_name command +:+ " to " +:+
                ot_name target |}.

Definition test_failed_row (testData : TestData) (error_message : string)
  : activity :=
  {| event_type := "test_osc_failed";
     buzzer_mac := VNull;
     osc_address := VNum (commandId testData);
     target_ip := VNum (targetId testData);
     success := false;
     message := error_message |}.

Definition test_sent_notice (command : osc_command) (target : osc_target)
    (testData : TestData) (now : Z) : Notice :=
  {| n_test := true;
     n_buzzer_mac := None;
     n_device_name := None;
     n_command_name := Some (oc_name command);
     n_osc_address := Some (oc_address command);
     n_osc_args := Some (test_args command testData);
     n_target_name := Some (ot_name target);
     n_target_ip := Some (ot_ip_address target);
     n_target_port := Some (ot_port target);
     n_timestamp := now;
     n_success := true;
     n_error := None |}.

Definition test_failed_notice (error_message : string) (now : Z) : Notice :=
  {| n_test := true;
     n_buzzer_mac := None;
     n_device_name := None;
     n_command_name := None;
     n_osc_address := None;
     n_osc_args := None;
     n_target_name := None;
     n_target_ip := None;
     n_target_port := None;
     n_timestamp := now;
     n_success := false;
     n_error := Some error_message |}.

(** The state once the two lookups of a test have been counted. *)
Definition after_lookups (s : State) : State :=
  {| db := db s; db_calls := S (S (db_calls s)); clients := clients s;
     created := created s; sent := sent s; published := published s;
     clock_reads := clock_reads s |}.

(** The address and port a request takes to the pool, when it gets that
    far: a test does once its two lookups have answered with a row. *)
Definition endpoint (r : Request) (s : State) : option (string * Z) :=
  match r with
  | Dispatch mapping _ => Some (ip_address mapping, port mapping)
  | Test testData =>
      match db_error env (db_calls s), db_error env (S (db_calls s)) with
      | None, None =>
          match head (filter (fun c => oc_id c = commandId testData)
                        (osc_commands (db s))),
                head (filter (fun t => ot_id t = targetId testData)
                        (osc_targets (db s))) with
          | Some _, Some target => Some (ot_ip_address target, ot_port target)
          | _, _ => None
          end
      | _, _ => None
      end
  end.

End Service.

(** *** Reading the outcomes *)

(** The database and the listeners never fail. *)
Definition sinks_healthy (env : Environment) : Prop :=
  (forall n, db_error env n = None) /\ (forall n, listener_error env n = None).

(** The row of a press without mappings. *)
Definition unmapped_row (buzzerData : BuzzerData) : activity :=
  {| event_type := "buzzer_press_unmapped";
     buzzer_mac := VStr (bd_mac_address buzzerData);
     osc_address := VNull;
     target_ip := VNull;
     success := false;
     message := "No mappings configured" |}.

(** [row] is the activity row of a dispatch of [mapping] for the press
    [buzzerData]: sent or failed. *)
Definition outcome_of (buzzerData : BuzzerData) (mapping : Mapping)
    (row : activity) : Prop :=
  buzzer_mac row = VStr (bd_mac_address buzzerData) /\
  osc_address row = VStr (command_address mapping) /\
  target_ip row = VStr (ip_address mapping) /\
  (event_type row = "osc_sent" /\ success row = true \/
   event_type row = "osc_failed" /\ success row = false).

(** [notice] is the [osc-sent] event of a dispatch of [mapping]. *)
Definition notice_of (buzzerData : BuzzerData) (mapping : Mapping)
    (notice : Notice) : Prop :=
  n_test notice = false /\
  n_buzzer_mac notice = Some (bd_mac_address buzzerData) /\
  n_osc_address notice = Some (command_address mapping) /\
  n_target_name notice = Some (target_name mapping) /\
  n_target_ip notice = Some (ip_address mapping) /\
  n_target_port notice = Some (port mapping).

(** The mapping was sent with the argument list [items]: one datagram
    went out, through the client pooled for the address and port of the
    mapping, with the address of the command and these arguments; the
    row and the event are those of a success when the datagram was
    accepted, and carry its error otherwise. *)
Definition sent_with (env : Environment) (pool : gmap string Client)
    (buzzerData : BuzzerData) (mapping : Mapping) (items : list Json)
    (now : Z) (left_behind : activity * Notice * list Datagram) : Prop :=
  let '(row, notice, datagrams) := left_behind in
  exists dg,
    datagrams = [dg] /\
    pool !! targetKey (ip_address mapping) (port mapping) = Some (via dg) /\
    dg_address dg = command_address mapping /\
    dg_args dg = items /\
    match dg_error dg with
    | None =>
        row = sent_row mapping buzzerData /\
        notice = sent_notice env mapping buzzerData now
    | Some e =>
        row = failed_row mapping buzzerData e /\
        notice = failed_notice mapping buzzerData e now
    end.

(** What one mapping of a press leaves behind when the sinks work: its
    row, its event and the datagrams handed to a socket for it.  An
    array of arguments is sent element by element, a string character
    by character; any other value cannot be spread: nothing goes out
    and the row and the event carry the TypeError. *)
Definition settled (env : Environment) (pool : gmap string Client)
    (buzzerData : BuzzerData) (mapping : Mapping)
    (left_behind : activity * Notice * list Datagram) : Prop :=
  exists now,
    match mapping_args env mapping with
    | JArray items => sent_with env pool buzzerData mapping items now left_behind
    | JString str =>
        sent_with env pool buzzerData mapping
          (map (fun c => JString (String c EmptyString)) (list_ascii_of_string str))
          now left_behind
    | _ =>
        let '(row, notice, datagrams) := left_behind in
        datagrams = [] /\
        row = failed_row mapping buzzerData (not_iterable env) /\
        notice = failed_notice mapping buzzerData (not_iterable env) now
    end.

(** Every datagram of the list, the first of which was the [k]-th call
    of [client.send], ended the way the environment answers that
    call. *)
Definition answered (env : Environment) (k : nat) (datagrams : list Datagram)
  : Prop :=
  forall i dg,
    datagrams !! i = Some dg ->
    dg_error dg =
      send_error env (k + i) (host (via dg)) (client_port (via dg))
        (dg_address dg) (dg_args dg).

End Osc.

(** ** Concrete surroundings used to run the services on examples *)

Module Sample.
Import Js.

(** A clock that starts at 1700000000000 ms and advances by one at each
    reading, StringToNumber on strings of decimal digits (NaN on the
    others), listeners that return. *)
Definition runtime : Esp32.Runtime :=
  {| Esp32.tick := fun n => 1700000000000 + Z.of_nat n;
     Esp32.StringToNumber := fun str =>
       let ds := leading_digits 10 str in
       if (List.length ds =? String.length str)%nat
       then Some (digits_value 10 ds) else None;
     Esp32.listener_error := fun _ => None |}.

(** A store with one buzzer bound to one command on three targets, and a
    fourth target that names the address and port of the third again. *)
Definition database : Osc.Database :=
  {| Osc.buzzer_bindings :=
       [ {| Osc.bb_id := 1; Osc.bb_mac_address := "AA:BB:CC:DD:EE:FF";
            Osc.bb_device_name := "Buzzer 1"; Osc.bb_is_active := 1 |};
         {| Osc.bb_id := 2; Osc.bb_mac_address := "11:22:33:44:55:66";
            Osc.bb_device_name := "Buzzer 2"; Osc.bb_is_active := 1 |} ];
     Osc.osc_commands :=
       [ {| Osc.oc_id := 1; Osc.oc_name := "QLab - GO"; Osc.oc_address := "/go";
            Osc.oc_arguments := Some "[]" |} ];
     Osc.osc_targets :=
       [ {| Osc.ot_id := 1; Osc.ot_name := "Local Test";
            Osc.ot_ip_address := "127.0.0.1"; Osc.ot_port := 53000;
            Osc.ot_is_active := 1 |};
         {| Osc.ot_id := 2; Osc.ot_name := "Booth";
            Osc.ot_ip_address := "10.0.0.66"; Osc.ot_port := 53000;
            Osc.ot_is_active := 1 |};
         {| Osc.ot_id := 3; Osc.ot_name := "Stage";
            Osc.ot_ip_address := "10.0.0.7"; Osc.ot_port := 8000;
            Osc.ot_is_active := 1 |};
         {| Osc.ot_id := 4; Osc.ot_name := "Stage (backup name)";
            Osc.ot_ip_address := "10.0.0.7"; Osc.ot_port := 8000;
            Osc.ot_is_active := 1 |} ];
     Osc.buzzer_command_mappings :=
       [ {| Osc.bcm_id := 1; Osc.buzzer_binding_id := Some 1;
            Osc.osc_command_id := Some 1; Osc.osc_target_id := Some 1;
            Osc.bcm_is_active := 1 |};
         {| Osc.bcm_id := 2; Osc.buzzer_binding_id := Some 1;
            Osc.osc_command_id := Some 1; Osc.osc_target_id := Some 2;
            Osc.bcm_is_active := 1 |};
         {| Osc.bcm_id := 3; Osc.buzzer_binding_id := Some 1;
            Osc.osc_command_id := Some 1; Osc.osc_target_id := Some 3;
            Osc.bcm_is_active := 1 |} ];
     Osc.activity_log := [] |}.

(** Surroundings in which only the sends to 10.0.0.66 fail; [JSON.parse]
    knows the two argument texts the store uses. *)
Definition environment : Osc.Environment :=
  {| Osc.clock := fun n => 1700000000000 + Z.of_nat n;
     Osc.JSON_parse := fun text =>
       if String.eqb text "[]" then Some (Osc.JArray [])
       else if String.eqb text "[1]" then Some (Osc.JArray [Osc.JInt 1])
       else None;
     Osc.not_iterable := "args is not iterable";
     Osc.db_error := fun _ => None;
     Osc.send_error := fun _ host _ _ _ =>
       if String.eqb host "10.0.0.66" then Some "getaddrinfo ENOTFOUND"
       else None;
     Osc.listener_error := fun _ => None |}.

(** The same surroundings with a database that answers the first
    operation and rejects every later one. *)
Definition environment_log_down : Osc.Environment :=
  {| Osc.clock := Osc.clock environment;
     Osc.JSON_parse := Osc.JSON_parse environment;
     Osc.not_iterable := Osc.not_iterable environment;
     Osc.db_error := fun n => if (n =? 0)%nat then None else Some "SQLITE_FULL";
     Osc.send_error := fun _ _ _ _ _ => None;
     Osc.listener_error := fun _ => None |}.

(** The first row of the join for the press below. *)
Definition mapping_local : Osc.Mapping :=
  {| Osc.bcm :=
       {| Osc.bcm_id := 1; Osc.buzzer_binding_id := Some 1;
          Osc.osc_command_id := Some 1; Osc.osc_target_id := Some 1;
          Osc.bcm_is_active := 1 |};
     Osc.mac_address := "AA:BB:CC:DD:EE:FF";
     Osc.device_name := "Buzzer 1";
     Osc.command_name := "QLab - GO";
     Osc.command_address := "/go";
     Osc.command_args := Some "[]";
     Osc.target_name := "Local Test";
     Osc.ip_address := "127.0.0.1";
     Osc.port := 53000 |}.

(** The third row of the join: the target named Stage. *)
Definition mapping_stage : Osc.Mapping :=
  {| Osc.bcm :=
       {| Osc.bcm_id := 3; Osc.buzzer_binding_id := Some 1;
          Osc.osc_command_id := Some 1; Osc.osc_target_id := Some 3;
          Osc.bcm_is_active := 1 |};
     Osc.mac_address := "AA:BB:CC:DD:EE:FF";
     Osc.device_name := "Buzzer 1";
     Osc.command_name := "QLab - GO";
     Osc.command_address := "/go";
     Osc.command_args := Some "[]";
     Osc.target_name := "Stage";
     Osc.ip_address := "10.0.0.7";
     Osc.port := 8000 |}.

(** An administrator's test of the command on the fourth target, which
    names the address and port of Stage again. *)
Definition test_backup : Osc.TestData :=
  {| Osc.commandId := 1; Osc.targetId := 4; Osc.customArgs := None |}.

(** A press of the bound buzzer that has no mapping. *)
Definition press_unmapped : Osc.BuzzerData :=
  {| Osc.bd_mac_address := "11:22:33:44:55:66";
     Osc.bd_timestamp := VNum 1700000000000;
     Osc.bd_received_at := 1700000000005 |}.

Definition press : Osc.BuzzerData :=
  {| Osc.bd_mac_address := "AA:BB:CC:DD:EE:FF";
     Osc.bd_timestamp := VNum 1700000000000;
     Osc.bd_received_at := 1700000000005 |}.

End Sample.

(** ** Reading the device store *)

Module Presence.
Import Js Esp32.

(** The identifiers of the store, in the order [getDevices] walks them. *)
Definition keys (s : State) : list string := map fst (deviceStates s).

(** Whether a field of a DEVICE line is [k=...]. *)
Definition names_field (k part : string) : bool :=
  match split "=" part with
  | key :: _ :: _ => String.eqb key k
  | _ => false
  end.

(** The events a line added. *)
Definition new_events (s s' : State) : list Event :=
  drop (List.length (emitted s)) (emitted s').

Definition is_press (e : Event) : bool :=
  match e with BuzzerPress _ _ _ => true | _ => false end.

End Presence.

(** ** The fields of a DEVICE line *)

Module Fields.
Import Js Esp32.

(** The value of a field [k=value] of a DEVICE line, when [part] is one. *)
Definition field_value (k part : string) : option string :=
  match split "=" part with
  | key :: value :: _ => if String.eqb key k then Some value else None
  | _ => None
  end.

(** The value of the last field [k=value] among [parts]. *)
Definition last_field (k : string) (parts : list string) : option string :=
  fold_left (fun found part =>
               match field_value k part with
               | Some value => Some value
               | None => found
               end) parts None.

(** What the loop of [parseDeviceData] stores for a field value. *)
Definition flag (value : string) : Val :=
  if String.eqb value "1" then VBool true
  else if String.eqb value "0" then VBool false
  else VStr value.

End Fields.

(** ** The serial link and its simulation ([sendCommand],
      [simulateCommand], [simulateBuzzerPress], [startDeviceScan],
      [getStatus]) *)

Module Link.
Import Js Esp32.

(** The service with its serial link: the parser state, the connection
    flag, whether [serialPort] is set, what was written to the port, and
    the commands of the [setTimeout] callbacks that have not run yet (all
    have the same delay, so they run in the order they were set). *)
Record Service : Type := {
  core : State;
  isConnectedFlag : bool;
  serialPort : bool;
  written : list string;
  timers : list string
}.

Definition set_core (c : State) (l : Service) : Service :=
  {| core := c; isConnectedFlag := isConnectedFlag l;
     serialPort := serialPort l; written := written l; timers := timers l |}.

(** The callback of [simulateCommand]. *)
Definition simulated (rt : Runtime) (command : string) (s : State) : State :=
  if String.eqb command "STATUS" then
    handleSerialData rt "STATUS:1640995200,armed=0,devices=3" s
  else if startsWith "ARM" command then
    handleSerialData rt "ACK:ARMED" s
  else if String.eqb command "DISARM" then
    handleSerialData rt "ACK:DISARMED" s
  else if String.eqb command "SCAN" then
    handleSerialData rt "DEVICE:11:22:33:44:55:66,online=1,armed=0,pressed=0"
      (handleSerialData rt "DEVICE:AA:BB:CC:DD:EE:FF,online=1,armed=0,pressed=0" s)
  else s.

Definition simulateCommand (command : string) (l : Service) : Service :=
  {| core := core l; isConnectedFlag := isConnectedFlag l;
     serialPort := serialPort l; written := written l;
     timers := timers l ++ [command] |}.

Definition sendCommand (command : string) (l : Service) : bool * Service :=
  if isConnectedFlag l && serialPort l then
    (true,
     {| core := core l; isConnectedFlag := isConnectedFlag l;
        serialPort := serialPort l;
        written := written l ++ [command +:+ String "010" ""];
        timers := timers l |})
  else (false, simulateCommand command l).

(** The oldest pending callback runs. *)
Definition run_timer (rt : Runtime) (l : Service) : Service :=
  match timers l with
  | [] => l
  | command :: rest =>
      {| core := simulated rt command (core l);
         isConnectedFlag := isConnectedFlag l; serialPort := serialPort l;
         written := written l; timers := rest |}
  end.

Definition default_mac : string := "AA:BB:CC:DD:EE:FF".

(** [simulateBuzzerPress]; the identifier is a string or absent. *)
Definition simulateBuzzerPress (rt : Runtime) (macAddress : option string)
    (timestamp : Val) (s : State) : Completion unit * State :=
  let macAddress1 :=
    match macAddress with
    | Some m => if negb (truthy (VStr m)) then default_mac else m
    | None => default_mac
    end in
  let '(timestamp1, s1) :=
    if negb (truthy timestamp)
    then let '(now, s1) := Date_now rt s in (VNum now, s1)
    else (timestamp, s) in
  handleBuzzerPress rt macAddress1 timestamp1 s1.

Record ScanReply : Type := {
  scan_success : bool;
  scanning : bool;
  scan_timestamp : Z;
  hardwareConnected : bool
}.

Definition startDeviceScan (rt : Runtime) (l : Service) : ScanReply * Service :=
  let '(ok, l1) := sendCommand "SCAN" l in
  let '(now, c) := Date_now rt (core l1) in
  ({| scan_success := true; scanning := true; scan_timestamp := now;
      hardwareConnected := ok |},
   set_core c l1).

(** The reply of [getStatus], without the two settings read from the
    process environment. *)
Record StatusReply : Type := {
  connected : bool;
  deviceCount : nat;
  onlineDevices : nat;
  lastUpdate : Z
}.

Definition getStatus (rt : Runtime) (l : Service) : StatusReply * Service :=
  let '(_, l1) := sendCommand "STATUS" l in
  let '(now, c) := Date_now rt (core l1) in
  ({| connected := isConnectedFlag l1;
      deviceCount := List.length (deviceStates (core l1));
      onlineDevices :=
        List.length
          (List.filter (fun entry => truthy (prop (snd entry) "online"))
             (deviceStates (core l1)));
      lastUpdate := now |},
   set_core c l1).

End Link.

(** ** Surroundings that fail *)

Module Faults.

(** The sample runtime with listeners that throw at every event. *)
Definition runtime_listeners_throw : Esp32.Runtime :=
  {| Esp32.tick := Esp32.tick Sample.runtime;
     Esp32.StringToNumber := Esp32.StringToNumber Sample.runtime;
     Esp32.listener_error := fun _ => Some "listener failed" |}.

(** The sample surroundings with a database that rejects every
    operation. *)
Definition environment_db_down : Osc.Environment :=
  {| Osc.clock := Osc.clock Sample.environment;
     Osc.JSON_parse := Osc.JSON_parse Sample.environment;
     Osc.not_iterable := Osc.not_iterable Sample.environment;
     Osc.db_error := fun _ => Some "SQLITE_BUSY";
     Osc.send_error := fun _ _ _ _ _ => None;
     Osc.listener_error := fun _ => None |}.

(** The sample surroundings with a [JSON.parse] that also reads the
    number 5. *)
Definition environment_reads_numbers : Osc.Environment :=
  {| Osc.clock := Osc.clock Sample.environment;
     Osc.JSON_parse := fun text =>
       if String.eqb text "5" then Some (Osc.JInt 5)
       else Osc.JSON_parse Sample.environment text;
     Osc.not_iterable := Osc.not_iterable Sample.environment;
     Osc.db_error := Osc.db_error Sample.environment;
     Osc.send_error := Osc.send_error Sample.environment;
     Osc.listener_error := Osc.listener_error Sample.environment |}.

(** The sample surroundings with a log that takes one row and is full
    from then on: the database answers its first two operations and
    rejects every later one. *)
Definition environment_log_fills : Osc.Environment :=
  {| Osc.clock := Osc.clock Sample.environment;
     Osc.JSON_parse := Osc.JSON_parse Sample.environment;
     Osc.not_iterable := Osc.not_iterable Sample.environment;
     Osc.db_error := fun n => if (n <? 2)%nat then None else Some "SQLITE_FULL";
     Osc.send_error := Osc.send_error Sample.environment;
     Osc.listener_error := Osc.listener_error Sample.environment |}.

End Faults.

(** ** Runs of the dispatch engine *)

Module Runs.
Import Js Osc.

(** What reaches the service from outside: a press event, or an
    administrator's test. *)
Inductive Call : Type :=
| Press (buzzerData : BuzzerData)
| TestCommand (testData : TestData).

Definition handle (env : Environment) (c : Call) : M unit :=
  match c with
  | Press buzzerData => processBuzzerPress env buzzerData
  | TestCommand testData => sendTestCommand env testData
  end.

(** The calls are served one after the other; what a call throws is the
    caller's business and leaves the service where it stopped. *)
Definition run (env : Environment) (calls : list Call) (s : State) : State :=
  fold_left (fun st c => snd (handle env c st)) calls s.

(** The four configuration tables. *)
Definition same_configuration (d d' : Database) : Prop :=
  buzzer_bindings d' = buzzer_bindings d /\
  osc_commands d' = osc_commands d /\
  osc_targets d' = osc_targets d /\
  buzzer_command_mappings d' = buzzer_command_mappings d.

(** [s'] continues [s]: same configuration; the activity log, the
    datagrams and the events of [s] are a prefix of those of [s']; the
    pool of [s] is part of the pool of [s']. *)
Definition extends (s s' : State) : Prop :=
  same_configuration (db s) (db s') /\
  (exists rows, activity_log (db s') = activity_log (db s) ++ rows) /\
  (exists datagrams, sent s' = sent s ++ datagrams) /\
  (exists notices, published s' = published s ++ notices) /\
  clients s ⊆ clients s' /\
  (created s <= created s')%nat.

(** The pool as the service keeps it: every client sits under the key
    made of its own address and port, the clients are told apart by
    their serial numbers, as many were constructed as are pooled, and
    every datagram went through the client pooled for its destination. *)
Definition well_pooled (s : State) : Prop :=
  (forall k c, clients s !! k = Some c ->
     k = targetKey (host c) (client_port c) /\ (serial c < created s)%nat) /\
  (forall k k' c c', clients s !! k = Some c -> clients s !! k' = Some c' ->
     serial c = serial c' -> k = k') /\
  created s = size (clients s) /\
  Forall (fun dg =>
            clients s !! targetKey (host (via dg)) (client_port (via dg)) =
            Some (via dg)) (sent s).

(** [m] only continues the state it is run on. *)
Definition grows {A} (m : M A) : Prop := forall s, extends s (snd (m s)).

(** The state once one database operation has been counted. *)
Definition after_query (s : State) : State :=
  {| db := db s; db_calls := S (db_calls s); clients := clients s;
     created := created s; sent := sent s; published := published s;
     clock_reads := clock_reads s |}.

(** How a test ends before it reaches the pool: a lookup is rejected, or
    finds no row. *)
Definition lookup_failure (env : Environment) (testData : TestData) (s : State)
  : option (string * State) :=
  match db_error env (db_calls s) with
  | Some e => Some (e, after_query s)
  | None =>
      match head (filter (fun c => oc_id c = commandId testData)
                    (osc_commands (db s))) with
      | None =>
          Some ("Command not found: " +:+ pretty (commandId testData),
                after_query s)
      | Some _ =>
          match db_error env (S (db_calls s)) with
          | Some e => Some (e, after_lookups s)
          | None =>
              match head (filter (fun t => ot_id t = targetId testData)
                            (osc_targets (db s))) with
              | None =>
                  Some ("Target not found: " +:+ pretty (targetId testData),
                        after_lookups s)
              | Some _ => None
              end
          end
      end
  end.

(** The row the [catch] of [processBuzzerPress] logs. *)
Definition press_error_row (buzzerData : BuzzerData) (error_message : string)
  : activity :=
  {| event_type := "buzzer_press_error";
     buzzer_mac := VStr (bd_mac_address buzzerData);
     osc_address := VNull;
     target_ip := VNull;
     success := false;
     message := error_message |}.

(** The argument lists [client.send] is called with for a command whose
    arguments column holds [text]: none when the spread throws. *)
Definition wire_arguments (env : Environment) (text : string) : list (list Json) :=
  match JSON_parse env text with
  | None => [[]]
  | Some (JArray items) => [items]
  | Some (JString str) =>
      [map (fun c => JString (String c EmptyString)) (list_ascii_of_string str)]
  | Some _ => []
  end.

End Runs.

(** ** Target status and shutdown ([getTargetStatus], [disconnect],
      [getOSCTargets]) *)

Module Admin.
Import Js Osc.

(** [ORDER BY name]: the names compare byte by byte; they are unique in
    the table. *)
Fixpoint insert_by_name (t : osc_target) (l : list osc_target) : list osc_target :=
  match l with
  | [] => [t]
  | x :: r =>
      if String.leb (ot_name t) (ot_name x) then t :: l
      else x :: insert_by_name t r
  end.

Definition order_by_name (l : list osc_target) : list osc_target :=
  fold_right insert_by_name [] l.

(** One element of the list [getTargetStatus] returns: the row spread,
    then the two flags. *)
Record TargetStatus : Type := {
  row : osc_target;
  connected : bool;
  client_created : bool
}.

Section Engine.
Variable env : Environment.

(** [SELECT * FROM osc_targets WHERE is_active = 1 ORDER BY name] *)
Definition getOSCTargets : M (list osc_target) :=
  db_operation env (fun d =>
    (order_by_name (List.filter (fun t => ot_is_active t =? 1) (osc_targets d)), d)).

Definition getTargetStatus : M (list TargetStatus) :=
  targets <- getOSCTargets ;;
  fun s =>
    (Normal
       (map (fun target =>
               let hasClient :=
                 bool_decide
                   (is_Some (clients s !! targetKey (ot_ip_address target)
                                          (ot_port target))) in
               {| row := target; connected := hasClient;
                  client_created := hasClient |})
            targets),
     s).

(** [disconnect]: every client is closed, a failing [close] is only
    logged, and the pool is cleared.  The flag the service also resets is
    read by [isConnected] only and is not represented. *)
Definition disconnect (s : State) : State :=
  {| db := db s; db_calls := db_calls s; clients := ∅; created := created s;
     sent := sent s; published := published s; clock_reads := clock_reads s |}.

End Engine.

End Admin.

(** ** Writing the configuration ([services/database.js],
      [routes/bindings.js], the targets router) *)

Module Config.
Import Js Osc.

(** The largest rowid SQLite hands out. *)
Definition max_rowid : Z := 9223372036854775807.

(** The tables, and for the four AUTOINCREMENT tables written here the
    largest rowid ever handed out (their rows of [sqlite_sequence]).
    Foreign keys are declared but not enforced: the connection never
    turns them on. *)
Record Store : Type := {
  tables : Database;
  bindings_seq : Z;
  commands_seq : Z;
  targets_seq : Z;
  mappings_seq : Z
}.

Definition largest (ids : list Z) (seq : Z) : Z := fold_right Z.max seq ids.

(** The rowid of a row inserted without one into an AUTOINCREMENT table:
    one more than the largest ever used. *)
Definition next_rowid (ids : list Z) (seq : Z) : option Z :=
  let id := largest ids seq + 1 in
  if id <=? max_rowid then Some id else None.

Definition full : string := "SQLITE_FULL: database or disk is full".

(** [INSERT OR REPLACE INTO buzzer_bindings (mac_address, device_name,
    description, updated_at)]: the row that holds the address already is
    deleted, then the new row is inserted with a new rowid and the
    default [is_active]; the promise resolves with [lastID]. *)
Definition createBuzzerBinding (macAddress deviceName : string) (st : Store)
  : Completion Z * Store :=
  let d := tables st in
  match next_rowid (map bb_id (buzzer_bindings d)) (bindings_seq st) with
  | None => (Throw full, st)
  | Some id =>
      let kept :=
        List.filter (fun b => negb (String.eqb (bb_mac_address b) macAddress))
          (buzzer_bindings d) in
      (Normal id,
       {| tables :=
            {| buzzer_bindings :=
                 kept ++ [ {| bb_id := id; bb_mac_address := macAddress;
                              bb_device_name := deviceName; bb_is_active := 1 |} ];
               osc_commands := osc_commands d;
               osc_targets := osc_targets d;
               buzzer_command_mappings := buzzer_command_mappings d;
               activity_log := activity_log d |};
          bindings_seq := id;
          commands_seq := commands_seq st;
          targets_seq := targets_seq st;
          mappings_seq := mappings_seq st |})
  end.

(** [SELECT * FROM buzzer_bindings WHERE mac_address = ?], first row. *)
Definition getBuzzerBindingByMac (macAddress : string) (st : Store)
  : option buzzer_binding :=
  head (List.filter (fun b => String.eqb (bb_mac_address b) macAddress)
          (buzzer_bindings (tables st))).

(** [INSERT INTO buzzer_command_mappings (buzzer_binding_id,
    osc_command_id, osc_target_id)] *)
Definition createMapping (buzzerBindingId oscCommandId oscTargetId : Z)
    (st : Store) : Completion Z * Store :=
  let d := tables st in
  match next_rowid (map bcm_id (buzzer_command_mappings d)) (mappings_seq st) with
  | None => (Throw full, st)
  | Some id =>
      (Normal id,
       {| tables :=
            {| buzzer_bindings := buzzer_bindings d;
               osc_commands := osc_commands d;
               osc_targets := osc_targets d;
               buzzer_command_mappings :=
                 buzzer_command_mappings d ++
                 [ {| bcm_id := id; buzzer_binding_id := Some buzzerBindingId;
                      osc_command_id := Some oscCommandId;
                      osc_target_id := Some oscTargetId; bcm_is_active := 1 |} ];
               activity_log := activity_log d |};
          bindings_seq := bindings_seq st;
          commands_seq := commands_seq st;
          targets_seq := targets_seq st;
          mappings_seq := id |})
  end.

(** [INSERT INTO osc_commands (name, address, category, arguments,
    description)]: rejected when the name is taken ([name] is UNIQUE). *)
Definition createOSCCommand (name address args : string) (st : Store)
  : Completion Z * Store :=
  let d := tables st in
  if existsb (fun c => String.eqb (oc_name c) name) (osc_commands d) then
    (Throw "SQLITE_CONSTRAINT: UNIQUE constraint failed: osc_commands.name", st)
  else
    match next_rowid (map oc_id (osc_commands d)) (commands_seq st) with
    | None => (Throw full, st)
    | Some id =>
        (Normal id,
         {| tables :=
              {| buzzer_bindings := buzzer_bindings d;
                 osc_commands :=
                   osc_commands d ++
                   [ {| oc_id := id; oc_name := name; oc_address := address;
                        oc_arguments := Some args |} ];
                 osc_targets := osc_targets d;
                 buzzer_command_mappings := buzzer_command_mappings d;
                 activity_log := activity_log d |};
            bindings_seq := bindings_seq st;
            commands_seq := id;
            targets_seq := targets_seq st;
            mappings_seq := mappings_seq st |})
    end.

(** [INSERT INTO osc_targets (name, ip_address, port, description)]:
    rejected when the name is taken ([name] is UNIQUE). *)
Definition createOSCTarget (name ipAddress : string) (p : Z) (st : Store)
  : Completion Z * Store :=
  let d := tables st in
  if existsb (fun t => String.eqb (ot_name t) name) (osc_targets d) then
    (Throw "SQLITE_CONSTRAINT: UNIQUE constraint failed: osc_targets.name", st)
  else
    match next_rowid (map ot_id (osc_targets d)) (targets_seq st) with
    | None => (Throw full, st)
    | Some id =>
        (Normal id,
         {| tables :=
              {| buzzer_bindings := buzzer_bindings d;
                 osc_commands := osc_commands d;
                 osc_targets :=
                   osc_targets d ++
                   [ {| ot_id := id; ot_name := name; ot_ip_address := ipAddress;
                        ot_port := p; ot_is_active := 1 |} ];
                 buzzer_command_mappings := buzzer_command_mappings d;
                 activity_log := activity_log d |};
            bindings_seq := bindings_seq st;
            commands_seq := commands_seq st;
            targets_seq := id;
            mappings_seq := mappings_seq st |})
    end.

(** The tables [createTables] creates. *)
Definition created_tables : list string :=
  ["buzzer_bindings"; "osc_commands"; "osc_targets"; "buzzer_command_mappings";
   "activity_log"].

(** [DELETE FROM <table> WHERE buzzer_binding_id = ?]: only
    [buzzer_command_mappings] has the column. *)
Definition delete_where_binding (table : string) (id : Z) (st : Store)
  : Completion nat * Store :=
  if String.eqb table "buzzer_command_mappings" then
    let d := tables st in
    let kept :=
      List.filter (fun m => negb (refers (buzzer_binding_id m) id))
        (buzzer_command_mappings d) in
    (Normal (List.length (buzzer_command_mappings d) - List.length kept)%nat,
     {| tables :=
          {| buzzer_bindings := buzzer_bindings d;
             osc_commands := osc_commands d;
             osc_targets := osc_targets d;
             buzzer_command_mappings := kept;
             activity_log := activity_log d |};
        bindings_seq := bindings_seq st;
        commands_seq := commands_seq st;
        targets_seq := targets_seq st;
        mappings_seq := mappings_seq st |})
  else if existsb (String.eqb table) created_tables then
    (Throw "SQLITE_ERROR: no such column: buzzer_binding_id", st)
  else (Throw ("SQLITE_ERROR: no such table: " +:+ table), st).

Definition deleteMappingsForBuzzer (macAddress : string) (st : Store)
  : Completion nat * Store :=
  match getBuzzerBindingByMac macAddress st with
  | Some binding => delete_where_binding "buzzer_mappings" (bb_id binding) st
  | None => (Normal O, st)
  end.

(** *** The writing routes: [POST /] and [POST /:mac_address/mappings]
    of [routes/bindings.js], [POST /] of [routes/commands.js], [POST /]
    of the targets router *)

Inductive Response : Type :=
| Ok (id : Z)
| BadRequest (error : string)
| NotFound (error : string)
| ServerError (error : string).

(** [POST /]: a field of the body is a string or absent. *)
Definition post_binding (mac_address device_name : option string) (st : Store)
  : Response * Store :=
  match mac_address, device_name with
  | Some mac, Some name =>
      if negb (truthy (VStr mac)) || negb (truthy (VStr name))
      then (BadRequest "MAC address and device name are required", st)
      else match createBuzzerBinding mac name st with
           | (Normal id, st') => (Ok id, st')
           | (Throw e, st') => (ServerError e, st')
           end
  | _, _ => (BadRequest "MAC address and device name are required", st)
  end.

(** [POST /:mac_address/mappings]: an id of the body is a number or
    absent. *)
Definition post_mapping (mac_address : string)
    (osc_command_id osc_target_id : option Z) (st : Store) : Response * Store :=
  match osc_command_id, osc_target_id with
  | Some c, Some t =>
      if negb (truthy (VNum c)) || negb (truthy (VNum t))
      then (BadRequest "OSC command ID and target ID are required", st)
      else match getBuzzerBindingByMac mac_address st with
           | None => (NotFound "Buzzer binding not found. Create binding first.", st)
           | Some binding =>
               match createMapping (bb_id binding) c t st with
               | (Normal id, st') => (Ok id, st')
               | (Throw e, st') => (ServerError e, st')
               end
           end
  | _, _ => (BadRequest "OSC command ID and target ID are required", st)
  end.

(** [POST /] of [routes/commands.js]: the fields of the body are strings
    or absent; the arguments are only checked to parse. *)
Definition post_command (env : Environment) (name address args : option string)
    (st : Store) : Response * Store :=
  match name, address with
  | Some name, Some address =>
      if negb (truthy (VStr name)) || negb (truthy (VStr address))
      then (BadRequest "Name and address are required", st)
      else
        let argsStr := text_or args "[]" in
        match JSON_parse env argsStr with
        | None => (BadRequest "Arguments must be valid JSON array", st)
        | Some _ =>
            match createOSCCommand name address argsStr st with
            | (Normal id, st') => (Ok id, st')
            | (Throw e, st') => (ServerError e, st')
            end
        end
  | _, _ => (BadRequest "Name and address are required", st)
  end.

Definition in_range (lo hi : ascii) (c : ascii) : bool :=
  (code lo <=? code c) && (code c <=? code hi).

(** [25[0-5]|2[0-4][0-9]|[01]?[0-9][0-9]?] against a whole field: the
    first two alternatives take three characters, the third one to
    three. *)
Definition octet (field : string) : bool :=
  match field with
  | String a (String b (String c EmptyString)) =>
      (Ascii.eqb a "2" && Ascii.eqb b "5" && in_range "0" "5" c)
      || (Ascii.eqb a "2" && in_range "0" "4" b && in_range "0" "9" c)
      || (in_range "0" "1" a && in_range "0" "9" b && in_range "0" "9" c)
  | String a (String b EmptyString) => in_range "0" "9" a && in_range "0" "9" b
  | String a EmptyString => in_range "0" "9" a
  | _ => false
  end.

(** [ipPattern.test(ip)]: the pattern is anchored at both ends and an
    octet holds no dot, so it matches exactly the texts made of four
    octets separated by dots. *)
Definition ipPattern_test (ip : string) : bool :=
  match split "." ip with
  | [a; b; c; d] => octet a && octet b && octet c && octet d
  | _ => false
  end.

(** [POST /] of the targets router: [name] and [ip_address] are strings
    or absent, [port] is any value of the body. *)
Definition post_target (name ip_address : option string) (port : Val)
    (st : Store) : Response * Store :=
  match name, ip_address with
  | Some name, Some ip =>
      if negb (truthy (VStr name)) || negb (truthy (VStr ip)) || negb (truthy port)
      then (BadRequest "Name, IP address, and port are required", st)
      else
        match parseInt port with
        | VNum portNum =>
            if (portNum <? 1) || (portNum >? 65535)
            then (BadRequest "Port must be a valid number between 1 and 65535", st)
            else if negb (ipPattern_test ip) && negb (String.eqb ip "localhost")
            then (BadRequest "Invalid IP address format", st)
            else match createOSCTarget name ip portNum st with
                 | (Normal id, st') => (Ok id, st')
                 | (Throw e, st') => (ServerError e, st')
                 end
        | _ => (BadRequest "Port must be a valid number between 1 and 65535", st)
        end
  | _, _ => (BadRequest "Name, IP address, and port are required", st)
  end.

Inductive Post : Type :=
| PostBinding (mac_address device_name : option string)
| PostMapping (mac_address : string) (osc_command_id osc_target_id : option Z)
| PostTarget (name ip_address : option string) (port : Val).

Definition post (rq : Post) (st : Store) : Response * Store :=
  match rq with
  | PostBinding mac name => post_binding mac name st
  | PostMapping mac c t => post_mapping mac c t st
  | PostTarget name ip p => post_target name ip p st
  end.

Definition configure (requests : list Post) (st : Store) : Store :=
  fold_left (fun s rq => snd (post rq s)) requests st.

(** The store after [seedDefaultData] or any other filling of the
    command and target tables: no binding and no mapping yet. *)
Definition unbound (commands : list osc_command) (targets : list osc_target)
  : Store :=
  {| tables :=
       {| buzzer_bindings := []; osc_commands := commands;
          osc_targets := targets; buzzer_command_mappings := [];
          activity_log := [] |};
     bindings_seq := 0;
     commands_seq := largest (map oc_id commands) 0;
     targets_seq := largest (map ot_id targets) 0;
     mappings_seq := 0 |}.

(** No binding and no mapping names a binding rowid that was not handed
    out yet. *)
Definition ids_handed_out (st : Store) : Prop :=
  Forall (fun b => bb_id b <= bindings_seq st) (buzzer_bindings (tables st)) /\
  Forall (fun m => forall k, buzzer_binding_id m = Some k -> k <= bindings_seq st)
    (buzzer_command_mappings (tables st)).

(** A target as [POST /] stores them. *)
Definition well_addressed (t : osc_target) : Prop :=
  1 <= ot_port t <= 65535 /\
  (ot_ip_address t = "localhost" \/
   exists a b c d,
     split "." (ot_ip_address t) = [a; b; c; d] /\
     Forall (fun field =>
               all_chars is_digit field = true /\
               (1 <= String.length field <= 3)%nat /\
               exists n, parseInt_string field = VNum n /\ 0 <= n <= 255)
       [a; b; c; d]).

End Config.

(** ** The server's wiring of the two services *)

Module Server.
Import Js.

(** The two services as the server wires them, and the calls of
    [processBuzzerPress] its [buzzer-press] listener has made, oldest
    first.  The listener does not await a call: the call only starts
    in the listener and goes on at its own [await]s after the listener
    has returned, interleaved with whatever the server handles
    meanwhile.  What the started calls do to the engine is therefore
    not part of the delivery of a line. *)
Record Server : Type := {
  esp : Esp32.State;
  osc : Osc.State;
  started : list Osc.BuzzerData
}.

Definition press_data (mac : string) (timestamp : Val) (received_at : Z)
  : Osc.BuzzerData :=
  {| Osc.bd_mac_address := mac; Osc.bd_timestamp := timestamp;
     Osc.bd_received_at := received_at |}.

(** The listeners the server registers on the ESP32 service, run on the
    events emitted from the [n]-th on.  The [buzzer-press] listener
    broadcasts the event to the admin room and then calls
    [processBuzzerPress] with it; when the broadcast throws, the call is
    not made.  The [device-update] listener only broadcasts. *)
Fixpoint listeners (rt : Esp32.Runtime) (n : nat) (events : list Esp32.Event)
    (calls : list Osc.BuzzerData) : list Osc.BuzzerData :=
  match events with
  | [] => calls
  | e :: rest =>
      listeners rt (S n) rest
        match e, Esp32.listener_error rt n with
        | Esp32.BuzzerPress mac timestamp received_at, None =>
            calls ++ [press_data mac timestamp received_at]
        | _, _ => calls
        end
  end.

(** One line from the serial port: the ESP32 service handles it, and
    the listeners run on the events it emits. *)
Definition deliver (rt : Esp32.Runtime) (line : string) (sv : Server) : Server :=
  let esp' := Esp32.handleSerialData rt line (esp sv) in
  {| esp := esp';
     osc := osc sv;
     started := listeners rt (List.length (Esp32.emitted (esp sv)))
                  (Presence.new_events (esp sv) esp') (started sv) |}.

End Server.

(** * Properties *)

(** ** Strings *)

Section StringFacts.
Import Js.

Lemma app_cons (c : ascii) (a b : string) : String c a +:+ b = String c (a +:+ b).
Proof. reflexivity. Qed.

Lemma app_empty (b : string) : "" +:+ b = b.
Proof. reflexivity. Qed.

Lemma append_assoc (a b c : string) : (a +:+ b) +:+ c = a +:+ (b +:+ c).
Proof.
  induction a as [|x a IH]; [reflexivity|].
  rewrite !app_cons, IH. reflexivity.
Qed.

Lemma prefix_empty (s : string) : String.prefix "" s = true.
Proof. destruct s; reflexivity. Qed.

Lemma prefix_cons (c d : ascii) (p r : string) :
  String.prefix (String c p) (String d r) = Ascii.eqb c d && String.prefix p r.
Proof.
  cbn [String.prefix]. destruct (ascii_dec c d) as [->|Hne].
  - rewrite Ascii.eqb_refl. destruct p; reflexivity.
  - apply Ascii.eqb_neq in Hne. rewrite Hne. reflexivity.
Qed.

Lemma prefix_app (p s : string) : String.prefix p (p +:+ s) = true.
Proof.
  induction p as [|c p IH]; [apply prefix_empty|].
  rewrite app_cons, prefix_cons, Ascii.eqb_refl. exact IH.
Qed.

Lemma includes_cons (p : string) (d : ascii) (r : string) :
  includes p (String d r) = String.prefix p (String d r) || includes p r.
Proof. reflexivity. Qed.

Lemma includes_char_cons (c d : ascii) (r : string) :
  includes (String c "") (String d r) = Ascii.eqb c d || includes (String c "") r.
Proof. rewrite includes_cons, prefix_cons, prefix_empty, andb_true_r. reflexivity. Qed.

Lemma includes_char_empty (c : ascii) : includes (String c "") "" = false.
Proof. reflexivity. Qed.

Lemma includes_char_app (c : ascii) (a b : string) :
  includes (String c "") (a +:+ b) =
  includes (String c "") a || includes (String c "") b.
Proof.
  induction a as [|d a IH].
  - rewrite app_empty, includes_char_empty. reflexivity.
  - rewrite app_cons, !includes_char_cons, IH, orb_assoc. reflexivity.
Qed.

(** A pattern cannot occur where its first character does not. *)
Lemma includes_first_char (c : ascii) (p s : string) :
  includes (String c "") s = false -> includes (String c p) s = false.
Proof.
  induction s as [|d r IH]; [reflexivity|].
  rewrite includes_char_cons, includes_cons, prefix_cons.
  intros H. apply orb_false_iff in H as [Hc Hr].
  rewrite Hc, (IH Hr). reflexivity.
Qed.

Lemma includes_prefix (p s : string) :
  String.prefix p s = true -> includes p s = true.
Proof. intros H. destruct s; cbn [includes]; rewrite H; reflexivity. Qed.

Lemma includes_skip (p a b : string) :
  includes p b = true -> includes p (a +:+ b) = true.
Proof.
  intros H. induction a as [|d a IH]; [exact H|].
  rewrite app_cons, includes_cons, IH. apply orb_true_r.
Qed.

Lemma split_nonempty (sep : ascii) (s : string) :
  exists f fs, split sep s = f :: fs.
Proof.
  induction s as [|c r [f [fs IH]]]; cbn [split]; [eauto|].
  destruct (Ascii.eqb c sep); [eauto|]. rewrite IH. eauto.
Qed.

(** Splitting at the first separator. *)
Lemma split_app_sep (sep : ascii) (a b : string) :
  includes (String sep "") a = false ->
  split sep (a +:+ String sep b) = a :: split sep b.
Proof.
  induction a as [|c a IH]; intros H.
  - rewrite app_empty. cbn [split]. rewrite Ascii.eqb_refl. reflexivity.
  - rewrite includes_char_cons in H. apply orb_false_iff in H as [Hc Ha].
    rewrite app_cons. cbn [split]. rewrite Ascii.eqb_sym, Hc, (IH Ha).
    reflexivity.
Qed.

Lemma split_no_sep (sep : ascii) (a : string) :
  includes (String sep "") a = false -> split sep a = [a].
Proof.
  induction a as [|c a IH]; intros H; [reflexivity|].
  rewrite includes_char_cons in H. apply orb_false_iff in H as [Hc Ha].
  cbn [split]. rewrite Ascii.eqb_sym, Hc, (IH Ha). reflexivity.
Qed.

(** The first field of a split starts like the string, unless the string
    starts with the separator. *)
Lemma split_head (sep : ascii) (s : string) :
  exists f fs, split sep s = f :: fs /\
    match s with
    | EmptyString => f = EmptyString
    | String c r =>
        if Ascii.eqb c sep then f = EmptyString else exists f', f = String c f'
    end.
Proof.
  destruct s as [|c r]; cbn [split]; [eauto|].
  destruct (Ascii.eqb c sep); [eauto|].
  destruct (split_nonempty sep r) as [f [fs ->]]. eauto.
Qed.

Lemma parseInt_string_not_null (s : string) : parseInt_string s <> VNull.
Proof.
  unfold parseInt_string.
  destruct (match trimStart s with
            | String c r =>
                if Ascii.eqb c "-" then (-1, r)
                else if Ascii.eqb c "+" then (1, r) else (1, trimStart s)
            | EmptyString => (1, trimStart s)
            end) as [sign s2].
  destruct (match s2 with
            | String c (String x r) =>
                if Ascii.eqb c "0" && (Ascii.eqb x "x" || Ascii.eqb x "X")
                then (16, r) else (10, s2)
            | _ => (10, s2)
            end) as [radix s3].
  destruct (leading_digits radix s3); discriminate.
Qed.

Lemma not_digit_no_value (c : ascii) :
  is_digit c = false -> digit_value 10 c = None.
Proof.
  unfold is_digit, digit_value. intros H. rewrite H.
  destruct ((97 <=? code c) && (code c <=? 122)) eqn:Hl.
  - apply andb_true_iff in Hl as [Hl _]. apply Z.leb_le in Hl.
    destruct (code c - 87 <? 10) eqn:Hd; [|reflexivity].
    apply Z.ltb_lt in Hd. lia.
  - destruct ((65 <=? code c) && (code c <=? 90)) eqn:Hu; [|reflexivity].
    apply andb_true_iff in Hu as [Hu _]. apply Z.leb_le in Hu.
    destruct (code c - 55 <? 10) eqn:Hd; [|reflexivity].
    apply Z.ltb_lt in Hd. lia.
Qed.

(** [parseInt] of a string that is empty or starts with anything but
    white space, a sign or a digit is NaN. *)
Lemma parseInt_string_NaN (s : string) :
  starts_numeric s = false -> parseInt_string s = VNaN.
Proof.
  destruct s as [|c r]; [reflexivity|].
  cbn [starts_numeric]. intros H.
  apply orb_false_iff in H as [H Hplus].
  apply orb_false_iff in H as [H Hminus].
  apply orb_false_iff in H as [Hspace Hdigit].
  unfold parseInt_string. cbn [trimStart]. rewrite Hspace, Hminus, Hplus.
  assert (Hzero : Ascii.eqb c "0" = false).
  { destruct (Ascii.eqb_spec c "0") as [->|]; [discriminate Hdigit|reflexivity]. }
  assert (Hrad : match String c r with
                 | String c0 (String x r0) =>
                     if Ascii.eqb c0 "0" && (Ascii.eqb x "x" || Ascii.eqb x "X")
                     then (16, r0) else (10, String c r)
                 | _ => (10, String c r)
                 end = (10, String c r)).
  { destruct r; [reflexivity|]. rewrite Hzero. reflexivity. }
  rewrite Hrad. cbn [leading_digits]. rewrite (not_digit_no_value c Hdigit).
  reflexivity.
Qed.

(** A field of a split is the string itself or what comes before a
    separator. *)
Lemma split_first_field (sep : ascii) (s f : string) (fs : list string) :
  split sep s = f :: fs -> s = f \/ exists r, s = f +:+ String sep r.
Proof.
  revert f fs. induction s as [|c s IH]; intros f fs; cbn [split].
  - intros [= <- _]. left. reflexivity.
  - destruct (Ascii.eqb_spec c sep) as [->|Hc].
    + intros [= <- _]. right. exists s. reflexivity.
    + destruct (split sep s) as [|g gs] eqn:Hs.
      * intros [= <- _]. destruct (split_nonempty sep s) as [g [gs Hg]]. congruence.
      * intros [= <- _]. destruct (IH g gs eq_refl) as [->|[r ->]].
        -- left. reflexivity.
        -- right. exists r. reflexivity.
Qed.

Lemma trimStart_comma (f r : string) :
  trimStart (f +:+ String "," r) = trimStart f +:+ String "," r.
Proof.
  induction f as [|c f IH]; [reflexivity|].
  rewrite app_cons. cbn [trimStart]. destruct (is_space c); [exact IH | reflexivity].
Qed.

Lemma leading_digits_comma (radix : Z) (f r : string) :
  leading_digits radix (f +:+ String "," r) = leading_digits radix f.
Proof.
  induction f as [|c f IH]; [reflexivity|].
  rewrite app_cons. cbn [leading_digits]. rewrite IH. reflexivity.
Qed.

(** [parseInt] reads no further than a comma. *)
Lemma parseInt_string_comma (f r : string) :
  parseInt_string (f +:+ String "," r) = parseInt_string f.
Proof.
  assert (Hprefix : forall (sign : Z) (g : string),
            (let '(radix, s3) :=
               match g +:+ String "," r with
               | String c (String x t) =>
                   if Ascii.eqb c "0" && (Ascii.eqb x "x" || Ascii.eqb x "X")
                   then (16, t) else (10, g +:+ String "," r)
               | _ => (10, g +:+ String "," r)
               end in
             match leading_digits radix s3 with
             | [] => VNaN
             | ds => VNum (sign * digits_value radix ds)
             end) =
            (let '(radix, s3) :=
               match g with
               | String c (String x t) =>
                   if Ascii.eqb c "0" && (Ascii.eqb x "x" || Ascii.eqb x "X")
                   then (16, t) else (10, g)
               | _ => (10, g)
               end in
             match leading_digits radix s3 with
             | [] => VNaN
             | ds => VNum (sign * digits_value radix ds)
             end)).
  { intros sign g. destruct g as [|c [|x t]].
    - rewrite app_empty. destruct r; reflexivity.
    - rewrite !app_cons, app_empty.
      replace (Ascii.eqb c "0" && (Ascii.eqb "," "x" || Ascii.eqb "," "X"))
        with false by (rewrite andb_false_r; reflexivity).
      change (String c (String "," r)) with (String c "" +:+ String "," r).
      rewrite leading_digits_comma. reflexivity.
    - rewrite !app_cons.
      destruct (Ascii.eqb c "0" && (Ascii.eqb x "x" || Ascii.eqb x "X")).
      + rewrite leading_digits_comma. reflexivity.
      + change (String c (String x (t +:+ String "," r)))
          with (String c (String x t) +:+ String "," r).
        rewrite leading_digits_comma. reflexivity. }
  unfold parseInt_string. rewrite trimStart_comma.
  destruct (trimStart f) as [|c g].
  - rewrite app_empty. change (Ascii.eqb "," "-") with false.
    change (Ascii.eqb "," "+") with false. cbv iota beta.
    exact (Hprefix 1 "").
  - rewrite app_cons.
    destruct (Ascii.eqb c "-"); [exact (Hprefix (-1) g)|].
    destruct (Ascii.eqb c "+"); [exact (Hprefix 1 g)|].
    exact (Hprefix 1 (String c g)).
Qed.

Lemma parseInt_string_first_field (s f : string) (fs : list string) :
  split "," s = f :: fs -> parseInt_string f = parseInt_string s.
Proof.
  intros H. destruct (split_first_field "," s f fs H) as [->|[r ->]];
    [reflexivity | symmetry; apply parseInt_string_comma].
Qed.

(** A no-break space before the digits is skipped like a space. *)
Example parseInt_skips_nbsp :
  parseInt_string (String (ascii_of_nat 160) "12") = VNum 12.
Proof. reflexivity. Qed.

Lemma all_chars_excludes (f : ascii -> bool) (c : ascii) (s : string) :
  f c = false -> all_chars f s = true -> includes (String c "") s = false.
Proof.
  intros Hc. induction s as [|d r IH]; [reflexivity|].
  cbn [all_chars]. intros H. apply andb_true_iff in H as [Hd Hr].
  rewrite includes_char_cons, (IH Hr), orb_false_r.
  apply Ascii.eqb_neq. intros ->. rewrite Hc in Hd. discriminate Hd.
Qed.

Lemma take_class_all (f : ascii -> bool) (s : string) :
  all_chars f s = true -> take_class f (String.length s) s = Some s.
Proof.
  induction s as [|c r IH]; [reflexivity|].
  cbn [all_chars String.length take_class]. intros H.
  apply andb_true_iff in H as [Hc Hr]. rewrite Hc, (IH Hr). reflexivity.
Qed.

(** The scan for [/from: (...)/] passes over text without an [f]. *)
Lemma match_from_mac_skip (a b : string) :
  includes "f" a = false -> match_from_mac (a +:+ b) = match_from_mac b.
Proof.
  induction a as [|c a IH]; intros H; [reflexivity|].
  rewrite includes_char_cons in H. apply orb_false_iff in H as [Hc Ha].
  rewrite app_cons. cbn [match_from_mac].
  rewrite prefix_cons, Hc. cbn [andb]. exact (IH Ha).
Qed.

Lemma match_from_mac_here (mac : string) :
  String.length mac = 17%nat -> all_chars is_mac_char mac = true ->
  match_from_mac ("from: " +:+ mac) = Some mac.
Proof.
  intros Hlen Hall.
  change ("from: " +:+ mac) with (String "f" ("rom: " +:+ mac)).
  cbn [match_from_mac].
  change (String "f" ("rom: " +:+ mac)) with ("from: " +:+ mac).
  rewrite prefix_app.
  change (substring 6 ("from: " +:+ mac)) with mac.
  rewrite <- Hlen, (take_class_all _ _ Hall). reflexivity.
Qed.

End StringFacts.

(** The primitives on the texts the firmware sends. *)
Example parseInt_samples :
  Js.parseInt (Js.VStr "1700000000000") = Js.VNum 1700000000000 /\
  Js.parseInt (Js.VStr "  -42xyz") = Js.VNum (-42) /\
  Js.parseInt (Js.VStr "0x1F") = Js.VNum 31 /\
  Js.parseInt (Js.VStr "abc") = Js.VNaN /\
  Js.parseInt Js.VUndef = Js.VNaN /\
  Js.split "," "a,b,,c" = ["a"; "b"; ""; "c"] /\
  Js.split "," "" = [""] /\
  Js.includes "bytes from:" "Received 16 bytes from: EC:62:60:1D:E8:D4" = true /\
  Js.match_from_mac "Received 16 bytes from: EC:62:60:1D:E8:D4" = Some "EC:62:60:1D:E8:D4" /\
  Js.match_from_mac "Received 16 bytes from: ec:62:60:1d:e8:d4" = None /\
  Js.match_heartbeat "xx Heartbeat from device 12 ok" = Some "12".
Proof. repeat split; vm_compute; reflexivity. Qed.

Section LineParser.
Import Js Esp32.
Variable rt : Runtime.

Lemma handleBuzzerPress_emitted (mac : string) (stamp : Val) (s : State) :
  emitted (snd (handleBuzzerPress rt mac stamp s)) =
  emitted s ++ [BuzzerPress mac stamp (tick rt (clock_reads s))].
Proof.
  unfold handleBuzzerPress, Date_now, emit. cbn [emitted fst snd].
  destruct (listener_error rt _); cbn [snd emitted]; [reflexivity|].
  destruct (Map_get _ _); reflexivity.
Qed.

(** A [BUZZER:] line whose identifier has no comma reaches
    [handleBuzzerPress] with the identifier and [parseInt] of the field
    after the first comma. *)
Lemma handleSerialData_buzzer (id ts : string) (s : State) :
  includes "," id = false ->
  exists field rest,
    split "," ts = field :: rest /\
    handleSerialData rt ("BUZZER:" +:+ id +:+ "," +:+ ts) s =
    snd (handleBuzzerPress rt id (parseInt_string field) s).
Proof.
  intros Hid. destruct (split_nonempty "," ts) as [field [rest Hts]].
  exists field, rest. split; [exact Hts|].
  unfold handleSerialData, startsWith. rewrite prefix_app.
  change (substring 7 ("BUZZER:" +:+ id +:+ "," +:+ ts)) with (id +:+ String "," ts).
  rewrite (split_app_sep "," id ts Hid), Hts. reflexivity.
Qed.

(** C7: the line [BUZZER:AA:BB:CC:DD:EE:FF,1700000000000] makes
    [handleSerialData] emit one press event whose identifier is
    [AA:BB:CC:DD:EE:FF] and whose timestamp is the number 1700000000000,
    whatever the state of the service. *)
Theorem buzzer_line_roundtrip (s : State) :
  emitted (handleSerialData rt "BUZZER:AA:BB:CC:DD:EE:FF,1700000000000" s) =
  emitted s ++
    [BuzzerPress "AA:BB:CC:DD:EE:FF" (VNum 1700000000000)
       (tick rt (clock_reads s))].
Proof.
  change (handleSerialData rt "BUZZER:AA:BB:CC:DD:EE:FF,1700000000000" s)
    with (snd (handleBuzzerPress rt "AA:BB:CC:DD:EE:FF" (VNum 1700000000000) s)).
  apply handleBuzzerPress_emitted.
Qed.

(** The timestamp of the press is [parseInt] of everything after the
    first comma: the field [parseInt] is given ends at the next comma,
    and [parseInt] would not read past one. *)
Lemma handleSerialData_buzzer_stamp (id ts : string) (s : State) :
  includes "," id = false ->
  handleSerialData rt ("BUZZER:" +:+ id +:+ "," +:+ ts) s =
  snd (handleBuzzerPress rt id (parseInt_string ts) s).
Proof.
  intros Hid.
  destruct (handleSerialData_buzzer id ts s Hid) as [field [rest [Hts ->]]].
  rewrite (parseInt_string_first_field ts field rest Hts). reflexivity.
Qed.

(** C8, as the code has it: a line [BUZZER:<id>,<ts>] always yields one
    press event for [<id>]; its timestamp is [parseInt(<ts>)], which is
    never [null], and is NaN when [<ts>] is empty or starts with
    anything but white space, a sign or a digit. *)
Theorem malformed_timestamp_press (id ts : string) (s : State) :
  includes "," id = false ->
  emitted (handleSerialData rt ("BUZZER:" +:+ id +:+ "," +:+ ts) s) =
    emitted s ++ [BuzzerPress id (parseInt_string ts) (tick rt (clock_reads s))] /\
  parseInt_string ts <> VNull /\
  (starts_numeric ts = false -> parseInt_string ts = VNaN).
Proof.
  intros Hid. rewrite (handleSerialData_buzzer_stamp id ts s Hid).
  split; [apply handleBuzzerPress_emitted|].
  split; [apply parseInt_string_not_null | apply parseInt_string_NaN].
Qed.

End LineParser.

(** The line [BUZZER:AA:BB:CC:DD:EE:FF,abc] on the freshly started
    service: the press event carries NaN, so no press event with a
    [null] timestamp was produced. *)
Lemma malformed_timestamp_is_not_null :
  Esp32.emitted
    (Esp32.handleSerialData Sample.runtime "BUZZER:AA:BB:CC:DD:EE:FF,abc"
       Esp32.initial) =
  [Esp32.BuzzerPress "AA:BB:CC:DD:EE:FF" Js.VNaN 1700000000000] /\
  ~ (exists received_at,
       Esp32.emitted
         (Esp32.handleSerialData Sample.runtime "BUZZER:AA:BB:CC:DD:EE:FF,abc"
            Esp32.initial) =
       [Esp32.BuzzerPress "AA:BB:CC:DD:EE:FF" Js.VNull received_at]).
Proof.
  split; [vm_compute; reflexivity|].
  intros [received_at H]. vm_compute in H. discriminate H.
Qed.

(** The same line, read through the general statement. *)
Lemma malformed_timestamp_press_witness :
  Js.includes "," "AA:BB:CC:DD:EE:FF" = false /\
  Esp32.emitted
    (Esp32.handleSerialData Sample.runtime
       ("BUZZER:" +:+ "AA:BB:CC:DD:EE:FF" +:+ "," +:+ "abc") Esp32.initial) =
  Esp32.emitted Esp32.initial ++
    [Esp32.BuzzerPress "AA:BB:CC:DD:EE:FF" (Js.parseInt_string "abc")
       (Esp32.tick Sample.runtime (Esp32.clock_reads Esp32.initial))] /\
  Js.parseInt_string "abc" <> Js.VNull /\
  (Js.starts_numeric "abc" = false -> Js.parseInt_string "abc" = Js.VNaN).
Proof.
  split; [reflexivity|].
  apply (malformed_timestamp_press Sample.runtime "AA:BB:CC:DD:EE:FF" "abc"
           Esp32.initial).
  reflexivity.
Defined.

(** ** The device state store *)

Section DeviceStore.
Import Js Esp32.
Variable rt : Runtime.

Lemma Map_get_set_eq (k : string) (v : Obj) (m : list (string * Obj)) :
  Map_get k (Map_set k v m) = Some v.
Proof.
  induction m as [|[k' v'] m IH]; cbn [Map_set Map_get].
  - rewrite String.eqb_refl. reflexivity.
  - destruct (String.eqb k k') eqn:E; cbn [Map_get]; rewrite ?String.eqb_refl, ?E;
      [reflexivity | exact IH].
Qed.

Lemma Map_get_set_ne (k k0 : string) (v : Obj) (m : list (string * Obj)) :
  k0 <> k -> Map_get k0 (Map_set k v m) = Map_get k0 m.
Proof.
  intros Hne. induction m as [|[k' v'] m IH]; cbn [Map_set Map_get].
  - apply String.eqb_neq in Hne. rewrite Hne. reflexivity.
  - destruct (String.eqb k k') eqn:E; cbn [Map_get].
    + apply String.eqb_eq in E. subst k'.
      apply String.eqb_neq in Hne. rewrite Hne. reflexivity.
    + rewrite IH. reflexivity.
Qed.

(** C5: in the list [getDevices] returns, an entry whose stored [online]
    is [true] and whose [last_seen] is the time [t] is reported offline
    when [now - t] has reached the 60000 ms threshold and online when it
    is below it, [now] being the clock reading of the call; the stored
    entries are the same after the call. *)
Theorem snapshot_staleness (s : State) (i : nat) (mac : string) (state : Obj) (t : Z) :
  deviceStates s !! i = Some (mac, state) ->
  prop state "online" = VBool true ->
  prop state "last_seen" = VNum t ->
  let now := tick rt (clock_reads s) in
  exists view,
    fst (getDevices rt s) !! i = Some view /\
    mac_address view = mac /\
    (staleThreshold <= now - t ->
       online view = false /\ status view = "offline") /\
    (now - t < staleThreshold ->
       online view = true /\ status view = "online") /\
    deviceStates (snd (getDevices rt s)) = deviceStates s.
Proof.
  intros Hentry Honline Hseen now.
  exists (device_view rt now (mac, state)).
  unfold getDevices, Date_now. cbn [fst snd deviceStates].
  split; [rewrite list_lookup_fmap, Hentry; reflexivity|].
  split; [reflexivity|].
  assert (Hage : sub (StringToNumber rt) (VNum now)
                   (or (prop state "last_seen") (VNum 0)) = VNum (now - t)).
  { rewrite Hseen. unfold or, truthy.
    destruct (t =? 0) eqn:E; cbn [negb sub ToNumber]; [|reflexivity].
    apply Z.eqb_eq in E. subst t. reflexivity. }
  unfold device_view. cbn [online status]. rewrite Hage, Honline.
  cbn [is_true andb lt ToNumber].
  split; [|split; [|reflexivity]].
  - intros Hstale. apply Z.ltb_ge in Hstale. rewrite Hstale. split; reflexivity.
  - intros Hfresh. apply Z.ltb_lt in Hfresh. rewrite Hfresh. split; reflexivity.
Qed.

Lemma deviceStates_Date_now (s : State) :
  deviceStates (snd (Date_now rt s)) = deviceStates s.
Proof. reflexivity. Qed.

(** What [parseDeviceData] does to the store once the line has passed its
    guards: one [set] under the identifier it extracted. *)
Lemma parseDeviceData_store (devicePart mac field : string)
    (fields : list string) (line : string) (s : State) :
  split "," line = devicePart :: field :: fields ->
  startsWith "DEVICE:" devicePart = true ->
  index (split ":" devicePart) 1 = VStr mac ->
  mac <> "" ->
  exists params,
    deviceStates (parseDeviceData rt line s) = Map_set mac params (deviceStates s).
Proof.
  intros Hparts Hprefix Hmac Hne.
  unfold parseDeviceData. rewrite Hparts.
  cbn [List.length Nat.ltb Nat.leb head default from_option negb]. unfold id.
  rewrite Hprefix, Hmac. cbn [negb truthy].
  apply String.eqb_neq in Hne. rewrite Hne. cbn [negb].
  unfold Date_now.
  match goal with
  | |- context [fold_left device_field ?l ?p0] =>
      generalize (fold_left device_field l p0)
  end.
  intros params1.
  destruct (is_true (prop params1 "online")).
  - eexists. reflexivity.
  - destruct (negb (truthy (prop params1 "last_online")) && _);
      eexists; reflexivity.
Qed.

(** The shape of a [DEVICE:] line whose identifier field is
    [head:tail]: the identifier [parseDeviceData] extracts is [head]. *)
Lemma device_line_shape (head tail rest : string) :
  includes ":" head = false ->
  includes "," head = false ->
  includes "," tail = false ->
  exists field fields,
    split "," ("DEVICE:" +:+ head +:+ ":" +:+ tail +:+ "," +:+ rest) =
      ("DEVICE:" +:+ head +:+ ":" +:+ tail) :: field :: fields /\
    index (split ":" ("DEVICE:" +:+ head +:+ ":" +:+ tail)) 1 = VStr head.
Proof.
  intros Hcolon Hcomma Htail.
  destruct (split_nonempty "," rest) as [field [fields Hrest]].
  exists field, fields. split.
  - replace ("DEVICE:" +:+ head +:+ ":" +:+ tail +:+ "," +:+ rest)
      with (("DEVICE:" +:+ head +:+ ":" +:+ tail) +:+ String "," rest)
      by (rewrite !append_assoc; reflexivity).
    rewrite split_app_sep, Hrest; [reflexivity|].
    rewrite !includes_char_app, Hcomma, Htail. reflexivity.
  - change ("DEVICE:" +:+ head +:+ ":" +:+ tail)
      with ("DEVICE" +:+ String ":" (head +:+ String ":" tail)).
    rewrite split_app_sep by reflexivity.
    rewrite split_app_sep by exact Hcolon.
    reflexivity.
Qed.

Lemma handleSerialData_device (body : string) (s : State) :
  deviceStates (handleSerialData rt ("DEVICE:" +:+ body) s) =
  deviceStates (parseDeviceData rt ("DEVICE:" +:+ body) s).
Proof.
  unfold handleSerialData, startsWith.
  change (String.prefix "BUZZER:" ("DEVICE:" +:+ body)) with false.
  change (String.prefix "STATUS:" ("DEVICE:" +:+ body)) with false.
  rewrite prefix_app. reflexivity.
Qed.

(** A press changes at most the entry stored under the pressed
    identifier. *)
Lemma handleBuzzerPress_other (mac k : string) (stamp : Val) (s : State) :
  k <> mac ->
  Map_get k (deviceStates (snd (handleBuzzerPress rt mac stamp s))) =
  Map_get k (deviceStates s).
Proof.
  intros Hne. unfold handleBuzzerPress, Date_now, emit. cbn [emitted fst snd].
  destruct (listener_error rt _); cbn [snd deviceStates]; [reflexivity|].
  destruct (Map_get mac _); cbn [snd deviceStates set_deviceStates];
    [|reflexivity].
  apply Map_get_set_ne. exact Hne.
Qed.

(** C10: a line [DEVICE:<head>:<tail>,...] stores its entry under
    [<head>], the part of the identifier before its first colon, and
    touches no other key; a following press line for the full identifier
    [<head>:<tail>] is emitted as an event for the full identifier and
    leaves the entry stored under [<head>] as the DEVICE line made it. *)
Theorem device_entry_untouched_by_press
    (head tail rest ts : string) (s : State) :
  head <> "" ->
  includes ":" head = false ->
  includes "," head = false ->
  includes "," tail = false ->
  let mac := head +:+ ":" +:+ tail in
  let s1 := handleSerialData rt ("DEVICE:" +:+ mac +:+ "," +:+ rest) s in
  let s2 := handleSerialData rt ("BUZZER:" +:+ mac +:+ "," +:+ ts) s1 in
  is_Some (Map_get head (deviceStates s1)) /\
  (forall k, k <> head ->
     Map_get k (deviceStates s1) = Map_get k (deviceStates s)) /\
  (exists stamp,
     emitted s2 = emitted s1 ++ [BuzzerPress mac stamp (tick rt (clock_reads s1))]) /\
  Map_get head (deviceStates s2) = Map_get head (deviceStates s1).
Proof.
  intros Hne Hcolon Hcomma Htail mac s1 s2.
  destruct (device_line_shape head tail rest Hcolon Hcomma Htail)
    as [field [fields [Hparts Hmac]]].
  assert (Hs1 : exists params,
             deviceStates s1 = Map_set head params (deviceStates s)).
  { subst s1 mac.
    rewrite handleSerialData_device, !append_assoc.
    eapply parseDeviceData_store; [exact Hparts | apply prefix_app | exact Hmac | exact Hne]. }
  destruct Hs1 as [params Hs1].
  assert (Hmaccomma : includes "," mac = false).
  { subst mac. rewrite !includes_char_app, Hcomma, Htail. reflexivity. }
  assert (Hdiff : head <> mac).
  { intros Heq. assert (Hc : includes ":" mac = true).
    { subst mac. rewrite !includes_char_app. cbn. apply orb_true_r. }
    rewrite <- Heq, Hcolon in Hc. discriminate Hc. }
  destruct (handleSerialData_buzzer rt mac ts s1 Hmaccomma)
    as [f [fs [_ Hs2]]].
  split; [rewrite Hs1, Map_get_set_eq; eauto|].
  split; [intros k Hk; rewrite Hs1; apply Map_get_set_ne; exact Hk|].
  subst s2. rewrite Hs2. split.
  - eexists. apply handleBuzzerPress_emitted.
  - apply handleBuzzerPress_other. exact Hdiff.
Qed.

(** A byte-count report ["Received <n> bytes from: <mac>"], [<n>] being
    digits and [<mac>] seventeen characters of [[A-F0-9:]], reaches
    [handleTriviaModeDevice] with [<mac>]. *)
Lemma handleSerialData_received (n mac : string) (s : State) :
  all_chars is_digit n = true ->
  String.length mac = 17%nat ->
  all_chars is_mac_char mac = true ->
  handleSerialData rt ("Received " +:+ n +:+ " bytes from: " +:+ mac) s =
  snd (handleTriviaModeDevice rt mac s).
Proof.
  intros Hn Hlen Hmac.
  set (line := "Received " +:+ n +:+ " bytes from: " +:+ mac).
  assert (Hheart : includes "Heartbeat from device" line = false).
  { apply includes_first_char. subst line.
    rewrite !includes_char_app.
    rewrite (all_chars_excludes is_digit "H" n eq_refl Hn).
    rewrite (all_chars_excludes is_mac_char "H" mac eq_refl Hmac).
    reflexivity. }
  assert (Hrecv : includes "Received" line = true).
  { apply includes_prefix. subst line.
    change ("Received " +:+ n +:+ " bytes from: " +:+ mac)
      with ("Received" +:+ (" " +:+ n +:+ " bytes from: " +:+ mac)).
    apply prefix_app. }
  assert (Hbytes : includes "bytes from:" line = true).
  { subst line. do 2 apply includes_skip.
    change (" bytes from: " +:+ mac) with (String " " ("bytes from:" +:+ (" " +:+ mac))).
    rewrite includes_cons, (includes_prefix _ _ (prefix_app _ _)).
    apply orb_true_r. }
  assert (Hmatch : match_from_mac line = Some mac).
  { subst line.
    replace ("Received " +:+ n +:+ " bytes from: " +:+ mac)
      with (("Received " +:+ n +:+ " bytes ") +:+ ("from: " +:+ mac))
      by (rewrite !append_assoc; reflexivity).
    rewrite match_from_mac_skip; [apply match_from_mac_here; assumption|].
    rewrite !includes_char_app.
    rewrite (all_chars_excludes is_digit "f" n eq_refl Hn). reflexivity. }
  unfold handleSerialData, startsWith.
  change (String.prefix "BUZZER:" line) with false.
  change (String.prefix "STATUS:" line) with false.
  change (String.prefix "DEVICE:" line) with false.
  cbv iota. rewrite Hheart, Hrecv, Hbytes, Hmatch. reflexivity.
Qed.

(** What [handleTriviaModeDevice] stores. *)
Lemma handleTriviaModeDevice_store (mac : string) (s : State) :
  exists entry,
    deviceStates (snd (handleTriviaModeDevice rt mac s)) =
      Map_set mac entry (deviceStates s) /\
    prop entry "online" = VBool true /\
    prop entry "discovery_mode" = VStr "trivia_heartbeat" /\
    prop entry "last_online" = VNum (tick rt (S (clock_reads s))) /\
    prop entry "press_count" = or (stored s mac "press_count") (VNum 0) /\
    prop entry "last_press" = or (stored s mac "last_press") VNull.
Proof.
  unfold handleTriviaModeDevice, Date_now, emit, stored.
  cbn [snd deviceStates set_deviceStates clock_reads].
  eexists. split; [reflexivity|].
  unfold prop. repeat split; by simplify_map_eq.
Qed.

(** C9, as the code has it: a byte-count report naming [<mac>] stores
    under [<mac>] an entry that is online with discovery mode
    [trivia_heartbeat]; its [press_count] and [last_press] are the stored
    ones when these are truthy and 0 / [null] otherwise (no entry, or a
    stored value such as 0, NaN or the empty string); the entries of the
    other identifiers are as before. *)
Theorem discovery_keeps_truthy_history (n mac : string) (s : State) :
  all_chars is_digit n = true ->
  String.length mac = 17%nat ->
  all_chars is_mac_char mac = true ->
  let s' := handleSerialData rt ("Received " +:+ n +:+ " bytes from: " +:+ mac) s in
  stored s' mac "online" = VBool true /\
  stored s' mac "discovery_mode" = VStr "trivia_heartbeat" /\
  stored s' mac "press_count" =
    (if truthy (stored s mac "press_count")
     then stored s mac "press_count" else VNum 0) /\
  stored s' mac "last_press" =
    (if truthy (stored s mac "last_press")
     then stored s mac "last_press" else VNull) /\
  (forall k, k <> mac ->
     Map_get k (deviceStates s') = Map_get k (deviceStates s)).
Proof.
  intros Hn Hlen Hmac s'. subst s'.
  rewrite (handleSerialData_received n mac s Hn Hlen Hmac).
  destruct (handleTriviaModeDevice_store mac s)
    as [entry [Hstore [Hon [Hmode [_ [Hcount Hpress]]]]]].
  assert (Hread : forall field,
             stored (snd (handleTriviaModeDevice rt mac s)) mac field =
             prop entry field).
  { intros field. unfold stored. rewrite Hstore, Map_get_set_eq. reflexivity. }
  rewrite !Hread.
  split; [exact Hon|]. split; [exact Hmode|].
  split; [exact Hcount|]. split; [exact Hpress|].
  intros k Hk. rewrite Hstore. apply Map_get_set_ne. exact Hk.
Qed.

(** *** [last_online] along a run *)
















Lemma feed_app (l1 l2 : list string) (s : State) :
  feed rt (l1 ++ l2) s = feed rt l2 (feed rt l1 s).
Proof. unfold feed. apply fold_left_app. Qed.

Section Monotone.
Hypothesis clock_mono : forall i j, (i <= j)%nat -> tick rt i <= tick rt j.



End Monotone.



End DeviceStore.

(** ** The store on concrete lines *)

(** A device discovered by a byte-count report, pressed with timestamp 0,
    then reported again: the stored [last_press] was 0 before the second
    report and is [null] after it. *)
Lemma discovery_resets_zero_last_press :
  let mac := "EC:62:60:1D:E8:D4" in
  let before :=
    Esp32.feed Sample.runtime
      ["Received 16 bytes from: EC:62:60:1D:E8:D4"; "BUZZER:EC:62:60:1D:E8:D4,0"]
      Esp32.initial in
  let after :=
    Esp32.handleSerialData Sample.runtime
      "Received 16 bytes from: EC:62:60:1D:E8:D4" before in
  Esp32.stored before mac "last_press" = Js.VNum 0 /\
  Esp32.stored after mac "last_press" = Js.VNull /\
  Esp32.stored after mac "last_press" <> Esp32.stored before mac "last_press".
Proof.
  vm_compute. repeat split; discriminate.
Qed.

(** A discovered device pressed once with a real timestamp, then reported
    again: its history is kept. *)
Lemma discovery_keeps_truthy_history_witness :
  let s :=
    Esp32.feed Sample.runtime
      ["Received 16 bytes from: EC:62:60:1D:E8:D4";
       "BUZZER:EC:62:60:1D:E8:D4,1700000000500"]
      Esp32.initial in
  let mac := "EC:62:60:1D:E8:D4" in
  let s' :=
    Esp32.handleSerialData Sample.runtime
      ("Received " +:+ "16" +:+ " bytes from: " +:+ mac) s in
  Js.all_chars Js.is_digit "16" = true /\
  String.length mac = 17%nat /\
  Js.all_chars Js.is_mac_char mac = true /\
  Esp32.stored s' mac "online" = Js.VBool true /\
  Esp32.stored s' mac "discovery_mode" = Js.VStr "trivia_heartbeat" /\
  Esp32.stored s' mac "press_count" =
    (if Js.truthy (Esp32.stored s mac "press_count")
     then Esp32.stored s mac "press_count" else Js.VNum 0) /\
  Esp32.stored s' mac "last_press" =
    (if Js.truthy (Esp32.stored s mac "last_press")
     then Esp32.stored s mac "last_press" else Js.VNull) /\
  (forall k, k <> mac ->
     Esp32.Map_get k (Esp32.deviceStates s') =
     Esp32.Map_get k (Esp32.deviceStates s)).
Proof.
  intros s mac s'.
  split; [reflexivity|]. split; [reflexivity|]. split; [reflexivity|].
  apply (discovery_keeps_truthy_history Sample.runtime "16" mac s);
    reflexivity.
Defined.

(** The snapshot of a device just discovered. *)
Lemma snapshot_staleness_witness :
  let s :=
    Esp32.feed Sample.runtime ["Received 16 bytes from: EC:62:60:1D:E8:D4"]
      Esp32.initial in
  let entry := default ∅ (Esp32.Map_get "EC:62:60:1D:E8:D4" (Esp32.deviceStates s)) in
  let now := Esp32.tick Sample.runtime (Esp32.clock_reads s) in
  Esp32.deviceStates s !! 0%nat = Some ("EC:62:60:1D:E8:D4", entry) /\
  Js.prop entry "online" = Js.VBool true /\
  Js.prop entry "last_seen" = Js.VNum 1700000000000 /\
  exists view,
    fst (Esp32.getDevices Sample.runtime s) !! 0%nat = Some view /\
    Esp32.mac_address view = "EC:62:60:1D:E8:D4" /\
    (Esp32.staleThreshold <= now - 1700000000000 ->
       Esp32.online view = false /\ Esp32.status view = "offline") /\
    (now - 1700000000000 < Esp32.staleThreshold ->
       Esp32.online view = true /\ Esp32.status view = "online") /\
    Esp32.deviceStates (snd (Esp32.getDevices Sample.runtime s)) =
    Esp32.deviceStates s.
Proof.
  intros s entry now.
  split; [reflexivity|]. split; [reflexivity|]. split; [reflexivity|].
  apply (snapshot_staleness Sample.runtime s 0%nat "EC:62:60:1D:E8:D4" entry
           1700000000000); reflexivity.
Defined.

(** The simulated scan line and a press of the same address, on the
    freshly started service. *)
Lemma device_entry_untouched_by_press_witness :
  let head := "11" in
  let tail := "22:33:44:55:66" in
  let mac := head +:+ ":" +:+ tail in
  let s1 :=
    Esp32.handleSerialData Sample.runtime
      ("DEVICE:" +:+ mac +:+ "," +:+ "online=1,armed=0,pressed=0") Esp32.initial in
  let s2 :=
    Esp32.handleSerialData Sample.runtime
      ("BUZZER:" +:+ mac +:+ "," +:+ "1700000000000") s1 in
  head <> "" /\
  Js.includes ":" head = false /\
  Js.includes "," head = false /\
  Js.includes "," tail = false /\
  is_Some (Esp32.Map_get head (Esp32.deviceStates s1)) /\
  (forall k, k <> head ->
     Esp32.Map_get k (Esp32.deviceStates s1) =
     Esp32.Map_get k (Esp32.deviceStates Esp32.initial)) /\
  (exists stamp,
     Esp32.emitted s2 =
     Esp32.emitted s1 ++
       [Esp32.BuzzerPress mac stamp
          (Esp32.tick Sample.runtime (Esp32.clock_reads s1))]) /\
  Esp32.Map_get head (Esp32.deviceStates s2) =
  Esp32.Map_get head (Esp32.deviceStates s1).
Proof.
  intros head tail mac s1 s2.
  split; [discriminate|]. split; [reflexivity|]. split; [reflexivity|].
  split; [reflexivity|].
  apply (device_entry_untouched_by_press Sample.runtime head tail
           "online=1,armed=0,pressed=0" "1700000000000" Esp32.initial);
    [discriminate | reflexivity | reflexivity | reflexivity].
Defined.

(** A device discovered by a byte-count report is stored under its full
    address, and a press of that address is counted there. *)
Example press_keyed_on_full_address :
  let s :=
    Esp32.feed Sample.runtime
      ["Received 16 bytes from: 11:22:33:44:55:66";
       "BUZZER:11:22:33:44:55:66,1700000000000"]
      Esp32.initial in
  map fst (Esp32.deviceStates s) = ["11:22:33:44:55:66"] /\
  Esp32.stored s "11:22:33:44:55:66" "pressed" = Js.VBool true /\
  Esp32.stored s "11:22:33:44:55:66" "press_count" = Js.VNum 1 /\
  Esp32.stored s "11:22:33:44:55:66" "last_press" = Js.VNum 1700000000000.
Proof. vm_compute. repeat split. Qed.

(** The simulated scan line [DEVICE:11:22:33:44:55:66,...] followed by a
    press of [11:22:33:44:55:66]: the only entry is keyed [11] and still
    reads not pressed, with no press counted. *)
Example scan_then_press :
  let s :=
    Esp32.feed Sample.runtime
      ["DEVICE:11:22:33:44:55:66,online=1,armed=0,pressed=0";
       "BUZZER:11:22:33:44:55:66,1700000000000"]
      Esp32.initial in
  map fst (Esp32.deviceStates s) = ["11"] /\
  Esp32.stored s "11" "pressed" = Js.VBool false /\
  Esp32.stored s "11" "press_count" = Js.VNum 0 /\
  Esp32.stored s "11" "last_press" = Js.VNull.
Proof. vm_compute. repeat split. Qed.



(** The two DEVICE lines of the scenario, then a snapshot: the device is
    offline and its [last_online] is the reading of the first line. *)
Example offline_snapshot_keeps_last_online :
  let s :=
    Esp32.feed Sample.runtime
      ["DEVICE:11:22:33:44:55:66,online=1,armed=0,pressed=0";
       "DEVICE:11:22:33:44:55:66,online=0"]
      Esp32.initial in
  map (fun view => (Esp32.mac_address view, Esp32.online view, Esp32.last_online view))
    (fst (Esp32.getDevices Sample.runtime s)) =
  [("11", false, Js.VNum 1700000000001)].
Proof. vm_compute. reflexivity. Qed.

(** ** The dispatch engine *)

Section Dispatch.
Import Js Osc.
Variable env : Environment.

(** Splits a conjunction of facts about the state after a stage and
    closes those that hold by computation. *)
Ltac pool_facts :=
  repeat match goal with
         | |- _ /\ _ => split
         | |- forall _, _ => intro
         | H : Some _ = Some _ |- _ => injection H as <-
         | H : Some _ = None |- _ => discriminate H
         | H : None = Some _ |- _ => discriminate H
         | |- Forall _ [] => constructor
         | |- Forall _ (_ :: _) => constructor
         | |- _ = _ => first [reflexivity | eassumption | apply lookup_insert_eq]
         end.

Lemma report_run (row : activity) (notice : Z -> Notice) (s : State) :
  report env row notice s =
  match db_error env (db_calls s) with
  | Some e =>
      (Throw e,
       {| db := db s; db_calls := S (db_calls s); clients := clients s;
          created := created s; sent := sent s; published := published s;
          clock_reads := clock_reads s |})
  | None =>
      (match listener_error env (List.length (published s)) with
       | Some e => Throw e
       | None => Normal tt
       end,
       {| db := insert_activity row (db s); db_calls := S (db_calls s);
          clients := clients s; created := created s; sent := sent s;
          published := published s ++ [notice (clock env (clock_reads s))];
          clock_reads := S (clock_reads s) |})
  end.
Proof.
  destruct row. unfold report, bind, logActivity, db_operation, new_Date, emit.
  cbn [event_type buzzer_mac osc_address target_ip success message db_calls].
  destruct (db_error env (db_calls s)); reflexivity.
Qed.

(** What an attempt does: nothing to the database, the events or the
    clock; the pool has a client for the key afterwards, created now only
    if there was none; at most one datagram goes out, through that
    client, and the attempt ends normally exactly when it was accepted. *)
Lemma attempt_effect (ip : string) (p : Z) (address : string) (args : Json)
    (s : State) :
  exists r s1 client datagrams,
    attempt env ip p address args s = (r, s1) /\
    db s1 = db s /\ db_calls s1 = db_calls s /\
    published s1 = published s /\ clock_reads s1 = clock_reads s /\
    clients s1 !! targetKey ip p = Some client /\
    (forall c, clients s !! targetKey ip p = Some c ->
       client = c /\ clients s1 = clients s /\ created s1 = created s) /\
    (clients s !! targetKey ip p = None ->
       clients s1 = <[targetKey ip p := client]> (clients s) /\
       created s1 = S (created s)) /\
    sent s1 = sent s ++ datagrams /\
    Forall (fun dg => via dg = client /\ dg_address dg = address) datagrams /\
    match r with
    | Normal _ => exists dg, datagrams = [dg] /\ dg_error dg = None
    | Throw e =>
        datagrams = [] \/ exists dg, datagrams = [dg] /\ dg_error dg = Some e
    end.
Proof.
  assert (Hspread : (exists items, spread env args = ret items) \/
                    spread env args = throw (not_iterable env)).
  { destruct args; cbn [spread]; eauto. }
  unfold attempt, bind, pooled_client.
  destruct (clients s !! targetKey ip p) as [c|] eqn:Hpool;
    destruct Hspread as [[items ->]| ->]; unfold ret, throw, client_send.
  - destruct (send_error env _ _ _ _ _) as [e|] eqn:Hsend.
    + eexists _, _, c, [_]. split; [reflexivity|].
      cbn [db db_calls clients created sent published clock_reads].
      pool_facts. right. eexists. split; reflexivity.
    + eexists _, _, c, [_]. split; [reflexivity|].
      cbn [db db_calls clients created sent published clock_reads].
      pool_facts. eexists. split; reflexivity.
  - eexists _, _, c, []. split; [reflexivity|].
    cbn [db db_calls clients created sent published clock_reads].
    rewrite app_nil_r. pool_facts. left. reflexivity.
  - destruct (send_error env _ _ _ _ _) as [e|] eqn:Hsend.
    + eexists _, _, _, [_]. split; [reflexivity|].
      cbn [db db_calls clients created sent published clock_reads].
      pool_facts. right. eexists. split; reflexivity.
    + eexists _, _, _, [_]. split; [reflexivity|].
      cbn [db db_calls clients created sent published clock_reads].
      pool_facts. eexists. split; reflexivity.
  - eexists _, _, _, []. split; [reflexivity|].
    cbn [db db_calls clients created sent published clock_reads].
    rewrite app_nil_r. pool_facts. left. reflexivity.
Qed.

(** Case analysis on the next call of a primitive of the service whose
    arguments are known. *)
Ltac peel_call :=
  match goal with
  | |- context [pooled_client ?ip ?p ?st] =>
      destruct (pooled_client ip p st) as [[?|?] ?]
  | |- context [spread ?e ?args ?st] =>
      destruct (spread e args st) as [[?|?] ?]
  | |- context [client_send ?e ?c ?a ?items ?st] =>
      destruct (client_send e c a items st) as [[[]|?] ?]
  | |- context [logActivity ?e ?t ?m ?a ?i ?ok ?msg ?st] =>
      destruct (logActivity e t m a i ok msg st) as [[[]|?] ?]
  | |- context [new_Date ?e ?st] =>
      destruct (new_Date e st) as [[?|?] ?]
  | |- context [emit ?e ?n ?st] =>
      destruct (emit e n st) as [[[]|?] ?]
  end.

Lemma sendOSCMessage_stages (mapping : Mapping) (bd : BuzzerData) (s : State) :
  sendOSCMessage env mapping bd s =
  try_catch
    (attempt env (ip_address mapping) (port mapping) (command_address mapping)
       (mapping_args env mapping) ;;
     report env (sent_row mapping bd) (sent_notice env mapping bd))
    (fun e => report env (failed_row mapping bd e) (failed_notice mapping bd e))
    s.
Proof.
  unfold sendOSCMessage, try_catch, attempt, report, mapping_args, bind.
  destruct (pooled_client _ _ s) as [[client|e] s1]; [|reflexivity].
  destruct (spread env _ s1) as [[items|e] s2]; [|reflexivity].
  destruct (client_send env _ _ _ s2) as [[[]|e] s3]; reflexivity.
Qed.

Lemma outcome_of_sent (mapping : Mapping) (bd : BuzzerData) :
  outcome_of bd mapping (sent_row mapping bd).
Proof. unfold outcome_of. cbn. intuition. Qed.

Lemma outcome_of_failed (mapping : Mapping) (bd : BuzzerData) (e : string) :
  outcome_of bd mapping (failed_row mapping bd e).
Proof. unfold outcome_of. cbn. intuition. Qed.

Lemma notice_of_sent (mapping : Mapping) (bd : BuzzerData) (now : Z) :
  notice_of bd mapping (sent_notice env mapping bd now).
Proof. unfold notice_of. cbn. repeat split. Qed.

Lemma notice_of_failed (mapping : Mapping) (bd : BuzzerData) (e : string) (now : Z) :
  notice_of bd mapping (failed_notice mapping bd e now).
Proof. unfold notice_of. cbn. repeat split. Qed.

Lemma answered_nil (k : nat) : answered env k [].
Proof. intros i dg H. rewrite lookup_nil in H. discriminate H. Qed.

Lemma answered_app (k : nat) (a b : list Datagram) :
  answered env k a -> answered env (k + List.length a) b ->
  answered env k (a ++ b).
Proof.
  intros Ha Hb i dg H.
  destruct (lookup_app_Some a b i dg) as [Hcases _].
  destruct (Hcases H) as [Hi|[Hlen Hi]]; [apply Ha, Hi|].
  rewrite (Hb _ _ Hi). f_equal. unfold List.length in *. lia.
Qed.

(** What an attempt does, exactly: the datagram, when the arguments can
    be spread, is the next call of [client.send], made through the
    client pooled for the key, and the attempt ends the way that call
    was answered. *)
Lemma attempt_exact (ip : string) (p : Z) (address : string) (args : Json)
    (s : State) :
  exists r s1,
    attempt env ip p address args s = (r, s1) /\
    db s1 = db s /\ db_calls s1 = db_calls s /\
    published s1 = published s /\ clock_reads s1 = clock_reads s /\
    (forall k c, clients s !! k = Some c -> clients s1 !! k = Some c) /\
    ((exists items dg,
        spread env args = ret items /\
        sent s1 = sent s ++ [dg] /\
        clients s1 !! targetKey ip p = Some (via dg) /\
        dg_address dg = address /\ dg_args dg = items /\
        dg_error dg =
          send_error env (List.length (sent s)) (host (via dg))
            (client_port (via dg)) address items /\
        r = match dg_error dg with None => Normal tt | Some e => Throw e end) \/
     (spread env args = throw (not_iterable env) /\
      sent s1 = sent s /\ r = Throw (not_iterable env))).
Proof.
  assert (Hspread : (exists items, spread env args = ret items) \/
                    spread env args = throw (not_iterable env)).
  { destruct args; cbn [spread]; eauto. }
  unfold attempt, bind, pooled_client.
  destruct (clients s !! targetKey ip p) as [c|] eqn:Hpool;
    destruct Hspread as [[items Hs]|Hs]; rewrite Hs; unfold ret, throw, client_send.
  - eexists _, _. split; [reflexivity|].
    cbn [db db_calls clients created sent published clock_reads].
    do 4 (split; [reflexivity|]). split; [auto|].
    left. eexists items, _. split; [reflexivity|]. split; [reflexivity|].
    cbn [via dg_address dg_args dg_error].
    split; [exact Hpool|]. do 3 (split; [reflexivity|]).
    destruct (send_error env _ _ _ _ _); reflexivity.
  - eexists _, _. split; [reflexivity|].
    cbn [db db_calls clients created sent published clock_reads].
    do 4 (split; [reflexivity|]). split; [auto|].
    right. repeat split.
  - eexists _, _. split; [reflexivity|].
    cbn [db db_calls clients created sent published clock_reads].
    do 4 (split; [reflexivity|]).
    split.
    { intros k c Hk. rewrite lookup_insert_ne; [exact Hk|].
      intros <-. rewrite Hpool in Hk. discriminate Hk. }
    left. eexists items, _. split; [reflexivity|]. split; [reflexivity|].
    cbn [via dg_address dg_args dg_error].
    split; [apply lookup_insert_eq|]. do 3 (split; [reflexivity|]).
    destruct (send_error env _ _ _ _ _); reflexivity.
  - eexists _, _. split; [reflexivity|].
    cbn [db db_calls clients created sent published clock_reads].
    do 4 (split; [reflexivity|]).
    split.
    { intros k c Hk. rewrite lookup_insert_ne; [exact Hk|].
      intros <-. rewrite Hpool in Hk. discriminate Hk. }
    right. repeat split.
Qed.

Lemma sent_with_pool (pool pool' : gmap string Client) (bd : BuzzerData)
    (mapping : Mapping) (items : list Json) (now : Z)
    (o : activity * Notice * list Datagram) :
  (forall k c, pool !! k = Some c -> pool' !! k = Some c) ->
  sent_with env pool bd mapping items now o ->
  sent_with env pool' bd mapping items now o.
Proof.
  intros Hsub. destruct o as [[row notice] datagrams].
  intros (dg & Hd & Hp & H). exists dg.
  split; [exact Hd|]. split; [apply Hsub, Hp | exact H].
Qed.

Lemma settled_pool (pool pool' : gmap string Client) (bd : BuzzerData)
    (mapping : Mapping) (o : activity * Notice * list Datagram) :
  (forall k c, pool !! k = Some c -> pool' !! k = Some c) ->
  settled env pool bd mapping o -> settled env pool' bd mapping o.
Proof.
  intros Hsub [now H]. exists now.
  destruct (mapping_args env mapping); try exact H;
    apply (sent_with_pool pool); assumption.
Qed.

(** What [spread] returns decides between the two shapes of an
    outcome. *)
Lemma settled_spread (pool : gmap string Client) (bd : BuzzerData)
    (mapping : Mapping) (now : Z) (o : activity * Notice * list Datagram)
    (s : State) :
  (forall items,
     spread env (mapping_args env mapping) s = (Normal items, s) ->
     sent_with env pool bd mapping items now o) ->
  (spread env (mapping_args env mapping) s = (Throw (not_iterable env), s) ->
   let '(row, notice, datagrams) := o in
   datagrams = [] /\
   row = failed_row mapping bd (not_iterable env) /\
   notice = failed_notice mapping bd (not_iterable env) now) ->
  settled env pool bd mapping o.
Proof.
  intros Hitems Hthrow. exists now.
  destruct (mapping_args env mapping); cbn [spread] in *;
    first [apply Hitems; reflexivity | apply Hthrow; reflexivity].
Qed.

(** With healthy sinks a dispatch ends normally and leaves exactly one
    row and one event behind, whatever the send did. *)
Lemma sendOSCMessage_settles (mapping : Mapping) (bd : BuzzerData) (s : State) :
  sinks_healthy env ->
  exists row notice datagrams s',
    sendOSCMessage env mapping bd s = (Normal tt, s') /\
    activity_log (db s') = activity_log (db s) ++ [row] /\
    published s' = published s ++ [notice] /\
    sent s' = sent s ++ datagrams /\
    (forall k c, clients s !! k = Some c -> clients s' !! k = Some c) /\
    settled env (clients s') bd mapping (row, notice, datagrams) /\
    answered env (List.length (sent s)) datagrams.
Proof.
  intros [Hdb Hlisten].
  destruct (attempt_exact (ip_address mapping) (port mapping)
              (command_address mapping) (mapping_args env mapping) s)
    as (r & s1 & Hrun & Hdb1 & _ & Hpub1 & _ & Hpool & Hcases).
  rewrite sendOSCMessage_stages. unfold try_catch, bind. rewrite Hrun.
  destruct Hcases as [(items & dg & Hs & Hsent & Hkey & Haddr & Hargs & Herr & ->)
                     |(Hs & Hsent & ->)].
  - assert (Hans : answered env (List.length (sent s)) [dg]).
    { intros i d Hi. destruct i as [|i]; [|destruct i; discriminate Hi].
      injection Hi as <-. rewrite Nat.add_0_r, Haddr, Hargs. exact Herr. }
    destruct (dg_error dg) as [e|] eqn:Hdg; rewrite report_run, Hdb, Hlisten.
    + exists (failed_row mapping bd e),
        (failed_notice mapping bd e (clock env (clock_reads s1))), [dg].
      eexists. split; [reflexivity|].
      cbn [db published sent clients insert_activity activity_log].
      rewrite Hdb1, Hpub1.
      do 2 (split; [reflexivity|]). split; [exact Hsent|]. split; [exact Hpool|].
      split; [|exact Hans].
      apply (settled_spread _ _ _ (clock env (clock_reads s1)) _ s).
      * intros items' Hs'. rewrite Hs in Hs'. injection Hs' as <-.
        exists dg. rewrite Hdg. repeat split; assumption.
      * intros Hs'. rewrite Hs in Hs'. discriminate Hs'.
    + exists (sent_row mapping bd),
        (sent_notice env mapping bd (clock env (clock_reads s1))), [dg].
      eexists. split; [reflexivity|].
      cbn [db published sent clients insert_activity activity_log].
      rewrite Hdb1, Hpub1.
      do 2 (split; [reflexivity|]). split; [exact Hsent|]. split; [exact Hpool|].
      split; [|exact Hans].
      apply (settled_spread _ _ _ (clock env (clock_reads s1)) _ s).
      * intros items' Hs'. rewrite Hs in Hs'. injection Hs' as <-.
        exists dg. rewrite Hdg. repeat split; assumption.
      * intros Hs'. rewrite Hs in Hs'. discriminate Hs'.
  - rewrite report_run, Hdb, Hlisten.
    exists (failed_row mapping bd (not_iterable env)),
      (failed_notice mapping bd (not_iterable env) (clock env (clock_reads s1))), [].
    eexists. split; [reflexivity|].
    cbn [db published sent clients insert_activity activity_log].
    rewrite Hdb1, Hpub1, app_nil_r.
    do 2 (split; [reflexivity|]). split; [exact Hsent|]. split; [exact Hpool|].
    split; [|apply answered_nil].
    apply (settled_spread _ _ _ (clock env (clock_reads s1)) _ s).
    + intros items' Hs'. rewrite Hs in Hs'. discriminate Hs'.
    + intros _. repeat split.
Qed.

Lemma for_each_settles (bd : BuzzerData) (mappings : list Mapping) (s : State) :
  sinks_healthy env ->
  exists outcomes s',
    for_each mappings (fun mapping => sendOSCMessage env mapping bd) s =
      (Normal tt, s') /\
    activity_log (db s') =
      activity_log (db s) ++ map (fun o => fst (fst o)) outcomes /\
    published s' = published s ++ map (fun o => snd (fst o)) outcomes /\
    sent s' = sent s ++ List.concat (map snd outcomes) /\
    (forall k c, clients s !! k = Some c -> clients s' !! k = Some c) /\
    Forall2 (settled env (clients s') bd) mappings outcomes /\
    answered env (List.length (sent s)) (List.concat (map snd outcomes)).
Proof.
  intros Hsinks. revert s.
  induction mappings as [|mapping mappings IH]; intros s.
  - exists [], s. cbn. rewrite !app_nil_r.
    repeat split; [auto | constructor | apply answered_nil].
  - destruct (sendOSCMessage_settles mapping bd s Hsinks)
      as (row & notice & datagrams & s1 & Hrun & Hlog & Hpub & Hsent & Hpool
          & Hsettled & Hans).
    destruct (IH s1) as (outcomes & s' & Hrest & Hlog' & Hpub' & Hsent' & Hpool'
                         & Hall & Hans').
    exists ((row, notice, datagrams) :: outcomes), s'.
    cbn [for_each]. unfold bind. rewrite Hrun, Hrest.
    split; [reflexivity|].
    rewrite Hlog', Hpub', Hsent', Hlog, Hpub, Hsent. cbn [map List.concat fst snd].
    rewrite <- !List.app_assoc.
    do 3 (split; [reflexivity|]). split; [auto|].
    split.
    + constructor; [|exact Hall].
      apply (settled_pool (clients s1)); assumption.
    + apply answered_app; [exact Hans|].
      rewrite Hsent, length_app in Hans'. exact Hans'.
Qed.

(** C1, as the code has it: with the database and the listeners
    working, a press whose identifier resolves to N >= 1 mappings ends
    normally and leaves, for each mapping in order, exactly one activity
    row and one [osc-sent] event.  Every mapping whose arguments can be
    spread has its send attempted, once, through the client pooled for
    its address and port, and its row and its event are those of a
    success exactly when the environment accepted that send; a mapping
    whose arguments cannot be spread leaves the failure of the spread
    and no datagram.  So no outcome depends on what another send did. *)
Theorem fan_out_settles_every_mapping (bd : BuzzerData) (s : State) :
  sinks_healthy env ->
  let mappings := select_mappings (db s) (bd_mac_address bd) in
  (1 <= List.length mappings)%nat ->
  exists outcomes s',
    processBuzzerPress env bd s = (Normal tt, s') /\
    List.length outcomes = List.length mappings /\
    activity_log (db s') =
      activity_log (db s) ++ map (fun o => fst (fst o)) outcomes /\
    published s' = published s ++ map (fun o => snd (fst o)) outcomes /\
    sent s' = sent s ++ List.concat (map snd outcomes) /\
    Forall2 (settled env (clients s') bd) mappings outcomes /\
    answered env (List.length (sent s)) (List.concat (map snd outcomes)).
Proof.
  intros Hsinks mappings Hsome.
  unfold processBuzzerPress, try_catch, bind, getMappingsForBuzzer, db_operation.
  rewrite (proj1 Hsinks). fold mappings.
  destruct mappings as [|mapping rest] eqn:Hmappings; [cbn in Hsome; lia|].
  cbn [List.length Nat.eqb].
  match goal with
  | |- context [for_each ?l ?f ?s0] =>
      destruct (for_each_settles bd l s0 Hsinks)
        as (outcomes & s' & Hrun & Hlog & Hpub & Hsent & _ & Hall & Hans)
  end.
  exists outcomes, s'. rewrite Hrun.
  split; [reflexivity|].
  split; [symmetry; apply (Forall2_length _ _ _ Hall)|].
  repeat split; assumption.
Qed.

(** C3, as the code has it: when the query answers and finds no mapping
    for the pressed identifier, nothing is sent, no client is created
    and no event is published.  When the log takes the row, the press
    ends normally with the single row [buzzer_press_unmapped] appended.
    When the log rejects it, that row is not recorded: the rejection is
    caught and logged as [buzzer_press_error], and when the log rejects
    that as well the press throws the second rejection and the log is
    as before. *)
Theorem unmapped_press_is_logged (bd : BuzzerData) (s : State) :
  db_error env (db_calls s) = None ->
  select_mappings (db s) (bd_mac_address bd) = [] ->
  let result := processBuzzerPress env bd s in
  sent (snd result) = sent s /\
  created (snd result) = created s /\
  clients (snd result) = clients s /\
  published (snd result) = published s /\
  match db_error env (S (db_calls s)) with
  | None =>
      fst result = Normal tt /\
      activity_log (db (snd result)) = activity_log (db s) ++ [unmapped_row bd]
  | Some e =>
      match db_error env (S (S (db_calls s))) with
      | None =>
          fst result = Normal tt /\
          activity_log (db (snd result)) =
            activity_log (db s) ++ [Runs.press_error_row bd e]
      | Some e' =>
          fst result = Throw e' /\
          activity_log (db (snd result)) = activity_log (db s)
      end
  end.
Proof.
  intros Hquery Hnone result. subst result.
  unfold processBuzzerPress, try_catch, bind, getMappingsForBuzzer, logActivity,
    db_operation.
  rewrite Hquery, Hnone. cbn [List.length Nat.eqb db db_calls].
  destruct (db_error env (S (db_calls s))) as [e|] eqn:Hlog.
  - cbn [db_calls]. destruct (db_error env (S (S (db_calls s))));
      cbn [fst snd sent created clients published db activity_log insert_activity];
      repeat split.
  - cbn [fst snd sent created clients published db activity_log insert_activity].
    repeat split.
Qed.


Lemma grown_list {A} (l : list A) (x : list A) (y : A) : l ++ x ++ [y] <> l.
Proof.
  intros H. apply (f_equal (@List.length A)) in H.
  rewrite !length_app in H. cbn in H. lia.
Qed.

(** Closes one path through [sendOSCMessage]: the four facts about the
    two sinks. *)
Ltac close_path :=
  cbn [fst snd db published activity_log insert_activity];
  repeat match goal with
         | H : db ?s1 = db _ |- _ => rewrite H
         | H : published ?s1 = published _ |- _ => rewrite H
         end;
  split;
  [ intros Hhealthy;
    first [ exfalso;
            match goal with
            | H : db_error env _ = Some _ |- _ =>
                rewrite Hhealthy in H; discriminate H
            end
          | eexists _, []; split; [reflexivity|];
            first [apply outcome_of_sent | apply outcome_of_failed]
          | eexists _, [_]; split; [rewrite <- List.app_assoc; reflexivity|];
            first [apply outcome_of_sent | apply outcome_of_failed] ]
  | split;
    [ intros Hsame;
      first [ reflexivity
            | exfalso; apply (grown_list _ [] _ Hsame)
            | exfalso; rewrite <- List.app_assoc in Hsame;
              apply (grown_list _ [_] _ Hsame) ]
    | split;
      [ intros Hnormal;
        first [ discriminate Hnormal
              | eexists [], _, [], _;
                split; [reflexivity|]; split; [reflexivity|];
                split; [first [apply outcome_of_sent | apply outcome_of_failed]|];
                split; [first [apply notice_of_sent | apply notice_of_failed]
                       | reflexivity]
              | eexists [_], _, [_], _;
                split; [rewrite <- List.app_assoc; reflexivity|];
                split; [rewrite <- List.app_assoc; reflexivity|];
                split; [apply outcome_of_failed|];
                split; [apply notice_of_failed | reflexivity] ]
      | intros e Hthrown;
        first [ discriminate Hthrown
              | injection Hthrown as <-; eauto ] ] ] ].

(** C2, as the code has it: [sendOSCMessage] appends to the activity log
    first and publishes the event only after the append succeeded.  So a
    failing publication does not prevent the append: when the log works,
    the row of the outcome is appended whatever the listeners do.  But
    nothing is published unless a row was appended; the call returns
    normally only when the last row and the last event describe the same
    outcome of this mapping; and what it throws is always the failure of
    one of the two sinks. *)
Theorem sinks_in_sequence (mapping : Mapping) (bd : BuzzerData) (s : State) :
  let result := sendOSCMessage env mapping bd s in
  let s' := snd result in
  ((forall n, db_error env n = None) ->
     exists row rest,
       activity_log (db s') = activity_log (db s) ++ row :: rest /\
       outcome_of bd mapping row) /\
  (activity_log (db s') = activity_log (db s) -> published s' = published s) /\
  (fst result = Normal tt ->
     exists rows row notices notice,
       activity_log (db s') = activity_log (db s) ++ rows ++ [row] /\
       published s' = published s ++ notices ++ [notice] /\
       outcome_of bd mapping row /\ notice_of bd mapping notice /\
       n_success notice = success row) /\
  (forall e, fst result = Throw e ->
     exists n, db_error env n = Some e \/ listener_error env n = Some e).
Proof.
  intros result s'. subst s' result.
  destruct (attempt_effect (ip_address mapping) (port mapping)
              (command_address mapping) (mapping_args env mapping) s)
    as (r & s1 & client & datagrams & Hrun & Hdb1 & Hcalls1 & Hpub1 & _).
  rewrite sendOSCMessage_stages. unfold try_catch, bind. rewrite Hrun.
  destruct r as [[]|e0]; rewrite report_run.
  - destruct (db_error env (db_calls s1)) as [e1|] eqn:Hlog1.
    + rewrite report_run. cbn [db_calls published].
      destruct (db_error env (S (db_calls s1))) as [e2|] eqn:Hlog2;
        [close_path|].
      destruct (listener_error env (List.length (published s1))) as [e3|] eqn:Hemit;
        close_path.
    + destruct (listener_error env (List.length (published s1))) as [e1|] eqn:Hemit1;
        [|close_path].
      rewrite report_run. cbn [db_calls published].
      destruct (db_error env (S (db_calls s1))) as [e2|] eqn:Hlog2;
        [close_path|].
      match goal with
      | |- context [listener_error env (List.length (?p ++ ?q))] =>
          destruct (listener_error env (List.length (p ++ q))) as [e3|] eqn:Hemit2
      end; close_path.
  - destruct (db_error env (db_calls s1)) as [e1|] eqn:Hlog1; [close_path|].
    destruct (listener_error env (List.length (published s1))) as [e2|] eqn:Hemit;
      close_path.
Qed.
(** *** The pool *)

Lemma report_frame (row : activity) (notice : Z -> Notice) (s : State) :
  clients (snd (report env row notice s)) = clients s /\
  created (snd (report env row notice s)) = created s /\
  sent (snd (report env row notice s)) = sent s.
Proof.
  rewrite report_run. destruct (db_error env (db_calls s)); cbn; auto.
Qed.

(** An attempt followed by its report, the failure being reported by
    [handler], which itself only reports: the pool and the datagrams are
    those the attempt left. *)
Lemma attempt_then_report_frame (m : M unit) (row : activity)
    (notice : Z -> Notice) (handler : string -> M unit) (s : State) :
  (forall e s0,
     clients (snd (handler e s0)) = clients s0 /\
     created (snd (handler e s0)) = created s0 /\
     sent (snd (handler e s0)) = sent s0) ->
  let s1 := snd (m s) in
  let s' := snd (try_catch (m ;; report env row notice) handler s) in
  clients s' = clients s1 /\ created s' = created s1 /\ sent s' = sent s1.
Proof.
  intros Hhandler s1 s'. subst s1 s'. unfold try_catch, bind.
  destruct (m s) as [[[]|e] s1]; cbn [snd]; [|apply Hhandler].
  pose proof (report_frame row notice s1) as Hreport.
  destruct (report env row notice s1) as [[[]|e] s2]; cbn [snd] in *;
    [exact Hreport|].
  destruct (Hhandler e s2) as (-> & -> & ->). exact Hreport.
Qed.

Lemma report_then_throw_frame (row : activity) (notice : Z -> Notice)
    (e : string) (s : State) :
  clients (snd ((report env row notice ;; @throw unit e) s)) = clients s /\
  created (snd ((report env row notice ;; @throw unit e) s)) = created s /\
  sent (snd ((report env row notice ;; @throw unit e) s)) = sent s.
Proof.
  pose proof (report_frame row notice s) as Hreport. unfold bind, throw.
  destruct (report env row notice s) as [[[]|e0] s1]; exact Hreport.
Qed.

Lemma sendTestCommand_stages (testData : TestData) (command : osc_command)
    (target : osc_target) (s : State) :
  db_error env (db_calls s) = None ->
  db_error env (S (db_calls s)) = None ->
  head (filter (fun c => oc_id c = commandId testData) (osc_commands (db s))) =
    Some command ->
  head (filter (fun t => ot_id t = targetId testData) (osc_targets (db s))) =
    Some target ->
  sendTestCommand env testData s =
  try_catch
    (attempt env (ot_ip_address target) (ot_port target) (oc_address command)
       (test_args env command testData) ;;
     report env (test_sent_row command target)
       (test_sent_notice env command target testData))
    (fun e =>
       report env (test_failed_row testData e) (test_failed_notice e) ;;
       throw e)
    (after_lookups s).
Proof.
  intros Hq1 Hq2 Hcommand Htarget.
  unfold sendTestCommand, try_catch, bind at 1, get_command, db_operation.
  rewrite Hq1, Hcommand. unfold bind at 1, get_target, db_operation.
  cbn [db db_calls]. rewrite Hq2, Htarget.
  unfold attempt, report, bind, test_sent_notice, test_failed_notice, test_args,
    after_lookups.
  cbn [event_type buzzer_mac osc_address target_ip success message
       test_sent_row test_failed_row
       db db_calls clients created sent published clock_reads].
  repeat first [reflexivity | peel_call].
Qed.

(** A request that reaches the pool with an address and a port leaves a
    client under their key: the one that was there, or one created now;
    its datagrams go through that client. *)
Lemma serve_pool (r : Request) (s : State) (ip : string) (p : Z) :
  endpoint env r s = Some (ip, p) ->
  exists client datagrams,
    clients (snd (serve env r s)) !! targetKey ip p = Some client /\
    (forall c, clients s !! targetKey ip p = Some c ->
       client = c /\ clients (snd (serve env r s)) = clients s /\
       created (snd (serve env r s)) = created s) /\
    (clients s !! targetKey ip p = None ->
       clients (snd (serve env r s)) = <[targetKey ip p := client]> (clients s) /\
       created (snd (serve env r s)) = S (created s)) /\
    sent (snd (serve env r s)) = sent s ++ datagrams /\
    Forall (fun dg => via dg = client) datagrams.
Proof.
  destruct r as [mapping bd|testData]; cbn [endpoint serve].
  - intros [= <- <-].
    destruct (attempt_effect (ip_address mapping) (port mapping)
                (command_address mapping) (mapping_args env mapping) s)
      as (r & s1 & client & datagrams & Hrun & _ & _ & _ & _ & Hkey & Hold
          & Hnew & Hsent & Hvia & _).
    rewrite sendOSCMessage_stages.
    match goal with
    | |- context [try_catch (?m ;; report env ?row ?notice) ?h s] =>
        destruct (attempt_then_report_frame m row notice h s) as (Hc & Hn & Hs);
          [intros e s0; apply report_frame|]
    end.
    rewrite Hrun in Hc, Hn, Hs. cbn [snd] in Hc, Hn, Hs.
    exists client, datagrams. rewrite Hc, Hn, Hs.
    split; [exact Hkey|]. split; [exact Hold|]. split; [exact Hnew|].
    split; [exact Hsent|].
    eapply Forall_impl; [exact Hvia|]. intros dg [Hdg _]. exact Hdg.
  - destruct (db_error env (db_calls s)) eqn:Hq1; [discriminate|].
    destruct (db_error env (S (db_calls s))) eqn:Hq2; [discriminate|].
    destruct (head (filter _ (osc_commands (db s)))) as [command|] eqn:Hcommand;
      [|discriminate].
    destruct (head (filter _ (osc_targets (db s)))) as [target|] eqn:Htarget;
      [|discriminate].
    intros [= <- <-].
    destruct (attempt_effect (ot_ip_address target) (ot_port target)
                (oc_address command) (test_args env command testData)
                (after_lookups s))
      as (r & s1 & client & datagrams & Hrun & _ & _ & _ & _ & Hkey & Hold
          & Hnew & Hsent & Hvia & _).
    rewrite (sendTestCommand_stages testData command target s Hq1 Hq2 Hcommand Htarget).
    match goal with
    | |- context [try_catch (?m ;; report env ?row ?notice) ?h (after_lookups s)] =>
        destruct (attempt_then_report_frame m row notice h (after_lookups s))
          as (Hc & Hn & Hs);
          [intros e s0; apply report_then_throw_frame|]
    end.
    rewrite Hrun in Hc, Hn, Hs. cbn [snd] in Hc, Hn, Hs.
    exists client, datagrams. rewrite Hc, Hn, Hs.
    split; [exact Hkey|]. split; [exact Hold|]. split; [exact Hnew|].
    split; [exact Hsent|].
    eapply Forall_impl; [exact Hvia|]. intros dg [Hdg _]. exact Hdg.
Qed.


End Dispatch.

(** ** The dispatch engine on the sample store *)

(** The press of the sample buzzer, one of whose three targets fails:
    three rows and three events, two successes and one failure, in the
    order of the mappings. *)
Example one_failing_target_among_three :
  let result :=
    Osc.processBuzzerPress Sample.environment Sample.press
      (Osc.initial Sample.database) in
  fst result = Js.Normal tt /\
  map (fun row => (Osc.target_ip row, Osc.event_type row, Osc.success row))
    (Osc.activity_log (Osc.db (snd result))) =
    [ (Js.VStr "127.0.0.1", "osc_sent", true);
      (Js.VStr "10.0.0.66", "osc_failed", false);
      (Js.VStr "10.0.0.7", "osc_sent", true) ] /\
  map (fun notice => (Osc.n_target_ip notice, Osc.n_success notice))
    (Osc.published (snd result)) =
    [ (Some "127.0.0.1", true); (Some "10.0.0.66", false);
      (Some "10.0.0.7", true) ] /\
  map Osc.dg_error (Osc.sent (snd result)) =
    [None; Some "getaddrinfo ENOTFOUND"; None].
Proof. vm_compute. repeat split. Qed.

(** The same press when the log takes one row and is full from then
    on: the first mapping is sent and logged, the send of the second
    fails and its failure cannot be logged, and the press stops there
    with a rejected promise: one outcome for three mappings, and the
    third target is never tried. *)
Lemma failed_send_stops_the_fan_out :
  let s := Osc.initial Sample.database in
  let result :=
    Osc.processBuzzerPress Faults.environment_log_fills Sample.press s in
  List.length (Osc.select_mappings (Osc.db s) (Osc.bd_mac_address Sample.press)) =
    3%nat /\
  fst result = Js.Throw "SQLITE_FULL" /\
  map (fun dg => (Osc.host (Osc.via dg), Osc.dg_error dg)) (Osc.sent (snd result)) =
    [ ("127.0.0.1", None); ("10.0.0.66", Some "getaddrinfo ENOTFOUND") ] /\
  map (fun row => (Osc.target_ip row, Osc.event_type row, Osc.success row))
    (Osc.activity_log (Osc.db (snd result))) =
    [ (Js.VStr "127.0.0.1", "osc_sent", true) ] /\
  map (fun notice => (Osc.n_target_ip notice, Osc.n_success notice))
    (Osc.published (snd result)) =
    [ (Some "127.0.0.1", true) ] /\
  ~ (exists outcomes : list Osc.activity,
       List.length outcomes = 3%nat /\
       Osc.activity_log (Osc.db (snd result)) =
         Osc.activity_log (Osc.db s) ++ outcomes).
Proof.
  intros s result.
  split; [vm_compute; reflexivity|]. split; [vm_compute; reflexivity|].
  split; [vm_compute; reflexivity|]. split; [vm_compute; reflexivity|].
  split; [vm_compute; reflexivity|].
  intros (outcomes & Hlen & Hlog).
  apply (f_equal (@List.length Osc.activity)) in Hlog.
  rewrite length_app, Hlen in Hlog. vm_compute in Hlog. discriminate Hlog.
Qed.

(** The press of the sample buzzer, whose identifier resolves to three
    mappings. *)
Lemma fan_out_settles_every_mapping_witness :
  let s := Osc.initial Sample.database in
  let mappings := Osc.select_mappings (Osc.db s) (Osc.bd_mac_address Sample.press) in
  Osc.sinks_healthy Sample.environment /\
  (1 <= List.length mappings)%nat /\
  exists outcomes s',
    Osc.processBuzzerPress Sample.environment Sample.press s = (Js.Normal tt, s') /\
    List.length outcomes = List.length mappings /\
    Osc.activity_log (Osc.db s') =
      Osc.activity_log (Osc.db s) ++ map (fun o => fst (fst o)) outcomes /\
    Osc.published s' = Osc.published s ++ map (fun o => snd (fst o)) outcomes /\
    Osc.sent s' = Osc.sent s ++ List.concat (map snd outcomes) /\
    Forall2 (Osc.settled Sample.environment (Osc.clients s') Sample.press)
      mappings outcomes /\
    Osc.answered Sample.environment (List.length (Osc.sent s))
      (List.concat (map snd outcomes)).
Proof.
  intros s mappings.
  assert (Hsinks : Osc.sinks_healthy Sample.environment)
    by (split; intros n; reflexivity).
  assert (Hsome : (1 <= List.length mappings)%nat) by (vm_compute; lia).
  split; [exact Hsinks|]. split; [exact Hsome|].
  exact (fan_out_settles_every_mapping Sample.environment Sample.press s
           Hsinks Hsome).
Defined.

(** The press of the bound buzzer that has no mapping. *)
Lemma unmapped_press_is_logged_witness :
  let s := Osc.initial Sample.database in
  let result :=
    Osc.processBuzzerPress Sample.environment Sample.press_unmapped s in
  Osc.db_error Sample.environment (Osc.db_calls s) = None /\
  Osc.select_mappings (Osc.db s) (Osc.bd_mac_address Sample.press_unmapped) = [] /\
  Osc.sent (snd result) = Osc.sent s /\
  Osc.created (snd result) = Osc.created s /\
  Osc.clients (snd result) = Osc.clients s /\
  Osc.published (snd result) = Osc.published s /\
  match Osc.db_error Sample.environment (S (Osc.db_calls s)) with
  | None =>
      fst result = Js.Normal tt /\
      Osc.activity_log (Osc.db (snd result)) =
        Osc.activity_log (Osc.db s) ++ [Osc.unmapped_row Sample.press_unmapped]
  | Some e =>
      match Osc.db_error Sample.environment (S (S (Osc.db_calls s))) with
      | None =>
          fst result = Js.Normal tt /\
          Osc.activity_log (Osc.db (snd result)) =
            Osc.activity_log (Osc.db s) ++
              [Runs.press_error_row Sample.press_unmapped e]
      | Some e' =>
          fst result = Js.Throw e' /\
          Osc.activity_log (Osc.db (snd result)) = Osc.activity_log (Osc.db s)
      end
  end.
Proof.
  intros s result.
  split; [reflexivity|]. split; [reflexivity|].
  apply (unmapped_press_is_logged Sample.environment Sample.press_unmapped s);
    reflexivity.
Defined.

(** The same press when the database answers the query and then rejects
    every append: no mapping is found, the row [buzzer_press_unmapped]
    is rejected, so is the row [buzzer_press_error], and the press ends
    with a rejected promise and an empty log. *)
Lemma unmapped_press_can_be_rejected :
  let s := Osc.initial Sample.database in
  let result :=
    Osc.processBuzzerPress Sample.environment_log_down Sample.press_unmapped s in
  Osc.getMappingsForBuzzer Sample.environment_log_down
    (Osc.bd_mac_address Sample.press_unmapped) s =
    (Js.Normal [], Runs.after_query s) /\
  fst result = Js.Throw "SQLITE_FULL" /\
  Osc.activity_log (Osc.db (snd result)) = [] /\
  Osc.sent (snd result) = [] /\
  ~ (fst result = Js.Normal tt /\
     Osc.activity_log (Osc.db (snd result)) =
       Osc.activity_log (Osc.db s) ++ [Osc.unmapped_row Sample.press_unmapped]).
Proof.
  intros s result.
  split; [vm_compute; reflexivity|]. split; [vm_compute; reflexivity|].
  split; [vm_compute; reflexivity|]. split; [vm_compute; reflexivity|].
  intros [H _]. vm_compute in H. discriminate H.
Qed.

(** The press of the sample buzzer when the database answers the query
    and then rejects every append: the first datagram was accepted, yet
    nothing was published for it, the failure came out of
    [sendOSCMessage], and the press stopped there: one datagram for
    three mappings, no row, no event, a rejected promise. *)
Lemma log_failure_silences_publication :
  let queried :=
    snd (Osc.getMappingsForBuzzer Sample.environment_log_down
           "AA:BB:CC:DD:EE:FF" (Osc.initial Sample.database)) in
  let one :=
    Osc.sendOSCMessage Sample.environment_log_down Sample.mapping_local
      Sample.press queried in
  let all :=
    Osc.processBuzzerPress Sample.environment_log_down Sample.press
      (Osc.initial Sample.database) in
  (fst one = Js.Throw "SQLITE_FULL" /\
   map Osc.dg_error (Osc.sent (snd one)) = [None] /\
   Osc.published (snd one) = [] /\
   Osc.activity_log (Osc.db (snd one)) = []) /\
  (fst all = Js.Throw "SQLITE_FULL" /\
   List.length
     (Osc.select_mappings Sample.database "AA:BB:CC:DD:EE:FF") = 3%nat /\
   map Osc.dg_error (Osc.sent (snd all)) = [None] /\
   Osc.published (snd all) = [] /\
   Osc.activity_log (Osc.db (snd all)) = []).
Proof. vm_compute. repeat split. Qed.


(** A dispatch to the target named Stage, then a test on the target that
    names the same address and port: one client was created, and both
    datagrams went through it. *)
Example two_names_one_client :
  let s1 :=
    snd (Osc.sendOSCMessage Sample.environment Sample.mapping_stage Sample.press
           (Osc.initial Sample.database)) in
  let s2 := snd (Osc.sendTestCommand Sample.environment Sample.test_backup s1) in
  Osc.created s2 = 1%nat /\
  map (fun dg => Osc.serial (Osc.via dg)) (Osc.sent s2) = [O; O] /\
  map (fun notice => (Osc.n_test notice, Osc.n_target_name notice))
    (Osc.published s2) =
    [(false, Some "Stage"); (true, Some "Stage (backup name)")].
Proof. vm_compute. repeat split. Qed.

(** * Further properties of the services *)

(** ** The device store under arbitrary lines *)

Section StoreInvariants.
Import Js Esp32 Presence.
Variable rt : Runtime.

Lemma Map_get_keys (k : string) (m : list (string * Obj)) :
  Map_get k m = None <-> k ∉ map fst m.
Proof.
  induction m as [|[k' v] m IH]; cbn [Map_get map fst].
  - split; [intros _; apply not_elem_of_nil | reflexivity].
  - rewrite not_elem_of_cons. destruct (String.eqb_spec k k') as [->|Hne].
    + split; [discriminate | intros [Hk _]; congruence].
    + rewrite IH. tauto.
Qed.

Lemma Map_set_keys_present (k : string) (v : Obj) (m : list (string * Obj)) :
  Map_get k m <> None -> map fst (Map_set k v m) = map fst m.
Proof.
  induction m as [|[k' v'] m IH]; cbn [Map_get Map_set map fst]; [congruence|].
  destruct (String.eqb_spec k k') as [->|Hne]; cbn [map fst]; [reflexivity|].
  intros H. rewrite (IH H). reflexivity.
Qed.

Lemma Map_set_keys_absent (k : string) (v : Obj) (m : list (string * Obj)) :
  Map_get k m = None -> map fst (Map_set k v m) = map fst m ++ [k].
Proof.
  induction m as [|[k' v'] m IH]; cbn [Map_get Map_set map fst]; [reflexivity|].
  destruct (String.eqb_spec k k') as [->|Hne]; cbn [map fst]; [discriminate|].
  intros H. rewrite (IH H). reflexivity.
Qed.

(** What a [set] does to the identifiers: nothing, or one more at the
    end, which was not there. *)
Lemma Map_set_keys (k : string) (v : Obj) (m : list (string * Obj)) :
  map fst (Map_set k v m) = map fst m \/
  (map fst (Map_set k v m) = map fst m ++ [k] /\ k ∉ map fst m).
Proof.
  destruct (Map_get k m) as [old|] eqn:Hget.
  - left. apply Map_set_keys_present. congruence.
  - right. split; [apply Map_set_keys_absent; exact Hget|].
    apply Map_get_keys. exact Hget.
Qed.

(** [parseDeviceData] returns early or does one [set]. *)
Lemma parseDeviceData_shape (line : string) (s : State) :
  deviceStates (parseDeviceData rt line s) = deviceStates s \/
  exists mac params,
    deviceStates (parseDeviceData rt line s) = Map_set mac params (deviceStates s).
Proof.
  unfold parseDeviceData.
  destruct (List.length (split "," line) <? 2)%nat; [left; reflexivity|].
  destruct (negb (startsWith "DEVICE:" _)); [left; reflexivity|].
  destruct (index (split ":" _) 1) as [| | | | |mac]; try (left; reflexivity).
  destruct (negb (truthy (VStr mac))); [left; reflexivity|].
  right. exists mac. unfold Date_now.
  match goal with
  | |- context [fold_left device_field ?l ?p0] =>
      generalize (fold_left device_field l p0)
  end.
  intros params1.
  destruct (is_true (prop params1 "online")); [eexists; reflexivity|].
  destruct (negb _ && _); eexists; reflexivity.
Qed.

Lemma handleBuzzerPress_keys (mac : string) (stamp : Val) (s : State) :
  keys (snd (handleBuzzerPress rt mac stamp s)) = keys s.
Proof.
  unfold keys, handleBuzzerPress, Date_now, emit. cbn [emitted fst snd].
  destruct (listener_error rt _); cbn [snd deviceStates]; [reflexivity|].
  destruct (Map_get mac (deviceStates s)) as [entry|] eqn:Hentry;
    cbn [snd deviceStates set_deviceStates]; [|reflexivity].
  apply Map_set_keys_present. congruence.
Qed.

(** How the store of a line's result relates to the store before. *)
Lemma handleSerialData_store (line : string) (s : State) :
  keys (handleSerialData rt line s) = keys s \/
  ((startsWith "DEVICE:" line = true \/ is_Some (match_from_mac line)) /\
   exists mac entry,
     deviceStates (handleSerialData rt line s) =
     Map_set mac entry (deviceStates s)).
Proof.
  unfold handleSerialData.
  destruct (startsWith "BUZZER:" line).
  { left. destruct (index _ 0); try reflexivity. apply handleBuzzerPress_keys. }
  destruct (startsWith "STATUS:" line); [left; reflexivity|].
  destruct (startsWith "DEVICE:" line).
  { destruct (parseDeviceData_shape line s) as [Hsame|[mac [params Hset]]].
    - left. unfold keys. cbn. rewrite Hsame. reflexivity.
    - right. split; [left; reflexivity|]. exists mac, params. exact Hset. }
  destruct (includes "Heartbeat from device" line).
  { left. destruct (match_heartbeat line); reflexivity. }
  destruct (includes "Received" line && includes "bytes from:" line);
    [|left; reflexivity].
  destruct (match_from_mac line) as [mac|]; [|left; reflexivity].
  right. split; [right; eauto|].
  destruct (handleTriviaModeDevice_store rt mac s) as [entry [Hstore _]].
  exists mac, entry. exact Hstore.
Qed.

(** X1: whatever the line, the identifiers already stored stay, in the
    same order; at most one identifier is added, at the end, and only a
    DEVICE line or a byte-count report naming an address adds one. *)
Theorem store_keys_grow (line : string) (s : State) :
  exists added,
    keys (handleSerialData rt line s) = keys s ++ added /\
    (List.length added <= 1)%nat /\
    (added <> [] ->
       startsWith "DEVICE:" line = true \/ is_Some (match_from_mac line)).
Proof.
  destruct (handleSerialData_store line s) as [Hsame|[Hkind [mac [entry Hset]]]].
  - exists []. rewrite Hsame, app_nil_r. split; [reflexivity|].
    split; [cbn; lia | congruence].
  - unfold keys. rewrite Hset.
    destruct (Map_set_keys mac entry (deviceStates s)) as [->|[-> _]].
    + exists []. rewrite app_nil_r. split; [reflexivity|].
      split; [cbn; lia | congruence].
    + exists [mac]. split; [reflexivity|]. split; [cbn; lia|].
      intros _. exact Hkind.
Qed.

Lemma handleSerialData_NoDup (line : string) (s : State) :
  NoDup (keys s) -> NoDup (keys (handleSerialData rt line s)).
Proof.
  intros Hs.
  destruct (handleSerialData_store line s) as [->|[_ [mac [entry Hset]]]];
    [exact Hs|].
  unfold keys in *. rewrite Hset.
  destruct (Map_set_keys mac entry (deviceStates s)) as [->|[-> Hfresh]];
    [exact Hs|].
  apply NoDup_app. split; [exact Hs|]. split; [|apply NoDup_singleton].
  intros k Hk Hin. apply list_elem_of_singleton in Hin. subst k. auto.
Qed.

Lemma feed_NoDup (lines : list string) (s : State) :
  NoDup (keys s) -> NoDup (keys (feed rt lines s)).
Proof.
  revert s. induction lines as [|line lines IH]; intros s Hs; [exact Hs|].
  cbn [feed fold_left]. apply IH, handleSerialData_NoDup, Hs.
Qed.

(** X2: after any run of lines from the start, the snapshot lists every
    stored identifier exactly once, in the order the identifiers were
    first stored. *)
Theorem snapshot_lists_each_device_once (lines : list string) :
  let s := feed rt lines initial in
  map mac_address (fst (getDevices rt s)) = keys s /\
  NoDup (map mac_address (fst (getDevices rt s))).
Proof.
  intros s.
  assert (Hnames : map mac_address (fst (getDevices rt s)) = keys s).
  { unfold getDevices, Date_now, keys. cbn [fst deviceStates].
    rewrite map_map. apply map_ext. intros [k st]. reflexivity. }
  split; [exact Hnames|]. rewrite Hnames.
  apply feed_NoDup. apply NoDup_nil_2.
Qed.

(** *** Presses *)

(** X3: a press line for an identifier that is stored with a numeric
    press count, the listeners returning: the entry reads pressed, its
    [last_press] is the timestamp of the emitted event, its count is one
    more, its other properties and the other entries are as before. *)
Theorem known_device_press_counts (id ts : string) (s : State) (entry : Obj) (n : Z) :
  includes "," id = false ->
  Map_get id (deviceStates s) = Some entry ->
  prop entry "press_count" = VNum n ->
  listener_error rt (List.length (emitted s)) = None ->
  let s' := handleSerialData rt ("BUZZER:" +:+ id +:+ "," +:+ ts) s in
  exists stamp,
    emitted s' = emitted s ++ [BuzzerPress id stamp (tick rt (clock_reads s))] /\
    stored s' id "pressed" = VBool true /\
    stored s' id "last_press" = stamp /\
    stored s' id "press_count" = VNum (n + 1) /\
    (forall field,
       field <> "pressed" -> field <> "last_press" -> field <> "press_count" ->
       stored s' id field = stored s id field) /\
    (forall k, k <> id ->
       Map_get k (deviceStates s') = Map_get k (deviceStates s)).
Proof.
  intros Hid Hentry Hcount Hlisten s'. subst s'.
  destruct (handleSerialData_buzzer rt id ts s Hid) as [field [rest [_ ->]]].
  exists (parseInt_string field).
  split; [apply handleBuzzerPress_emitted|].
  assert (Hstore :
    deviceStates (snd (handleBuzzerPress rt id (parseInt_string field) s)) =
    Map_set id
      (<["press_count" := VNum (n + 1)]>
         (<["last_press" := parseInt_string field]>
            (<["pressed" := VBool true]> entry)))
      (deviceStates s)).
  { unfold handleBuzzerPress, Date_now, emit. cbn [emitted fst snd].
    rewrite Hlisten. cbn [deviceStates]. rewrite Hentry.
    cbn [snd deviceStates set_deviceStates]. f_equal. f_equal.
    unfold prop in *. do 2 (rewrite lookup_insert_ne; [|discriminate]).
    destruct (entry !! "press_count") as [v|]; cbn in Hcount |- *;
      [|discriminate Hcount].
    subst v. unfold or, truthy.
    destruct (Z.eqb_spec n 0) as [->|Hn]; reflexivity. }
  unfold stored. rewrite Hstore, Map_get_set_eq, Hentry. cbn [default from_option].
  unfold prop, Datatypes.id.
  split; [by simplify_map_eq|]. split; [by simplify_map_eq|].
  split; [by simplify_map_eq|].
  split; [intros f H1 H2 H3; by rewrite !lookup_insert_ne by congruence|].
  intros k Hk. apply Map_get_set_ne. exact Hk.
Qed.

(** X4: when a listener of the press event throws, the event has been
    emitted but the store is left as it was: the press is not counted. *)
Theorem press_lost_when_listener_throws (id ts e : string) (s : State) :
  includes "," id = false ->
  listener_error rt (List.length (emitted s)) = Some e ->
  let s' := handleSerialData rt ("BUZZER:" +:+ id +:+ "," +:+ ts) s in
  deviceStates s' = deviceStates s /\
  exists stamp,
    emitted s' = emitted s ++ [BuzzerPress id stamp (tick rt (clock_reads s))].
Proof.
  intros Hid Hlisten s'. subst s'.
  destruct (handleSerialData_buzzer rt id ts s Hid) as [field [rest [_ ->]]].
  split; [|eexists; apply handleBuzzerPress_emitted].
  unfold handleBuzzerPress, Date_now, emit. cbn [emitted fst snd].
  rewrite Hlisten. reflexivity.
Qed.

(** *** Events *)

Lemma new_events_app (s s' : State) (evs : list Event) :
  emitted s' = emitted s ++ evs -> new_events s s' = evs.
Proof. intros H. unfold new_events. rewrite H. apply drop_app_length. Qed.

Lemma parseDeviceData_emitted (line : string) (s : State) :
  emitted (parseDeviceData rt line s) = emitted s.
Proof.
  unfold parseDeviceData.
  destruct (List.length (split "," line) <? 2)%nat; [reflexivity|].
  destruct (negb (startsWith "DEVICE:" _)); [reflexivity|].
  destruct (index (split ":" _) 1) as [| | | | |mac]; try reflexivity.
  destruct (negb (truthy (VStr mac))); [reflexivity|].
  unfold Date_now.
  match goal with
  | |- context [fold_left device_field ?l ?p0] =>
      generalize (fold_left device_field l p0)
  end.
  intros params1.
  destruct (is_true (prop params1 "online")); [reflexivity|].
  destruct (negb _ && _); reflexivity.
Qed.

(** A line that is not a press emits at most one event, and no press. *)
Lemma handleSerialData_quiet (line : string) (s : State) :
  startsWith "BUZZER:" line = false ->
  exists evs,
    emitted (handleSerialData rt line s) = emitted s ++ evs /\
    (List.length evs <= 1)%nat /\
    existsb is_press evs = false.
Proof.
  intros Hline. unfold handleSerialData. rewrite Hline.
  destruct (startsWith "STATUS:" line).
  { eexists [_]. split; [reflexivity|]. split; [cbn; lia | reflexivity]. }
  destruct (startsWith "DEVICE:" line).
  { eexists [_]. cbn [Date_now emit snd emitted]. rewrite parseDeviceData_emitted.
    split; [reflexivity|]. split; [cbn; lia | reflexivity]. }
  destruct (includes "Heartbeat from device" line).
  { exists []. rewrite app_nil_r.
    split; [destruct (match_heartbeat line); reflexivity|].
    split; [cbn; lia | reflexivity]. }
  destruct (includes "Received" line && includes "bytes from:" line).
  { destruct (match_from_mac line) as [mac|].
    - eexists [_]. split; [reflexivity|]. split; [cbn; lia | reflexivity].
    - exists []. rewrite app_nil_r. split; [reflexivity|].
      split; [cbn; lia | reflexivity]. }
  exists []. rewrite app_nil_r. split; [reflexivity|].
  split; [cbn; lia | reflexivity].
Qed.

(** X5: a line makes the service emit at most one event; a press event
    comes from a [BUZZER:] line only, and every [BUZZER:] line emits
    one, whatever follows the prefix. *)
Theorem line_emits_at_most_one_event (line : string) (s : State) :
  let s' := handleSerialData rt line s in
  exists evs,
    emitted s' = emitted s ++ evs /\
    (List.length evs <= 1)%nat /\
    (startsWith "BUZZER:" line = true ->
       exists mac stamp,
         evs = [BuzzerPress mac stamp (tick rt (clock_reads s))]) /\
    (startsWith "BUZZER:" line = false -> existsb is_press evs = false).
Proof.
  intros s'. subst s'. destruct (startsWith "BUZZER:" line) eqn:Hline.
  - unfold handleSerialData. rewrite Hline.
    destruct (split_nonempty "," (substring 7 line)) as [mac [rest ->]].
    cbn [index lookup list_lookup].
    eexists. split; [apply handleBuzzerPress_emitted|].
    split; [cbn; lia|].
    split; [intros _; do 2 eexists; reflexivity | discriminate].
  - destruct (handleSerialData_quiet line s Hline) as (evs & Hevs & Hlen & Hquiet).
    exists evs. split; [exact Hevs|]. split; [exact Hlen|].
    split; [discriminate | intros _; exact Hquiet].
Qed.

End StoreInvariants.

(** The device of the byte-count report, pressed once. *)
Lemma known_device_press_counts_witness :
  let mac := "EC:62:60:1D:E8:D4" in
  let s :=
    Esp32.feed Sample.runtime ["Received 16 bytes from: EC:62:60:1D:E8:D4"]
      Esp32.initial in
  let entry := default ∅ (Esp32.Map_get mac (Esp32.deviceStates s)) in
  let s' :=
    Esp32.handleSerialData Sample.runtime
      ("BUZZER:" +:+ mac +:+ "," +:+ "1700000000500") s in
  Js.includes "," mac = false /\
  Esp32.Map_get mac (Esp32.deviceStates s) = Some entry /\
  Js.prop entry "press_count" = Js.VNum 0 /\
  Esp32.listener_error Sample.runtime (List.length (Esp32.emitted s)) = None /\
  exists stamp,
    Esp32.emitted s' =
      Esp32.emitted s ++
        [Esp32.BuzzerPress mac stamp
           (Esp32.tick Sample.runtime (Esp32.clock_reads s))] /\
    Esp32.stored s' mac "pressed" = Js.VBool true /\
    Esp32.stored s' mac "last_press" = stamp /\
    Esp32.stored s' mac "press_count" = Js.VNum (0 + 1) /\
    (forall field,
       field <> "pressed" -> field <> "last_press" -> field <> "press_count" ->
       Esp32.stored s' mac field = Esp32.stored s mac field) /\
    (forall k, k <> mac ->
       Esp32.Map_get k (Esp32.deviceStates s') =
       Esp32.Map_get k (Esp32.deviceStates s)).
Proof.
  intros mac s entry s'.
  split; [reflexivity|]. split; [reflexivity|]. split; [reflexivity|].
  split; [reflexivity|].
  apply (known_device_press_counts Sample.runtime mac "1700000000500" s entry 0);
    reflexivity.
Defined.

(** The same press with listeners that throw. *)
Lemma press_lost_when_listener_throws_witness :
  let mac := "EC:62:60:1D:E8:D4" in
  let s :=
    Esp32.feed Sample.runtime ["Received 16 bytes from: EC:62:60:1D:E8:D4"]
      Esp32.initial in
  let s' :=
    Esp32.handleSerialData Faults.runtime_listeners_throw
      ("BUZZER:" +:+ mac +:+ "," +:+ "1700000000500") s in
  Js.includes "," mac = false /\
  Esp32.listener_error Faults.runtime_listeners_throw
    (List.length (Esp32.emitted s)) = Some "listener failed" /\
  Esp32.deviceStates s' = Esp32.deviceStates s /\
  exists stamp,
    Esp32.emitted s' =
      Esp32.emitted s ++
        [Esp32.BuzzerPress mac stamp
           (Esp32.tick Faults.runtime_listeners_throw (Esp32.clock_reads s))].
Proof.
  intros mac s s'.
  split; [reflexivity|]. split; [reflexivity|].
  apply (press_lost_when_listener_throws Faults.runtime_listeners_throw mac
           "1700000000500" "listener failed" s); reflexivity.
Defined.

(** ** Numerals *)

Section Numerals.
Import Js.

Lemma digit_char (x : N) :
  (x < 10)%N ->
  is_digit (pretty_N_char x) = true /\
  digit_value 10 (pretty_N_char x) = Some (Z.of_N x).
Proof.
  intros Hx.
  assert (x = 0 \/ x = 1 \/ x = 2 \/ x = 3 \/ x = 4 \/ x = 5 \/ x = 6 \/ x = 7
          \/ x = 8 \/ x = 9)%N as H by lia.
  repeat (destruct H as [->|H]; [split; reflexivity|]).
  subst x. split; reflexivity.
Qed.

Lemma pretty_N_go_digits (x : N) (s : string) :
  all_chars is_digit (pretty_N_go x s) = all_chars is_digit s.
Proof.
  revert s. induction (N.lt_wf_0 x) as [x _ IH]; intros s.
  assert (x = 0 \/ 0 < x)%N as [->|Hpos] by lia; [reflexivity|].
  rewrite pretty_N_go_step by exact Hpos.
  rewrite IH by (apply N.div_lt; lia).
  cbn [all_chars].
  rewrite (proj1 (digit_char (x `mod` 10) (N.mod_lt x 10 ltac:(discriminate)))).
  reflexivity.
Qed.

Lemma pretty_N_go_nonempty (x : N) (s : string) :
  s <> "" -> pretty_N_go x s <> "".
Proof.
  revert s. induction (N.lt_wf_0 x) as [x _ IH]; intros s Hs.
  assert (x = 0 \/ 0 < x)%N as [->|Hpos] by lia; [exact Hs|].
  rewrite pretty_N_go_step by exact Hpos.
  apply IH; [apply N.div_lt; lia | discriminate].
Qed.

(** Reading the digits of a numeral continues the number read so far. *)
Lemma pretty_N_go_value (x : N) :
  exists m,
    forall (s : string) (acc : Z),
      fold_left (fun a d => a * 10 + d) (leading_digits 10 (pretty_N_go x s)) acc =
      fold_left (fun a d => a * 10 + d) (leading_digits 10 s) (acc * m + Z.of_N x).
Proof.
  induction (N.lt_wf_0 x) as [x _ IH].
  assert (x = 0 \/ 0 < x)%N as [->|Hpos] by lia.
  - exists 1. intros s acc. rewrite pretty_N_go_0. f_equal. lia.
  - destruct (IH (x `div` 10)%N) as [m Hm]; [apply N.div_lt; lia|].
    exists (m * 10). intros s acc.
    rewrite pretty_N_go_step by exact Hpos. rewrite Hm.
    cbn [leading_digits].
    rewrite (proj2 (digit_char (x `mod` 10) (N.mod_lt x 10 ltac:(discriminate)))).
    cbn [fold_left]. f_equal.
    rewrite (N.div_mod x 10) at 3 by discriminate.
    rewrite N2Z.inj_add, N2Z.inj_mul. change (Z.of_N 10) with 10. lia.
Qed.

Lemma digit_not_space (c : ascii) :
  is_digit c = true ->
  is_space c = false /\ Ascii.eqb c "-" = false /\ Ascii.eqb c "+" = false /\
  Ascii.eqb c "x" = false /\ Ascii.eqb c "X" = false /\
  exists d, digit_value 10 c = Some d.
Proof.
  unfold is_digit, is_space, digit_value. intros H. rewrite H.
  apply andb_true_iff in H as [Hlo Hhi].
  apply Z.leb_le in Hlo. apply Z.leb_le in Hhi.
  assert (Hne : forall d : ascii, code d < 48 \/ 57 < code d -> Ascii.eqb c d = false).
  { intros d Hd. apply Ascii.eqb_neq. intros ->. lia. }
  split.
  { apply orb_false_iff. split; [|apply Z.eqb_neq; lia].
    apply orb_false_iff. split.
    - apply andb_false_iff. right. apply Z.leb_gt. lia.
    - apply Z.eqb_neq. lia. }
  split; [apply Hne; unfold code; simpl; lia|]. split; [apply Hne; unfold code; simpl; lia|].
  split; [apply Hne; unfold code; simpl; lia|]. split; [apply Hne; unfold code; simpl; lia|].
  assert (Hd : (code c - 48 <? 10) = true) by (apply Z.ltb_lt; lia).
  rewrite Hd. eauto.
Qed.

(** [parseInt] of a non-empty string of decimal digits. *)
Lemma parseInt_string_digits (s : string) :
  s <> "" -> all_chars is_digit s = true ->
  parseInt_string s = VNum (digits_value 10 (leading_digits 10 s)) /\
  leading_digits 10 s <> [].
Proof.
  destruct s as [|c r]; [contradiction|]. intros _ Hall.
  cbn [all_chars] in Hall. apply andb_true_iff in Hall as [Hc Hr].
  destruct (digit_not_space c Hc) as (Hspace & Hminus & Hplus & _ & _ & d & Hd).
  unfold parseInt_string. cbn [trimStart]. rewrite Hspace, Hminus, Hplus.
  assert (Hrad : match String c r with
                 | String c0 (String x r0) =>
                     if Ascii.eqb c0 "0" && (Ascii.eqb x "x" || Ascii.eqb x "X")
                     then (16, r0) else (10, String c r)
                 | _ => (10, String c r)
                 end = (10, String c r)).
  { destruct r as [|x r]; [reflexivity|].
    cbn [all_chars] in Hr. apply andb_true_iff in Hr as [Hx _].
    destruct (digit_not_space x Hx) as (_ & _ & _ & -> & -> & _).
    rewrite andb_false_r. reflexivity. }
  rewrite Hrad. cbn [leading_digits]. rewrite Hd.
  split; [|discriminate]. f_equal. lia.
Qed.

(** The same after a minus sign. *)
Lemma parseInt_string_minus_digits (s : string) :
  s <> "" -> all_chars is_digit s = true ->
  parseInt_string (String "-" s) = VNum (- digits_value 10 (leading_digits 10 s)).
Proof.
  destruct s as [|c r]; [contradiction|]. intros _ Hall.
  cbn [all_chars] in Hall. apply andb_true_iff in Hall as [Hc Hr].
  destruct (digit_not_space c Hc) as (_ & _ & _ & _ & _ & d & Hd).
  unfold parseInt_string.
  change (trimStart (String "-" (String c r))) with (String "-" (String c r)).
  cbv beta iota zeta. change (Ascii.eqb "-" "-") with true. cbv beta iota zeta.
  assert (Hrad : match r with
                 | String x r0 =>
                     if Ascii.eqb c "0" && (Ascii.eqb x "x" || Ascii.eqb x "X")
                     then (16, r0) else (10, String c r)
                 | EmptyString => (10, String c r)
                 end = (10, String c r)).
  { destruct r as [|x r]; [reflexivity|].
    cbn [all_chars] in Hr. apply andb_true_iff in Hr as [Hx _].
    destruct (digit_not_space x Hx) as (_ & _ & _ & -> & -> & _).
    rewrite andb_false_r. reflexivity. }
  rewrite Hrad. cbn [leading_digits]. rewrite Hd. f_equal; lia.
Qed.

(** The numeral of a positive number: its digits, and nothing else. *)
Lemma pretty_N_numeral (x : N) :
  pretty x <> "" /\ all_chars is_digit (pretty x) = true /\
  digits_value 10 (leading_digits 10 (pretty x)) = Z.of_N x.
Proof.
  unfold pretty, pretty_N. destruct (decide (x = 0%N)) as [->|Hx];
    [split; [discriminate|]; split; reflexivity|].
  split.
  { rewrite pretty_N_go_step by lia. apply pretty_N_go_nonempty. discriminate. }
  split; [apply pretty_N_go_digits|].
  destruct (pretty_N_go_value x) as [m Hm].
  unfold digits_value. rewrite Hm. reflexivity.
Qed.

(** [parseInt] reads back the decimal numeral of every integer. *)
Lemma parseInt_string_pretty (z : Z) : parseInt_string (pretty z) = VNum z.
Proof.
  destruct z as [|p|p]; [reflexivity| |].
  - destruct (pretty_N_numeral (N.pos p)) as (Hne & Hall & Hval).
    change (pretty (Z.pos p)) with (pretty (N.pos p)).
    rewrite (proj1 (parseInt_string_digits _ Hne Hall)), Hval. reflexivity.
  - destruct (pretty_N_numeral (N.pos p)) as (Hne & Hall & Hval).
    change (pretty (Z.neg p)) with (String "-" (pretty (N.pos p))).
    rewrite (parseInt_string_minus_digits _ Hne Hall), Hval. reflexivity.
Qed.

(** A numeral holds no comma and no colon. *)
Lemma pretty_Z_chars (z : Z) (c : ascii) :
  is_digit c = false -> c <> "-"%char ->
  includes (String c "") (pretty z) = false.
Proof.
  intros Hc Hminus.
  destruct z as [|p|p].
  - change (pretty 0) with "0". rewrite includes_char_cons.
    destruct (Ascii.eqb_spec c "0") as [->|_]; [discriminate Hc | reflexivity].
  - change (pretty (Z.pos p)) with (pretty (N.pos p)).
    apply (all_chars_excludes is_digit); [exact Hc|].
    apply pretty_N_numeral.
  - change (pretty (Z.neg p)) with (String "-" (pretty (N.pos p))).
    rewrite includes_char_cons.
    apply Ascii.eqb_neq in Hminus. rewrite Hminus. cbn [orb].
    apply (all_chars_excludes is_digit); [exact Hc|].
    apply pretty_N_numeral.
Qed.

End Numerals.

(** ** The fields of a DEVICE line *)

Section DeviceFields.
Import Js Esp32 Presence Fields.
Variable rt : Runtime.

Lemma device_field_prop (k : string) (params : Obj) (part : string) :
  k <> "" ->
  prop (device_field params part) k =
  match field_value k part with
  | Some value => flag value
  | None => prop params k
  end.
Proof.
  intros Hk. unfold device_field, field_value, index.
  destruct (split "=" part) as [|key [|value rest]]; cbn; try reflexivity.
  destruct (String.eqb_spec key k) as [->|Hne].
  - apply String.eqb_neq in Hk. rewrite Hk. cbn [negb].
    unfold prop. rewrite lookup_insert_eq. reflexivity.
  - destruct (negb (String.eqb key "")); [|reflexivity].
    unfold prop. rewrite lookup_insert_ne by exact Hne. reflexivity.
Qed.

Lemma fold_device_field_prop (k : string) (parts : list string) (params : Obj)
    (found : option string) (base : Val) :
  k <> "" ->
  prop params k = match found with Some value => flag value | None => base end ->
  prop (fold_left device_field parts params) k =
  match fold_left (fun found part =>
                     match field_value k part with
                     | Some value => Some value
                     | None => found
                     end) parts found with
  | Some value => flag value
  | None => base
  end.
Proof.
  intros Hk. revert params found.
  induction parts as [|part parts IH]; intros params found Hparams;
    [exact Hparams|].
  cbn [fold_left]. apply IH. rewrite (device_field_prop k params part Hk).
  destruct (field_value k part); [reflexivity | exact Hparams].
Qed.

Lemma flag_is_true (value : string) : is_true (flag value) = true <-> value = "1".
Proof.
  unfold flag. destruct (String.eqb_spec value "1") as [->|Hne].
  - split; reflexivity.
  - destruct (String.eqb value "0"); cbn; split; intros H;
      first [discriminate H | contradiction].
Qed.

(** What [parseDeviceData] stores for [online] and [last_online] once
    the line has passed its guards. *)
Lemma parseDeviceData_online (devicePart mac field : string)
    (fields : list string) (line : string) (s : State) :
  split "," line = devicePart :: field :: fields ->
  startsWith "DEVICE:" devicePart = true ->
  index (split ":" devicePart) 1 = VStr mac ->
  mac <> "" ->
  let s1 := parseDeviceData rt line s in
  let said := last_field "online" (field :: fields) in
  stored s1 mac "online" =
    match said with Some value => flag value | None => VBool false end /\
  (is_true (stored s1 mac "online") = true ->
     stored s1 mac "last_online" = VNum (tick rt (S (clock_reads s)))).
Proof.
  intros Hparts Hprefix Hmac Hne s1 said. subst s1.
  unfold stored, parseDeviceData. rewrite Hparts.
  cbn [List.length Nat.ltb Nat.leb head default from_option negb tail].
  unfold Datatypes.id. rewrite Hprefix, Hmac. cbn [negb truthy].
  apply String.eqb_neq in Hne. rewrite Hne. cbn [negb].
  unfold Date_now.
  match goal with
  | |- context [fold_left device_field ?l ?p0] =>
      pose proof (fold_device_field_prop "online" l p0 None (VBool false)) as Hfold;
      revert Hfold; generalize (fold_left device_field l p0)
  end.
  intros params1 Hfold. fold (last_field "online" (field :: fields)) in Hfold.
  fold said in Hfold.
  assert (Honline : prop params1 "online" =
            match said with Some value => flag value | None => VBool false end).
  { apply Hfold; [discriminate|]. unfold prop. by simplify_map_eq. }
  clear Hfold.
  destruct (is_true (prop params1 "online")) eqn:Hon.
  - cbn [deviceStates set_deviceStates clock_reads]. rewrite Map_get_set_eq.
    cbn [default from_option]. unfold Datatypes.id, prop.
    rewrite lookup_insert_ne by discriminate. rewrite lookup_insert_eq.
    fold (prop params1 "online"). cbn [default from_option]. unfold Datatypes.id.
    split; [exact Honline | reflexivity].
  - destruct (negb _ && _);
      cbn [deviceStates set_deviceStates]; rewrite Map_get_set_eq;
      cbn [default from_option]; unfold Datatypes.id.
    + unfold prop. rewrite lookup_insert_ne by discriminate.
      fold (prop params1 "online"). rewrite Hon.
      split; [exact Honline | discriminate].
    + rewrite Hon. split; [exact Honline | discriminate].
Qed.

(** X6: after a line [DEVICE:<lead>:<more>,<fields>] the entry stored
    under [<lead>] has the [online] property its last [online=...]
    field gives it, and [false] when there is none, whatever was stored
    before; it is online ([=== true]) exactly when that field is
    literally [online=1], and then its [last_online] is the second clock
    reading of the line. *)
Theorem device_line_online_flag (lead more rest : string) (s : State) :
  lead <> "" ->
  includes ":" lead = false ->
  includes "," lead = false ->
  includes "," more = false ->
  let s1 :=
    handleSerialData rt ("DEVICE:" +:+ lead +:+ ":" +:+ more +:+ "," +:+ rest) s in
  let said := last_field "online" (split "," rest) in
  stored s1 lead "online" =
    match said with Some value => flag value | None => VBool false end /\
  (is_true (stored s1 lead "online") = true <-> said = Some "1") /\
  (said = Some "1" ->
     stored s1 lead "last_online" = VNum (tick rt (S (clock_reads s)))).
Proof.
  intros Hne Hcolon Hcomma Htail s1 said.
  destruct (device_line_shape lead more rest Hcolon Hcomma Htail)
    as [field [fields [Hparts Hmac]]].
  assert (Hrest : split "," rest = field :: fields).
  { replace ("DEVICE:" +:+ lead +:+ ":" +:+ more +:+ "," +:+ rest)
      with (("DEVICE:" +:+ lead +:+ ":" +:+ more) +:+ String "," rest) in Hparts
      by (rewrite !append_assoc; reflexivity).
    rewrite split_app_sep in Hparts
      by (rewrite !includes_char_app, Hcomma, Htail; reflexivity).
    injection Hparts as Hparts. exact Hparts. }
  destruct (parseDeviceData_online _ lead field fields _ s Hparts
              (prefix_app _ _) Hmac Hne) as [Honline Hstamp].
  rewrite <- Hrest in Honline. fold said in Honline.
  assert (Hline : forall f, stored s1 lead f =
            stored (parseDeviceData rt
              ("DEVICE:" +:+ lead +:+ ":" +:+ more +:+ "," +:+ rest) s) lead f).
  { intros f. unfold stored. subst s1. rewrite handleSerialData_device. reflexivity. }
  rewrite !Hline.
  assert (Hiff : is_true (stored (parseDeviceData rt
              ("DEVICE:" +:+ lead +:+ ":" +:+ more +:+ "," +:+ rest) s) lead "online")
            = true <-> said = Some "1").
  { rewrite Honline. destruct said as [value|].
    - rewrite flag_is_true. split; congruence.
    - split; discriminate. }
  split; [exact Honline|]. split; [exact Hiff|].
  intros Hsaid. apply Hstamp, Hiff, Hsaid.
Qed.

End DeviceFields.

(** A device that was online reports again without saying so. *)
Lemma device_line_online_flag_witness :
  let s :=
    Esp32.feed Sample.runtime
      ["DEVICE:11:22:33:44:55:66,online=1,armed=0,pressed=0"] Esp32.initial in
  let s1 :=
    Esp32.handleSerialData Sample.runtime
      ("DEVICE:" +:+ "11" +:+ ":" +:+ "22:33:44:55:66" +:+ "," +:+ "armed=1") s in
  let said := Fields.last_field "online" (Js.split "," "armed=1") in
  "11" <> "" /\
  Js.includes ":" "11" = false /\
  Js.includes "," "11" = false /\
  Js.includes "," "22:33:44:55:66" = false /\
  Esp32.stored s "11" "online" = Js.VBool true /\
  Esp32.stored s1 "11" "online" =
    match said with Some value => Fields.flag value | None => Js.VBool false end /\
  (Js.is_true (Esp32.stored s1 "11" "online") = true <-> said = Some "1") /\
  (said = Some "1" ->
     Esp32.stored s1 "11" "last_online" =
     Js.VNum (Esp32.tick Sample.runtime (S (Esp32.clock_reads s)))).
Proof.
  intros s s1 said.
  split; [discriminate|]. split; [reflexivity|]. split; [reflexivity|].
  split; [reflexivity|]. split; [reflexivity|].
  apply (device_line_online_flag Sample.runtime "11" "22:33:44:55:66" "armed=1" s);
    [discriminate | reflexivity | reflexivity | reflexivity].
Defined.

(** ** Simulation and status *)

Section Simulation.
Import Js Esp32 Presence Fields Link.
Variable rt : Runtime.

(** X7: a press line whose timestamp field is the decimal numeral of an
    integer (within the range doubles hold exactly) emits a press event
    carrying that integer: [parseInt] reads back what was printed. *)
Theorem decimal_timestamp_roundtrip (id : string) (z : Z) (s : State) :
  includes "," id = false ->
  - 2 ^ 53 < z < 2 ^ 53 ->
  emitted (handleSerialData rt ("BUZZER:" +:+ id +:+ "," +:+ pretty z) s) =
  emitted s ++ [BuzzerPress id (VNum z) (tick rt (clock_reads s))].
Proof.
  intros Hid _.
  destruct (handleSerialData_buzzer rt id (pretty z) s Hid)
    as [field [rest [Hsplit ->]]].
  rewrite split_no_sep in Hsplit by (apply pretty_Z_chars; [reflexivity | discriminate]).
  injection Hsplit as <- _.
  rewrite parseInt_string_pretty. apply handleBuzzerPress_emitted.
Qed.

(** X8: a simulated press with an identifier and a non-zero timestamp
    leaves the service exactly as the serial line
    [BUZZER:<id>,<timestamp>] does; with the timestamp 0 the event
    carries a clock reading instead, and the next reading as
    [received_at]. *)
Theorem simulated_press_matches_line (mac : string) (t : Z) (s : State) :
  mac <> "" ->
  includes "," mac = false ->
  - 2 ^ 53 < t < 2 ^ 53 ->
  (t <> 0 ->
   snd (simulateBuzzerPress rt (Some mac) (VNum t) s) =
   handleSerialData rt ("BUZZER:" +:+ mac +:+ "," +:+ pretty t) s) /\
  (t = 0 ->
   emitted (snd (simulateBuzzerPress rt (Some mac) (VNum t) s)) =
   emitted s ++
     [BuzzerPress mac (VNum (tick rt (clock_reads s)))
        (tick rt (S (clock_reads s)))]).
Proof.
  intros Hmac Hcomma _.
  apply String.eqb_neq in Hmac.
  unfold simulateBuzzerPress. cbn [truthy]. rewrite Hmac. cbn [negb].
  split.
  - intros Ht. apply Z.eqb_neq in Ht. rewrite Ht. cbn [negb].
    destruct (handleSerialData_buzzer rt mac (pretty t) s Hcomma)
      as [field [rest [Hsplit ->]]].
    rewrite split_no_sep in Hsplit
      by (apply pretty_Z_chars; [reflexivity | discriminate]).
    injection Hsplit as <- _.
    rewrite parseInt_string_pretty. reflexivity.
  - intros ->. cbn [Z.eqb negb]. unfold Date_now.
    rewrite handleBuzzerPress_emitted. reflexivity.
Qed.

Lemma is_true_truthy (v : Val) : is_true v = true -> truthy v = true.
Proof. destruct v as [| |[]| | |]; cbn; congruence. Qed.

Lemma online_views_bound (now : Z) (m : list (string * Obj)) :
  (List.length (List.filter online (map (device_view rt now) m)) <=
   List.length (List.filter (fun entry => truthy (prop (snd entry) "online")) m))%nat.
Proof.
  induction m as [|[k st] m IH]; [reflexivity|].
  cbn [map List.filter snd].
  destruct (online (device_view rt now (k, st))) eqn:Hon.
  - unfold device_view in Hon. cbn [online] in Hon.
    apply andb_true_iff in Hon as [Hon _].
    rewrite (is_true_truthy _ Hon). cbn [List.length]. lia.
  - destruct (truthy (prop st "online")); cbn [List.length]; lia.
Qed.

(** X9: [getStatus] counts every stored entry, and at least as many
    online devices as a snapshot of the same store lists as online; it
    leaves the store alone and, without hardware, only schedules the
    simulated STATUS line. *)
Theorem status_counts_bound_snapshot (l : Service) :
  let reply := fst (getStatus rt l) in
  let views := fst (getDevices rt (core (snd (getStatus rt l)))) in
  deviceCount reply = List.length views /\
  (List.length (List.filter online views) <= onlineDevices reply)%nat /\
  deviceStates (core (snd (getStatus rt l))) = deviceStates (core l) /\
  (isConnectedFlag l && serialPort l = false ->
     timers (snd (getStatus rt l)) = timers l ++ ["STATUS"]).
Proof.
  intros reply views. subst reply views.
  unfold getStatus, sendCommand, simulateCommand, getDevices, Date_now.
  destruct (isConnectedFlag l && serialPort l);
    cbn [fst snd core deviceStates set_core deviceCount onlineDevices timers];
    rewrite length_map.
  - split; [reflexivity|]. split; [apply online_views_bound|].
    split; [reflexivity | discriminate].
  - split; [reflexivity|]. split; [apply online_views_bound|].
    split; reflexivity.
Qed.

(** X27: a scan without hardware answers at once, with
    [hardwareConnected] false, writes nothing to the port and leaves the
    store alone; when its timer runs, the two simulated devices are
    stored online under [AA] and [11], the parts of their addresses
    before the first colon, and no other entry changes. *)
Theorem simulated_scan_registers_first_octets (l : Service) :
  isConnectedFlag l && serialPort l = false ->
  timers l = [] ->
  let reply := fst (startDeviceScan rt l) in
  let l1 := snd (startDeviceScan rt l) in
  let l2 := run_timer rt l1 in
  hardwareConnected reply = false /\ scan_success reply = true /\
  deviceStates (core l1) = deviceStates (core l) /\
  written l1 = written l /\ timers l1 = ["SCAN"] /\
  timers l2 = [] /\ written l2 = written l /\
  stored (core l2) "AA" "online" = VBool true /\
  stored (core l2) "11" "online" = VBool true /\
  (forall k, k <> "AA" -> k <> "11" ->
     Map_get k (deviceStates (core l2)) = Map_get k (deviceStates (core l))).
Proof.
  intros Hoff Hidle reply l1 l2. subst reply l2 l1.
  unfold startDeviceScan, sendCommand, simulateCommand. rewrite Hoff, Hidle.
  cbn [fst snd Date_now core set_core hardwareConnected scan_success written
       timers app run_timer deviceStates].
  split; [reflexivity|]. split; [reflexivity|]. split; [reflexivity|].
  split; [reflexivity|]. split; [reflexivity|]. split; [reflexivity|].
  split; [reflexivity|].
  change (simulated rt "SCAN" ?c) with
    (handleSerialData rt "DEVICE:11:22:33:44:55:66,online=1,armed=0,pressed=0"
       (handleSerialData rt "DEVICE:AA:BB:CC:DD:EE:FF,online=1,armed=0,pressed=0" c)).
  set (c0 := {| deviceStates := deviceStates (core l);
                lastHeartbeatDevice := lastHeartbeatDevice (core l);
                lastHeartbeatTime := lastHeartbeatTime (core l);
                emitted := emitted (core l);
                clock_reads := S (clock_reads (core l)) |}).
  set (c1 := handleSerialData rt
               "DEVICE:AA:BB:CC:DD:EE:FF,online=1,armed=0,pressed=0" c0).
  set (c2 := handleSerialData rt
               "DEVICE:11:22:33:44:55:66,online=1,armed=0,pressed=0" c1).
  assert (Hline : forall (lead more : string) (c : State),
            lead <> "" -> includes ":" lead = false -> includes "," lead = false ->
            includes "," more = false ->
            let c' := handleSerialData rt
                        ("DEVICE:" +:+ lead +:+ ":" +:+ more +:+ "," +:+
                         "online=1,armed=0,pressed=0") c in
            stored c' lead "online" = VBool true /\
            forall k, k <> lead ->
              Map_get k (deviceStates c') = Map_get k (deviceStates c)).
  { intros lead more c Hne Hcolon Hcomma Hmore c'.
    destruct (device_line_shape lead more "online=1,armed=0,pressed=0"
                Hcolon Hcomma Hmore) as [field [fields [Hparts Hmac]]].
    assert (Hrest : ["online=1"; "armed=0"; "pressed=0"] = field :: fields).
    { replace ("DEVICE:" +:+ lead +:+ ":" +:+ more +:+ "," +:+
               "online=1,armed=0,pressed=0")
        with (("DEVICE:" +:+ lead +:+ ":" +:+ more) +:+
              String "," "online=1,armed=0,pressed=0") in Hparts
        by (rewrite !append_assoc; reflexivity).
      rewrite split_app_sep in Hparts
        by (rewrite !includes_char_app, Hcomma, Hmore; reflexivity).
      injection Hparts as <- <-. reflexivity. }
    destruct (parseDeviceData_online rt _ lead field fields _ c Hparts
                (prefix_app _ _) Hmac Hne) as [Honline _].
    rewrite <- Hrest in Honline.
    destruct (parseDeviceData_store rt _ lead field fields _ c Hparts
                (prefix_app _ _) Hmac Hne) as [params Hstore].
    subst c'. unfold stored in *. rewrite handleSerialData_device.
    split; [exact Honline|].
    intros k Hk. rewrite Hstore. apply Map_get_set_ne. exact Hk. }
  destruct (Hline "AA" "BB:CC:DD:EE:FF" c0) as [Hon1 Hother1];
    [discriminate | reflexivity | reflexivity | reflexivity |].
  destruct (Hline "11" "22:33:44:55:66" c1) as [Hon2 Hother2];
    [discriminate | reflexivity | reflexivity | reflexivity |].
  fold c1 in Hon1, Hother1. fold c1 c2 in Hon2, Hother2.
  change (handleSerialData rt ("DEVICE:" +:+ "11" +:+ ":" +:+ "22:33:44:55:66" +:+
            "," +:+ "online=1,armed=0,pressed=0") c1) with c2 in Hon2, Hother2.
  change (handleSerialData rt ("DEVICE:" +:+ "AA" +:+ ":" +:+ "BB:CC:DD:EE:FF" +:+
            "," +:+ "online=1,armed=0,pressed=0") c0) with c1 in Hon1, Hother1.
  split.
  - unfold stored. rewrite Hother2 by discriminate. exact Hon1.
  - split; [exact Hon2|]. intros k Ha Hb.
    rewrite Hother2 by exact Hb. rewrite Hother1 by exact Ha. reflexivity.
Qed.

End Simulation.

(** The timestamp 1700000000123, printed and read back. *)
Lemma decimal_timestamp_roundtrip_witness :
  Js.includes "," "EC:62:60:1D:E8:D4" = false /\
  - 2 ^ 53 < 1700000000123 < 2 ^ 53 /\
  Esp32.emitted
    (Esp32.handleSerialData Sample.runtime
       ("BUZZER:" +:+ "EC:62:60:1D:E8:D4" +:+ "," +:+ pretty 1700000000123)
       Esp32.initial) =
  Esp32.emitted Esp32.initial ++
    [Esp32.BuzzerPress "EC:62:60:1D:E8:D4" (Js.VNum 1700000000123)
       (Esp32.tick Sample.runtime (Esp32.clock_reads Esp32.initial))].
Proof.
  split; [reflexivity|]. split; [lia|].
  apply (decimal_timestamp_roundtrip Sample.runtime); [reflexivity | lia].
Defined.

(** A simulated press of the sample buzzer. *)
Lemma simulated_press_matches_line_witness :
  let mac := "AA:BB:CC:DD:EE:FF" in
  let t := 1700000000123 in
  let s := Esp32.initial in
  mac <> "" /\
  Js.includes "," mac = false /\
  - 2 ^ 53 < t < 2 ^ 53 /\
  (t <> 0 ->
   snd (Link.simulateBuzzerPress Sample.runtime (Some mac) (Js.VNum t) s) =
   Esp32.handleSerialData Sample.runtime
     ("BUZZER:" +:+ mac +:+ "," +:+ pretty t) s) /\
  (t = 0 ->
   Esp32.emitted
     (snd (Link.simulateBuzzerPress Sample.runtime (Some mac) (Js.VNum t) s)) =
   Esp32.emitted s ++
     [Esp32.BuzzerPress mac
        (Js.VNum (Esp32.tick Sample.runtime (Esp32.clock_reads s)))
        (Esp32.tick Sample.runtime (S (Esp32.clock_reads s)))]).
Proof.
  intros mac t s.
  split; [discriminate|]. split; [reflexivity|]. split; [lia|].
  apply (simulated_press_matches_line Sample.runtime mac t s);
    [discriminate | reflexivity | lia].
Defined.

(** * The dispatch engine over runs, the configuration and the wiring *)

(** ** Growth *)

Section Growth.
Import Js Osc Runs.
Variable env : Environment.

Lemma extends_refl (s : State) : extends s s.
Proof.
  split; [repeat split|].
  split; [exists []; symmetry; apply app_nil_r|].
  split; [exists []; symmetry; apply app_nil_r|].
  split; [exists []; symmetry; apply app_nil_r|].
  split; [reflexivity | lia].
Qed.

Lemma extends_same (s s' : State) :
  db s' = db s -> sent s' = sent s -> published s' = published s ->
  clients s' = clients s -> created s' = created s -> extends s s'.
Proof.
  intros Hdb Hsent Hpub Hpool Hn. unfold extends. rewrite Hdb, Hsent, Hpub, Hpool, Hn.
  apply extends_refl.
Qed.

Lemma extends_trans (s1 s2 s3 : State) :
  extends s1 s2 -> extends s2 s3 -> extends s1 s3.
Proof.
  intros ((Hb & Hc & Ht & Hm) & [rows Hlog] & [dgs Hsent] & [ns Hpub] & Hpool & Hn)
         ((Hb' & Hc' & Ht' & Hm') & [rows' Hlog'] & [dgs' Hsent'] & [ns' Hpub']
          & Hpool' & Hn').
  split; [repeat split; congruence|].
  split; [exists (rows ++ rows'); rewrite Hlog', Hlog, <- List.app_assoc; reflexivity|].
  split; [exists (dgs ++ dgs'); rewrite Hsent', Hsent, <- List.app_assoc; reflexivity|].
  split; [exists (ns ++ ns'); rewrite Hpub', Hpub, <- List.app_assoc; reflexivity|].
  split; [etrans; eassumption | lia].
Qed.

Lemma grows_ret {A} (a : A) : grows (ret a).
Proof. intros s. apply extends_refl. Qed.

Lemma grows_throw {A} (e : string) : grows (@throw A e).
Proof. intros s. apply extends_refl. Qed.

Lemma grows_bind {A B} (m : M A) (f : A -> M B) :
  grows m -> (forall a, grows (f a)) -> grows (bind m f).
Proof.
  intros Hm Hf s. unfold bind. specialize (Hm s).
  destruct (m s) as [[a|e] s1]; cbn [snd] in *; [|exact Hm].
  eapply extends_trans; [exact Hm | apply Hf].
Qed.

Lemma grows_try_catch {A} (m : M A) (h : string -> M A) :
  grows m -> (forall e, grows (h e)) -> grows (try_catch m h).
Proof.
  intros Hm Hh s. unfold try_catch. specialize (Hm s).
  destruct (m s) as [[a|e] s1]; cbn [snd] in *; [exact Hm|].
  eapply extends_trans; [exact Hm | apply Hh].
Qed.

Lemma grows_db_operation {A} (f : Database -> A * Database) :
  (forall d, same_configuration d (snd (f d)) /\
             exists rows, activity_log (snd (f d)) = activity_log d ++ rows) ->
  grows (db_operation env f).
Proof.
  intros Hf s. unfold db_operation.
  destruct (db_error env (db_calls s)); cbn [snd];
    [apply extends_same; reflexivity|].
  destruct (Hf (db s)) as [Hconf Hlog].
  destruct (f (db s)) as [a d]. cbn [snd] in *.
  split; [exact Hconf|]. split; [exact Hlog|].
  split; [exists []; symmetry; apply app_nil_r|].
  split; [exists []; symmetry; apply app_nil_r|].
  split; [reflexivity | cbn; lia].
Qed.

Lemma grows_read {A} (f : Database -> A) :
  grows (db_operation env (fun d => (f d, d))).
Proof.
  apply grows_db_operation. intros d. cbn [snd].
  split; [repeat split | exists []; symmetry; apply app_nil_r].
Qed.

Lemma grows_logActivity (t : string) (m a i : Val) (ok : bool) (msg : string) :
  grows (logActivity env t m a i ok msg).
Proof.
  apply grows_db_operation. intros d. cbn [snd insert_activity activity_log].
  split; [repeat split | eexists; reflexivity].
Qed.

Lemma grows_new_Date : grows (new_Date env).
Proof.
  intros s. unfold new_Date. cbn [snd].
  split; [repeat split|].
  split; [exists []; symmetry; apply app_nil_r|].
  split; [exists []; symmetry; apply app_nil_r|].
  split; [exists []; symmetry; apply app_nil_r|].
  split; [reflexivity | cbn; lia].
Qed.

Lemma grows_emit (n : Notice) : grows (emit env n).
Proof.
  intros s. unfold emit. cbn [snd].
  split; [repeat split|].
  split; [exists []; symmetry; apply app_nil_r|].
  split; [exists []; symmetry; apply app_nil_r|].
  split; [eexists; reflexivity|].
  split; [reflexivity | cbn; lia].
Qed.

Lemma grows_pooled_client (ip : string) (p : Z) : grows (pooled_client ip p).
Proof.
  intros s. unfold pooled_client.
  destruct (clients s !! targetKey ip p) eqn:Hpool; cbn [snd];
    [apply extends_refl|].
  split; [repeat split|].
  split; [exists []; symmetry; apply app_nil_r|].
  split; [exists []; symmetry; apply app_nil_r|].
  split; [exists []; symmetry; apply app_nil_r|].
  split; [apply insert_subseteq; exact Hpool | cbn; lia].
Qed.

Lemma grows_spread (args : Json) : grows (spread env args).
Proof. destruct args; cbn [spread]; first [apply grows_ret | apply grows_throw]. Qed.

Lemma grows_client_send (c : Client) (a : string) (items : list Json) :
  grows (client_send env c a items).
Proof.
  intros s. unfold client_send. cbn [snd].
  split; [repeat split|].
  split; [exists []; symmetry; apply app_nil_r|].
  split; [eexists; reflexivity|].
  split; [exists []; symmetry; apply app_nil_r|].
  split; [reflexivity | cbn; lia].
Qed.

Lemma grows_for_each {A} (l : list A) (body : A -> M unit) :
  (forall x, grows (body x)) -> grows (for_each l body).
Proof.
  intros Hbody. induction l as [|x l IH]; cbn [for_each];
    [apply grows_ret | apply grows_bind; [apply Hbody | intros _; exact IH]].
Qed.

Ltac grow :=
  repeat first
    [ apply grows_try_catch | apply grows_bind | apply grows_for_each
    | apply grows_logActivity | apply grows_new_Date | apply grows_emit
    | apply grows_pooled_client | apply grows_spread | apply grows_client_send
    | apply grows_read | apply grows_ret | apply grows_throw | intro ].

Lemma grows_sendOSCMessage (mapping : Mapping) (bd : BuzzerData) :
  grows (sendOSCMessage env mapping bd).
Proof. unfold sendOSCMessage. grow. Qed.

Lemma grows_processBuzzerPress (bd : BuzzerData) : grows (processBuzzerPress env bd).
Proof.
  unfold processBuzzerPress, getMappingsForBuzzer.
  apply grows_try_catch; [|intros e; apply grows_logActivity].
  apply grows_bind; [apply grows_read|]. intros mappings.
  destruct (List.length mappings =? 0)%nat;
    [apply grows_logActivity | apply grows_for_each; intros m; apply grows_sendOSCMessage].
Qed.

Lemma grows_sendTestCommand (td : TestData) : grows (sendTestCommand env td).
Proof.
  unfold sendTestCommand, get_command, get_target.
  apply grows_try_catch; [|grow].
  apply grows_bind; [apply grows_read|]. intros [command|]; [|apply grows_throw].
  apply grows_bind; [apply grows_read|]. intros [target|]; [|apply grows_throw].
  grow.
Qed.

(** X10: whatever presses and tests the engine serves, and whatever
    fails meanwhile, it never touches the four configuration tables; the
    activity log, the datagrams and the published events only grow at
    their end, and the pool only gains clients. *)
Theorem service_only_appends (calls : list Call) (s : State) :
  extends s (run env calls s).
Proof.
  revert s. induction calls as [|c calls IH]; intros s; [apply extends_refl|].
  cbn [run fold_left]. eapply extends_trans; [|apply IH].
  destruct c as [bd|td]; cbn [handle];
    [apply grows_processBuzzerPress | apply grows_sendTestCommand].
Qed.

End Growth.

(** ** The pool *)

Section Pool.
Import Js Osc Runs.
Variable env : Environment.

(** A key is an address, a colon and a numeral, and a numeral holds no
    colon: the key splits at its last colon. *)
Lemma targetKey_parts (ip ip' : string) (p p' : Z) :
  targetKey ip p = targetKey ip' p' -> ip = ip' /\ p = p'.
Proof.
  unfold targetKey. revert ip'.
  assert (Hcolon : forall (a : string) (z z' : Z),
            pretty z <> a +:+ ":" +:+ pretty z').
  { intros a z z' H.
    assert (Hin : includes ":" (pretty z) = true).
    { rewrite H, !includes_char_app. cbn. apply orb_true_r. }
    rewrite pretty_Z_chars in Hin; [discriminate Hin | reflexivity | discriminate]. }
  induction ip as [|c ip IH]; intros [|c' ip'] H.
  - injection H as H. rewrite !app_empty in H. apply (inj pretty) in H. auto.
  - injection H as <- H. rewrite app_empty in H. destruct (Hcolon _ _ _ H).
  - injection H as -> H. rewrite app_empty in H. symmetry in H.
    destruct (Hcolon _ _ _ H).
  - injection H as <- H. destruct (IH _ H) as [-> ->]. auto.
Qed.

(** X12: the pool key [address:port] tells any two destinations apart,
    also when the address itself holds colons: two keys are equal
    exactly for the same address and the same port. *)
Theorem targetKey_inj (ip ip' : string) (p p' : Z) :
  targetKey ip p = targetKey ip' p' <-> ip = ip' /\ p = p'.
Proof.
  split; [apply targetKey_parts|].
  intros [Hip Hp]. rewrite Hip, Hp. reflexivity.
Qed.

Lemma well_pooled_initial (d : Database) : well_pooled (initial d).
Proof.
  split; [intros k c H; cbn in H; rewrite lookup_empty in H; discriminate H|].
  split; [intros k k' c c' H; cbn in H; rewrite lookup_empty in H; discriminate H|].
  split; [reflexivity | constructor].
Qed.

(** [well_pooled] reads the pool, the count and the datagrams only. *)
Lemma well_pooled_same (s s' : State) :
  clients s' = clients s -> created s' = created s -> sent s' = sent s ->
  well_pooled s -> well_pooled s'.
Proof. unfold well_pooled. intros -> -> ->. auto. Qed.

(** An attempt keeps the pool well formed; its datagrams go to the
    address and port it was given. *)
Lemma attempt_well_pooled (ip : string) (p : Z) (address : string) (args : Json)
    (s : State) :
  well_pooled s ->
  well_pooled (snd (attempt env ip p address args s)) /\
  exists datagrams,
    sent (snd (attempt env ip p address args s)) = sent s ++ datagrams /\
    Forall (fun dg => host (via dg) = ip /\ client_port (via dg) = p /\
                      dg_address dg = address) datagrams.
Proof.
  intros (Hkeys & Hserial & Hsize & Hsent).
  assert (Hstep : forall client s1,
            clients s1 !! targetKey ip p = Some client ->
            host client = ip /\ client_port client = p ->
            sent s1 = sent s ->
            well_pooled s1 ->
            forall items,
              well_pooled (snd (client_send env client address items s1)) /\
              exists datagrams,
                sent (snd (client_send env client address items s1)) =
                  sent s ++ datagrams /\
                Forall (fun dg => host (via dg) = ip /\ client_port (via dg) = p /\
                                  dg_address dg = address) datagrams).
  { intros client s1 Hclient [Hhost Hport] Hsame (Hk1 & Hs1 & Hz1 & Hd1) items.
    unfold client_send. cbn [snd sent clients created]. split.
    - split; [exact Hk1|]. split; [exact Hs1|]. split; [exact Hz1|].
      apply Forall_app. split; [exact Hd1|]. constructor; [|constructor].
      cbn [via]. rewrite Hhost, Hport. exact Hclient.
    - eexists [_]. rewrite Hsame. split; [reflexivity|].
      constructor; [|constructor]. cbn [via dg_address]. auto. }
  assert (Hspread : (exists items, spread env args = ret items) \/
                    spread env args = throw (not_iterable env)).
  { destruct args; cbn [spread]; eauto. }
  unfold attempt, bind, pooled_client.
  destruct (clients s !! targetKey ip p) as [c|] eqn:Hpool.
  - destruct (Hkeys _ _ Hpool) as [Hkey _].
    apply targetKey_parts in Hkey as [Hhost Hport].
    destruct Hspread as [[items ->]| ->]; unfold ret, throw.
    + apply Hstep; [exact Hpool | auto | reflexivity |].
      split; [exact Hkeys|]. split; [exact Hserial|]. split; assumption.
    + cbn [snd].
      split; [split; [exact Hkeys|]; split; [exact Hserial|]; split; assumption|].
      exists []. rewrite app_nil_r. split; [reflexivity | constructor].
  - set (client := {| host := ip; client_port := p; serial := created s |}).
    set (s1 := {| db := db s; db_calls := db_calls s;
                  clients := <[targetKey ip p := client]> (clients s);
                  created := S (created s); sent := sent s;
                  published := published s; clock_reads := clock_reads s |}).
    assert (Hs1 : well_pooled s1).
    { split; [|split; [|split]]; cbn [clients created sent s1].
      - intros k c Hc. destruct (decide (k = targetKey ip p)) as [->|Hne].
        + rewrite lookup_insert_eq in Hc. injection Hc as <-.
          cbn [host client_port serial client]. split; [reflexivity | lia].
        + rewrite lookup_insert_ne in Hc by congruence.
          destruct (Hkeys _ _ Hc) as [Hk Hlt]. split; [exact Hk | lia].
      - intros k k' c c' Hc Hc' Heq.
        destruct (decide (k = targetKey ip p)) as [->|Hne];
          destruct (decide (k' = targetKey ip p)) as [->|Hne']; [reflexivity| | |].
        + rewrite lookup_insert_eq in Hc. injection Hc as <-.
          rewrite lookup_insert_ne in Hc' by congruence.
          destruct (Hkeys _ _ Hc') as [_ Hlt]. cbn [serial client] in Heq. lia.
        + rewrite lookup_insert_eq in Hc'. injection Hc' as <-.
          rewrite lookup_insert_ne in Hc by congruence.
          destruct (Hkeys _ _ Hc) as [_ Hlt]. cbn [serial client] in Heq. lia.
        + rewrite lookup_insert_ne in Hc, Hc' by congruence.
          eapply Hserial; eassumption.
      - rewrite map_size_insert_None by exact Hpool. congruence.
      - eapply Forall_impl; [exact Hsent|]. intros dg Hdg. cbn beta in *.
        rewrite lookup_insert_ne; [exact Hdg|].
        intros Heq. rewrite <- Heq, Hpool in Hdg. discriminate Hdg. }
    fold client. fold s1.
    destruct Hspread as [[items ->]| ->]; unfold ret, throw.
    + apply Hstep; [apply lookup_insert_eq | auto | reflexivity | exact Hs1].
    + cbn [snd]. split; [exact Hs1|].
      exists []. rewrite app_nil_r. split; [reflexivity | constructor].
Qed.

End Pool.

(** ** Tests *)

Section Tests.
Import Js Osc Runs.
Variable env : Environment.

Ltac peel :=
  match goal with
  | |- context [logActivity ?e ?t ?m ?a ?i ?ok ?msg ?st] =>
      destruct (logActivity e t m a i ok msg st) as [[[]|?] ?]
  | |- context [new_Date ?e ?st] =>
      destruct (new_Date e st) as [[?|?] ?]
  | |- context [emit ?e ?n ?st] =>
      destruct (emit e n st) as [[[]|?] ?]
  end.

Lemma test_handler_stages (td : TestData) (e : string) (s : State) :
  (logActivity env "test_osc_failed" VNull (VNum (commandId td))
     (VNum (targetId td)) false e ;;
   now <- new_Date env ;;
   emit env (test_failed_notice e now) ;;
   @throw unit e) s =
  (report env (test_failed_row td e) (test_failed_notice e) ;; throw e) s.
Proof.
  unfold report, bind.
  cbn [event_type buzzer_mac osc_address target_ip success message test_failed_row].
  repeat first [reflexivity | peel].
Qed.

Lemma endpoint_lookup_failure (td : TestData) (s : State) :
  endpoint env (Test td) s = None <-> is_Some (lookup_failure env td s).
Proof.
  unfold endpoint, lookup_failure.
  destruct (db_error env (db_calls s)); [split; eauto|].
  destruct (head (filter _ (osc_commands (db s)))).
  - destruct (db_error env (S (db_calls s))); [split; eauto|].
    destruct (head (filter _ (osc_targets (db s)))).
    + split; [discriminate | intros [? H]; discriminate H].
    + split; eauto.
  - destruct (db_error env (S (db_calls s))); [split; eauto|].
    split; eauto.
Qed.

(** A test that stops at a lookup only reports the failure and throws
    it again. *)
Lemma sendTestCommand_lookup_failure (td : TestData) (s s0 : State) (e : string) :
  lookup_failure env td s = Some (e, s0) ->
  sendTestCommand env td s =
  (report env (test_failed_row td e) (test_failed_notice e) ;; throw e) s0.
Proof.
  unfold lookup_failure. intros H. rewrite <- test_handler_stages.
  unfold sendTestCommand, try_catch, bind at 1, get_command, db_operation.
  destruct (db_error env (db_calls s)) as [e0|].
  { injection H as <- <-. reflexivity. }
  destruct (head (filter _ (osc_commands (db s)))) as [command|].
  2:{ injection H as <- <-. reflexivity. }
  unfold bind at 1, get_target, db_operation. cbn [db db_calls].
  destruct (db_error env (S (db_calls s))) as [e1|].
  { injection H as <- <-. reflexivity. }
  destruct (head (filter _ (osc_targets (db s)))) as [target|]; [discriminate H|].
  injection H as <- <-. reflexivity.
Qed.

Lemma lookup_failure_state (td : TestData) (s s0 : State) (e : string) :
  lookup_failure env td s = Some (e, s0) ->
  db s0 = db s /\ clients s0 = clients s /\ created s0 = created s /\
  sent s0 = sent s /\ published s0 = published s.
Proof.
  unfold lookup_failure. intros Hfail.
  repeat match type of Hfail with
         | match ?x with _ => _ end = _ => destruct x
         end; try discriminate Hfail; injection Hfail as <- <-;
    repeat split.
Qed.

(** A test that stops at a lookup leaves the pool and the datagrams as
    they were. *)
Lemma test_stopped_frame (td : TestData) (s : State) :
  endpoint env (Test td) s = None ->
  clients (snd (sendTestCommand env td s)) = clients s /\
  created (snd (sendTestCommand env td s)) = created s /\
  sent (snd (sendTestCommand env td s)) = sent s.
Proof.
  intros Hnone. apply endpoint_lookup_failure in Hnone as [[e s0] Hfail].
  rewrite (sendTestCommand_lookup_failure td s s0 e Hfail).
  destruct (lookup_failure_state td s s0 e Hfail) as (_ & Hpool & Hn & Hsent & _).
  destruct (report_then_throw_frame env (test_failed_row td e) (test_failed_notice e)
              e s0) as (-> & -> & ->).
  auto.
Qed.

(** X17: a test that stops at a lookup (rejected, or no such command
    or target) sends nothing, creates no client, and always throws;
    with working sinks it logs [test_osc_failed] with the ids in the
    address and target columns, publishes the failure, and throws
    [Command not found: <id>] when the command is missing and
    [Target not found: <id>] when only the target is. *)
Theorem test_stopped_at_lookup (td : TestData) (s : State) :
  endpoint env (Test td) s = None ->
  let result := sendTestCommand env td s in
  sent (snd result) = sent s /\
  clients (snd result) = clients s /\
  created (snd result) = created s /\
  (exists e, fst result = Throw e) /\
  (sinks_healthy env ->
     exists e now,
       fst result = Throw e /\
       activity_log (db (snd result)) =
         activity_log (db s) ++ [test_failed_row td e] /\
       published (snd result) = published s ++ [test_failed_notice e now] /\
       (head (filter (fun c => oc_id c = commandId td) (osc_commands (db s))) = None ->
        e = "Command not found: " +:+ pretty (commandId td)) /\
       (is_Some (head (filter (fun c => oc_id c = commandId td)
                         (osc_commands (db s)))) ->
        e = "Target not found: " +:+ pretty (targetId td))).
Proof.
  intros Hnone result. subst result.
  apply endpoint_lookup_failure in Hnone as [[e s0] Hfail].
  rewrite (sendTestCommand_lookup_failure td s s0 e Hfail).
  destruct (lookup_failure_state td s s0 e Hfail) as (Hdb & Hpool & Hn & Hsent & Hpub).
  destruct (report_then_throw_frame env (test_failed_row td e) (test_failed_notice e)
              e s0) as (-> & -> & ->).
  split; [exact Hsent|]. split; [exact Hpool|]. split; [exact Hn|].
  unfold bind, throw. rewrite report_run.
  split.
  { destruct (db_error env (db_calls s0)); [eauto|].
    destruct (listener_error env _); eauto. }
  intros [Hdbok Hlisten].
  exists e, (clock env (clock_reads s0)).
  rewrite Hdbok, Hlisten. cbn [fst snd db activity_log insert_activity published].
  rewrite Hdb, Hpub.
  split; [reflexivity|]. split; [reflexivity|]. split; [reflexivity|].
  unfold lookup_failure in Hfail. rewrite Hdbok in Hfail.
  destruct (head (filter _ (osc_commands (db s)))) as [command|].
  - rewrite Hdbok in Hfail.
    destruct (head (filter _ (osc_targets (db s)))); [discriminate Hfail|].
    injection Hfail as <- _. split; [discriminate | reflexivity].
  - injection Hfail as <- _. split; [reflexivity | intros [? H]; discriminate H].
Qed.


End Tests.

(** ** The pool over runs *)

Section PoolRuns.
Import Js Osc Runs.
Variable env : Environment.

Lemma sendOSCMessage_well_pooled (mapping : Mapping) (bd : BuzzerData) (s : State) :
  well_pooled s ->
  well_pooled (snd (sendOSCMessage env mapping bd s)) /\
  exists datagrams,
    sent (snd (sendOSCMessage env mapping bd s)) = sent s ++ datagrams /\
    Forall (fun dg => host (via dg) = ip_address mapping /\
                      client_port (via dg) = port mapping /\
                      dg_address dg = command_address mapping) datagrams.
Proof.
  intros Hs.
  destruct (attempt_well_pooled env (ip_address mapping) (port mapping)
              (command_address mapping) (mapping_args env mapping) s Hs)
    as [Hs1 [datagrams [Hsent Hvia]]].
  rewrite sendOSCMessage_stages.
  match goal with
  | |- context [try_catch (?m ;; report env ?row ?notice) ?h s] =>
      destruct (attempt_then_report_frame env m row notice h s) as (Hc & Hn & Hd);
        [intros e s0; apply report_frame|]
  end.
  split; [eapply well_pooled_same; eassumption|].
  exists datagrams. rewrite Hd. split; assumption.
Qed.

Lemma sendTestCommand_well_pooled (td : TestData) (s : State) :
  well_pooled s -> well_pooled (snd (sendTestCommand env td s)).
Proof.
  intros Hs. destruct (endpoint env (Test td) s) as [[ip p]|] eqn:Hend.
  - cbn [endpoint] in Hend.
    destruct (db_error env (db_calls s)) eqn:Hq1; [discriminate|].
    destruct (db_error env (S (db_calls s))) eqn:Hq2; [discriminate|].
    destruct (head (filter _ (osc_commands (db s)))) as [command|] eqn:Hcommand;
      [|discriminate].
    destruct (head (filter _ (osc_targets (db s)))) as [target|] eqn:Htarget;
      [|discriminate].
    rewrite (sendTestCommand_stages env td command target s Hq1 Hq2 Hcommand Htarget).
    assert (Hs0 : well_pooled (after_lookups s)).
    { eapply well_pooled_same; [| | |exact Hs]; reflexivity. }
    destruct (attempt_well_pooled env (ot_ip_address target) (ot_port target)
                (oc_address command) (test_args env command td) _ Hs0)
      as [Hs1 _].
    match goal with
    | |- context [try_catch (?m ;; report env ?row ?notice) ?h (after_lookups s)] =>
        destruct (attempt_then_report_frame env m row notice h (after_lookups s))
          as (Hc & Hn & Hd);
          [intros e s0; apply report_then_throw_frame|]
    end.
    eapply well_pooled_same; eassumption.
  - destruct (test_stopped_frame env td s Hend) as (Hc & Hn & Hd).
    eapply well_pooled_same; eassumption.
Qed.

Lemma for_each_well_pooled (bd : BuzzerData) (mappings : list Mapping) (s : State) :
  well_pooled s ->
  let s' := snd (for_each mappings (fun m => sendOSCMessage env m bd) s) in
  well_pooled s' /\
  exists datagrams,
    sent s' = sent s ++ datagrams /\
    Forall (fun dg => exists m, m ∈ mappings /\
              host (via dg) = ip_address m /\ client_port (via dg) = port m /\
              dg_address dg = command_address m) datagrams.
Proof.
  revert s. induction mappings as [|m mappings IH]; intros s Hs s'; subst s'.
  - cbn. split; [exact Hs|]. exists []. rewrite app_nil_r. split; [reflexivity|constructor].
  - cbn [for_each]. unfold bind.
    destruct (sendOSCMessage_well_pooled m bd s Hs) as [Hs1 [dgs1 [Hsent1 Hvia1]]].
    assert (Hhere : Forall (fun dg => exists m0, m0 ∈ m :: mappings /\
                host (via dg) = ip_address m0 /\ client_port (via dg) = port m0 /\
                dg_address dg = command_address m0) dgs1).
    { eapply Forall_impl; [exact Hvia1|]. intros dg H. exists m.
      split; [left|exact H]. }
    destruct (sendOSCMessage env m bd s) as [[[]|e] s1]; cbn [snd] in *.
    + destruct (IH s1 Hs1) as [Hs2 [dgs2 [Hsent2 Hvia2]]].
      split; [exact Hs2|]. exists (dgs1 ++ dgs2).
      rewrite Hsent2, Hsent1, <- List.app_assoc. split; [reflexivity|].
      apply Forall_app. split; [exact Hhere|].
      eapply Forall_impl; [exact Hvia2|]. intros dg [m0 [Hin H]].
      exists m0. split; [right; exact Hin | exact H].
    + split; [exact Hs1|]. exists dgs1. split; assumption.
Qed.

Lemma after_query_well_pooled (s : State) : well_pooled s -> well_pooled (after_query s).
Proof. apply well_pooled_same; reflexivity. Qed.

Lemma logActivity_pool (t : string) (m a i : Val) (ok : bool) (msg : string)
    (s : State) :
  clients (snd (logActivity env t m a i ok msg s)) = clients s /\
  created (snd (logActivity env t m a i ok msg s)) = created s /\
  sent (snd (logActivity env t m a i ok msg s)) = sent s.
Proof.
  unfold logActivity, db_operation.
  destruct (db_error env (db_calls s)); cbn; auto.
Qed.

Lemma getMappingsForBuzzer_run (mac : string) (s : State) :
  getMappingsForBuzzer env mac s =
  match db_error env (db_calls s) with
  | Some e => (Throw e, after_query s)
  | None => (Normal (select_mappings (db s) mac), after_query s)
  end.
Proof.
  unfold getMappingsForBuzzer, db_operation.
  destruct (db_error env (db_calls s)); reflexivity.
Qed.

(** What a press sends: through well-pooled clients, to the address and
    port of one of the rows its query returned. *)
Lemma processBuzzerPress_well_pooled (bd : BuzzerData) (s : State) :
  well_pooled s ->
  let s' := snd (processBuzzerPress env bd s) in
  well_pooled s' /\
  exists datagrams,
    sent s' = sent s ++ datagrams /\
    Forall (fun dg => exists m, m ∈ select_mappings (db s) (bd_mac_address bd) /\
              host (via dg) = ip_address m /\ client_port (via dg) = port m /\
              dg_address dg = command_address m) datagrams.
Proof.
  intros Hs s'. subst s'.
  unfold processBuzzerPress, try_catch, bind.
  rewrite getMappingsForBuzzer_run.
  destruct (db_error env (db_calls s)) as [e|].
  { destruct (logActivity_pool "buzzer_press_error" (VStr (bd_mac_address bd))
                VNull VNull false e (after_query s)) as (Hc & Hn & Hd).
    split; [eapply well_pooled_same; [exact Hc|exact Hn|exact Hd|];
            apply after_query_well_pooled, Hs|].
    exists []. rewrite Hd, app_nil_r. split; [reflexivity | constructor]. }
  destruct (List.length (select_mappings (db s) (bd_mac_address bd)) =? 0)%nat.
  - assert (Hframe : forall t m a i ok msg s0,
              well_pooled s0 -> sent s0 = sent s ->
              well_pooled (snd (logActivity env t m a i ok msg s0)) /\
              sent (snd (logActivity env t m a i ok msg s0)) = sent s).
    { intros t m a i ok msg s0 Hs0 Hsent0.
      destruct (logActivity_pool t m a i ok msg s0) as (Hc & Hn & Hd).
      split; [eapply well_pooled_same; eassumption | congruence]. }
    match goal with
    | |- context [logActivity env ?t ?m ?a ?i ?ok ?msg (after_query s)] =>
        destruct (Hframe t m a i ok msg (after_query s)
                    (after_query_well_pooled s Hs) eq_refl) as [Hs1 Hsent1];
        destruct (logActivity env t m a i ok msg (after_query s)) as [[[]|e] s1]
    end; cbn [snd] in *.
    + split; [exact Hs1|]. exists []. rewrite Hsent1, app_nil_r.
      split; [reflexivity | constructor].
    + destruct (Hframe "buzzer_press_error" (VStr (bd_mac_address bd)) VNull VNull
                  false e s1 Hs1 Hsent1) as [Hs2 Hsent2].
      split; [exact Hs2|]. exists []. rewrite Hsent2, app_nil_r.
      split; [reflexivity | constructor].
  - destruct (for_each_well_pooled bd (select_mappings (db s) (bd_mac_address bd))
                (after_query s) (after_query_well_pooled s Hs))
      as [Hs1 [dgs [Hsent1 Hvia]]].
    cbn [sent after_query] in Hsent1.
    destruct (for_each _ _ (after_query s)) as [[[]|e] s1]; cbn [snd] in *.
    + split; [exact Hs1|]. exists dgs. split; assumption.
    + destruct (logActivity_pool "buzzer_press_error" (VStr (bd_mac_address bd))
                  VNull VNull false e s1) as (Hc & Hn & Hd).
      split; [eapply well_pooled_same; eassumption|].
      exists dgs. rewrite Hd. split; assumption.
Qed.

(** X11: from the start of the service and through any presses and
    tests, every pooled client sits under the key of its own address and
    port, no two clients share a serial number, as many clients were
    constructed as are pooled, and every datagram sent so far went
    through the client that is pooled for its destination. *)
Theorem pool_stays_well_formed (d : Database) (calls : list Call) :
  well_pooled (run env calls (initial d)).
Proof.
  assert (Hrun : forall s, well_pooled s -> well_pooled (run env calls s)).
  { induction calls as [|c calls IH]; intros s Hs; [exact Hs|].
    cbn [run fold_left]. apply IH.
    destruct c as [bd|td]; cbn [handle].
    - apply (processBuzzerPress_well_pooled bd s Hs).
    - apply sendTestCommand_well_pooled, Hs. }
  apply Hrun, well_pooled_initial.
Qed.

Lemma select_mappings_active (d : Database) (mac : string) (m : Mapping) :
  m ∈ select_mappings d mac ->
  exists b t,
    b ∈ buzzer_bindings d /\ bb_mac_address b = mac /\ bb_is_active b = 1 /\
    t ∈ osc_targets d /\ ot_is_active t = 1 /\
    ip_address m = ot_ip_address t /\ port m = ot_port t /\
    bcm m ∈ buzzer_command_mappings d /\ bcm_is_active (bcm m) = 1.
Proof.
  unfold select_mappings. rewrite !list_elem_of_In.
  intros H. apply in_flat_map in H as [row [Hrow H]].
  apply in_flat_map in H as [b [Hb H]].
  apply in_flat_map in H as [c [Hc H]].
  apply in_flat_map in H as [t [Ht H]].
  apply list_elem_of_In, list_elem_of_filter in Hb as [_ Hb].
  apply list_elem_of_In, list_elem_of_filter in Ht as [_ Ht].
  apply list_elem_of_In in Hrow.
  destruct (String.eqb_spec (bb_mac_address b) mac) as [Hmac|]; [|destruct H].
  destruct (Z.eqb_spec (bcm_is_active row) 1) as [Hrowact|]; [|destruct H].
  destruct (Z.eqb_spec (bb_is_active b) 1) as [Hbact|]; [|destruct H].
  destruct (Z.eqb_spec (ot_is_active t) 1) as [Htact|]; [|destruct H].
  cbn in H. destruct H as [<-|[]].
  exists b, t. cbn [bcm ip_address port]. repeat split; assumption.
Qed.

(** X13: every datagram a press sends goes to the address and port of
    a target that is active, for a binding of the pressed identifier
    that is active: presses never reach a deactivated target. *)
Theorem press_reaches_active_targets_only (bd : BuzzerData) (s : State) :
  well_pooled s ->
  let s' := snd (processBuzzerPress env bd s) in
  exists datagrams,
    sent s' = sent s ++ datagrams /\
    Forall (fun dg =>
              exists b t,
                b ∈ buzzer_bindings (db s) /\
                bb_mac_address b = bd_mac_address bd /\ bb_is_active b = 1 /\
                t ∈ osc_targets (db s) /\ ot_is_active t = 1 /\
                host (via dg) = ot_ip_address t /\
                client_port (via dg) = ot_port t) datagrams.
Proof.
  intros Hs s'.
  destruct (processBuzzerPress_well_pooled bd s Hs) as [_ [dgs [Hsent Hvia]]].
  exists dgs. split; [exact Hsent|].
  eapply Forall_impl; [exact Hvia|]. intros dg [m [Hm (Hhost & Hport & _)]].
  destruct (select_mappings_active _ _ _ Hm)
    as (b & t & Hb & Hmac & Hbact & Ht & Htact & Hip & Hp & _).
  exists b, t. repeat split; congruence.
Qed.

End PoolRuns.

(** ** Failures of the query and of the sinks *)

Section Failures.
Import Js Osc Runs.
Variable env : Environment.

Lemma logActivity_run (row : activity) (s : State) :
  logActivity env (event_type row) (buzzer_mac row) (osc_address row)
    (target_ip row) (success row) (message row) s =
  match db_error env (db_calls s) with
  | Some e => (Throw e, after_query s)
  | None =>
      (Normal tt,
       {| db := insert_activity row (db s); db_calls := S (db_calls s);
          clients := clients s; created := created s; sent := sent s;
          published := published s; clock_reads := clock_reads s |})
  end.
Proof.
  destruct row. unfold logActivity, db_operation.
  cbn [event_type buzzer_mac osc_address target_ip success message].
  destruct (db_error env (db_calls s)); reflexivity.
Qed.

(** How the [catch] of [processBuzzerPress] ends. *)
Lemma press_handler (bd : BuzzerData) (e : string) (s : State) :
  let result :=
    logActivity env "buzzer_press_error" (VStr (bd_mac_address bd)) VNull VNull
      false e s in
  sent (snd result) = sent s /\
  published (snd result) = published s /\
  clients (snd result) = clients s /\
  created (snd result) = created s /\
  match db_error env (db_calls s) with
  | None =>
      fst result = Normal tt /\
      activity_log (db (snd result)) = activity_log (db s) ++ [press_error_row bd e]
  | Some e' =>
      fst result = Throw e' /\ activity_log (db (snd result)) = activity_log (db s)
  end.
Proof.
  intros result. subst result.
  pose proof (logActivity_run (press_error_row bd e) s) as Hrun.
  cbn [event_type buzzer_mac osc_address target_ip success message press_error_row]
    in Hrun.
  rewrite Hrun. clear Hrun.
  destruct (db_error env (db_calls s)); cbn; auto 10.
Qed.

(** X14: when the query for the mappings is rejected, nothing is sent
    or published and no client is created; the press ends normally with
    the row [buzzer_press_error] carrying the rejection, unless the log
    rejects that row too, and then the press throws the second
    rejection and logs nothing. *)
Theorem mapping_query_rejected (bd : BuzzerData) (s : State) (e : string) :
  db_error env (db_calls s) = Some e ->
  let result := processBuzzerPress env bd s in
  sent (snd result) = sent s /\
  published (snd result) = published s /\
  clients (snd result) = clients s /\
  created (snd result) = created s /\
  match db_error env (S (db_calls s)) with
  | None =>
      fst result = Normal tt /\
      activity_log (db (snd result)) = activity_log (db s) ++ [press_error_row bd e]
  | Some e' =>
      fst result = Throw e' /\ activity_log (db (snd result)) = activity_log (db s)
  end.
Proof.
  intros Hquery result. subst result.
  unfold processBuzzerPress, try_catch, bind.
  rewrite getMappingsForBuzzer_run, Hquery.
  apply (press_handler bd e (after_query s)).
Qed.

Lemma for_each_app {A} (l1 l2 : list A) (body : A -> M unit) (s : State) :
  for_each (l1 ++ l2) body s = (for_each l1 body ;; for_each l2 body) s.
Proof.
  revert s. induction l1 as [|x l1 IH]; intros s; [reflexivity|].
  cbn [app for_each]. unfold bind in *.
  destruct (body x s) as [[[]|e] s1]; [|reflexivity].
  apply IH.
Qed.

(** X15: when the dispatch of one mapping throws (its failure could
    not be logged, or a listener threw), the loop stops there: the
    mappings after it are not attempted, and the press only tries to
    log [buzzer_press_error]. *)
Theorem fan_out_stops_at_first_throw (bd : BuzzerData) (s s0 s1 s2 : State)
    (done rest : list Mapping) (m : Mapping) (e : string) :
  getMappingsForBuzzer env (bd_mac_address bd) s = (Normal (done ++ m :: rest), s0) ->
  for_each done (fun mapping => sendOSCMessage env mapping bd) s0 = (Normal tt, s1) ->
  sendOSCMessage env m bd s1 = (Throw e, s2) ->
  let result := processBuzzerPress env bd s in
  sent (snd result) = sent s2 /\
  published (snd result) = published s2 /\
  clients (snd result) = clients s2 /\
  created (snd result) = created s2 /\
  match db_error env (db_calls s2) with
  | None =>
      fst result = Normal tt /\
      activity_log (db (snd result)) = activity_log (db s2) ++ [press_error_row bd e]
  | Some e' =>
      fst result = Throw e' /\ activity_log (db (snd result)) = activity_log (db s2)
  end.
Proof.
  intros Hquery Hdone Hthrow result. subst result.
  assert (Hlen : (List.length (done ++ m :: rest) =? 0)%nat = false).
  { apply Nat.eqb_neq. rewrite length_app. cbn. lia. }
  assert (Hrun : processBuzzerPress env bd s =
                 logActivity env "buzzer_press_error" (VStr (bd_mac_address bd))
                   VNull VNull false e s2).
  { unfold processBuzzerPress, try_catch, bind at 1. rewrite Hquery, Hlen.
    rewrite for_each_app. unfold bind at 1. rewrite Hdone.
    cbn [for_each]. unfold bind at 1. rewrite Hthrow. reflexivity. }
  rewrite Hrun. apply (press_handler bd e s2).
Qed.

Lemma attempt_wire (ip : string) (p : Z) (address : string) (args : Json)
    (s : State) :
  exists datagrams,
    sent (snd (attempt env ip p address args s)) = sent s ++ datagrams /\
    map dg_args datagrams =
      match args with
      | JArray items => [items]
      | JString str =>
          [map (fun c => JString (String c EmptyString)) (list_ascii_of_string str)]
      | _ => []
      end /\
    Forall (fun dg => dg_address dg = address) datagrams /\
    is_Some (clients (snd (attempt env ip p address args s)) !! targetKey ip p).
Proof.
  unfold attempt, bind, pooled_client.
  destruct (clients s !! targetKey ip p) as [c|] eqn:Hpool;
    destruct args; cbn [spread]; unfold ret, throw, client_send;
    cbn [snd sent clients];
    first [ exists []; rewrite app_nil_r;
            split; [reflexivity|]; split; [reflexivity|]; split; [constructor|];
            first [rewrite Hpool; eauto | rewrite lookup_insert_eq; eauto]
          | eexists [_];
            split; [reflexivity|]; split; [reflexivity|];
            split; [constructor; [reflexivity | constructor]|];
            first [rewrite Hpool; eauto | rewrite lookup_insert_eq; eauto] ].
Qed.

(** X16: what goes on the wire for a mapping is decided by its
    arguments column: one datagram without arguments when the column is
    null, empty or not JSON, one with the elements of a JSON array, one
    with one single-character string per character of a JSON string,
    and none at all for any other JSON value; a client is pooled for
    the target in every case. *)
Theorem arguments_on_the_wire (mapping : Mapping) (bd : BuzzerData) (s : State) :
  let s' := snd (sendOSCMessage env mapping bd s) in
  exists datagrams,
    sent s' = sent s ++ datagrams /\
    map dg_args datagrams =
      wire_arguments env (text_or (command_args mapping) "[]") /\
    Forall (fun dg => dg_address dg = command_address mapping) datagrams /\
    is_Some (clients s' !! targetKey (ip_address mapping) (port mapping)).
Proof.
  intros s'. subst s'.
  destruct (attempt_wire (ip_address mapping) (port mapping)
              (command_address mapping) (mapping_args env mapping) s)
    as (datagrams & Hsent & Hargs & Haddr & Hpool).
  rewrite sendOSCMessage_stages.
  match goal with
  | |- context [try_catch (?m ;; report env ?row ?notice) ?h s] =>
      destruct (attempt_then_report_frame env m row notice h s) as (Hc & _ & Hd);
        [intros e s0; apply report_frame|]
  end.
  exists datagrams. rewrite Hd, Hc.
  split; [exact Hsent|]. split; [|split; assumption].
  rewrite Hargs. unfold mapping_args, parse_args, wire_arguments.
  destruct (JSON_parse env _) as [[]|]; reflexivity.
Qed.

(** X28: a test sends the custom arguments when they are given and not
    empty, and the arguments of the command otherwise; custom arguments
    that are not JSON give a datagram without arguments, not the
    arguments of the command. *)
Theorem test_arguments_on_the_wire (td : TestData) (command : osc_command)
    (target : osc_target) (s : State) :
  db_error env (db_calls s) = None ->
  db_error env (S (db_calls s)) = None ->
  head (filter (fun c => oc_id c = commandId td) (osc_commands (db s))) =
    Some command ->
  head (filter (fun t => ot_id t = targetId td) (osc_targets (db s))) =
    Some target ->
  let s' := snd (sendTestCommand env td s) in
  let defaults := text_or (oc_arguments command) "[]" in
  let text :=
    match customArgs td with
    | Some custom => if String.eqb custom "" then defaults else custom
    | None => defaults
    end in
  exists datagrams,
    sent s' = sent s ++ datagrams /\
    map dg_args datagrams = wire_arguments env text /\
    Forall (fun dg => dg_address dg = oc_address command) datagrams.
Proof.
  intros Hq1 Hq2 Hcommand Htarget s' defaults text. subst s' text defaults.
  rewrite (sendTestCommand_stages env td command target s Hq1 Hq2 Hcommand Htarget).
  destruct (attempt_wire (ot_ip_address target) (ot_port target)
              (oc_address command) (test_args env command td) (after_lookups s))
    as (datagrams & Hsent & Hargs & Haddr & _).
  match goal with
  | |- context [try_catch (?m ;; report env ?row ?notice) ?h (after_lookups s)] =>
      destruct (attempt_then_report_frame env m row notice h (after_lookups s))
        as (_ & _ & Hd);
        [intros e s0; apply report_then_throw_frame|]
  end.
  exists datagrams. rewrite Hd.
  split; [exact Hsent|]. split; [|exact Haddr].
  rewrite Hargs. unfold test_args, parse_args, wire_arguments.
  destruct (customArgs td) as [custom|]; [destruct (String.eqb custom "")|];
    destruct (JSON_parse env _) as [[]|]; reflexivity.
Qed.

End Failures.

(** ** Target status and shutdown *)

Section Status.
Import Js Osc Runs Admin.
Variable env : Environment.

Lemma insert_by_name_elem (t x : osc_target) (l : list osc_target) :
  x ∈ insert_by_name t l <-> x = t \/ x ∈ l.
Proof.
  induction l as [|y l IH]; cbn [insert_by_name].
  - rewrite list_elem_of_singleton. split; [auto|]. intros [H|H]; [exact H|].
    inversion H.
  - destruct (String.leb (ot_name t) (ot_name y)).
    + rewrite elem_of_cons. reflexivity.
    + rewrite !elem_of_cons, IH. tauto.
Qed.

Lemma order_by_name_elem (x : osc_target) (l : list osc_target) :
  x ∈ order_by_name l <-> x ∈ l.
Proof.
  induction l as [|y l IH]; cbn [order_by_name fold_right]; [reflexivity|].
  rewrite insert_by_name_elem, elem_of_cons. fold (order_by_name l).
  rewrite IH. reflexivity.
Qed.

Lemma getTargetStatus_run (s : State) :
  db_error env (db_calls s) = None ->
  exists statuses,
    getTargetStatus env s = (Normal statuses, after_query s) /\
    (forall t, t ∈ map row statuses <->
               t ∈ osc_targets (db s) /\ ot_is_active t = 1) /\
    Forall (fun st =>
              client_created st = connected st /\
              (connected st = true <->
               is_Some (clients s !! targetKey (ot_ip_address (row st))
                                      (ot_port (row st))))) statuses.
Proof.
  intros Hdb. unfold getTargetStatus, bind, getOSCTargets, db_operation.
  rewrite Hdb. eexists. split; [reflexivity|].
  cbn [clients]. split.
  - intros t. rewrite map_map. cbn [row]. rewrite map_id.
    rewrite order_by_name_elem, !list_elem_of_In, filter_In, Z.eqb_eq. reflexivity.
  - apply Forall_forall. intros st Hst. apply list_elem_of_In, in_map_iff in Hst
      as [t [<- _]].
    cbn [row connected client_created]. split; [reflexivity|].
    apply bool_decide_eq_true.
Qed.

(** X19: once a request has reached the pool for an address and port,
    [getTargetStatus] lists exactly the active targets and reports every
    one with that address and port as connected, whether or not the
    datagram was accepted. *)
Theorem attempted_target_reads_connected (r : Request) (s : State)
    (ip : string) (p : Z) :
  endpoint env r s = Some (ip, p) ->
  let s1 := snd (serve env r s) in
  db_error env (db_calls s1) = None ->
  exists statuses s2,
    getTargetStatus env s1 = (Normal statuses, s2) /\
    (forall t, t ∈ map row statuses <->
               t ∈ osc_targets (db s) /\ ot_is_active t = 1) /\
    Forall (fun st =>
              ot_ip_address (row st) = ip -> ot_port (row st) = p ->
              connected st = true /\ client_created st = true) statuses.
Proof.
  intros Hend s1 Hdb.
  destruct (serve_pool env r s ip p Hend) as (client & _ & Hkey & _).
  fold s1 in Hkey.
  destruct (getTargetStatus_run s1 Hdb) as (statuses & Hrun & Hrows & Hflags).
  exists statuses, (after_query s1). split; [exact Hrun|].
  assert (Hsame : osc_targets (db s1) = osc_targets (db s)).
  { assert (Hext : extends s s1).
    { subst s1. destruct r as [m bd|td]; cbn [serve];
        [apply grows_sendOSCMessage | apply grows_sendTestCommand]. }
    destruct Hext as [(_ & _ & Ht & _) _]. exact Ht. }
  split.
  - intros t. rewrite <- Hsame. apply Hrows.
  - eapply Forall_impl; [exact Hflags|]. intros st [Hcc Hconn] Hip Hp.
    rewrite Hcc. assert (connected st = true) as Hyes; [|auto].
    apply Hconn. rewrite Hip, Hp, Hkey. eauto.
Qed.

Lemma attempt_new_client (ip : string) (p : Z) (address : string) (args : Json)
    (s : State) :
  clients s !! targetKey ip p = None ->
  clients (snd (attempt env ip p address args s)) =
    <[targetKey ip p := {| host := ip; client_port := p; serial := created s |}]>
      (clients s) /\
  created (snd (attempt env ip p address args s)) = S (created s).
Proof.
  intros Hpool. unfold attempt, bind, pooled_client. rewrite Hpool.
  destruct args; cbn [spread]; unfold ret, throw, client_send; cbn; auto.
Qed.

(** A request that finds no client for its address and port constructs
    one, numbered by the constructions so far. *)
Lemma serve_new_client (r : Request) (s : State) (ip : string) (p : Z) :
  endpoint env r s = Some (ip, p) ->
  clients s !! targetKey ip p = None ->
  clients (snd (serve env r s)) =
    <[targetKey ip p := {| host := ip; client_port := p; serial := created s |}]>
      (clients s) /\
  created (snd (serve env r s)) = S (created s).
Proof.
  destruct r as [mapping bd|td]; cbn [endpoint serve].
  - intros [= <- <-] Hpool.
    destruct (attempt_new_client (ip_address mapping) (port mapping)
                (command_address mapping) (mapping_args env mapping) s Hpool)
      as [Hc1 Hn1].
    rewrite sendOSCMessage_stages.
    match goal with
    | |- context [try_catch (?m ;; report env ?row ?notice) ?h s] =>
        destruct (attempt_then_report_frame env m row notice h s) as (Hc & Hn & _);
          [intros e s0; apply report_frame|]
    end.
    rewrite Hc, Hn. auto.
  - destruct (db_error env (db_calls s)) eqn:Hq1; [discriminate|].
    destruct (db_error env (S (db_calls s))) eqn:Hq2; [discriminate|].
    destruct (head (filter _ (osc_commands (db s)))) as [command|] eqn:Hcommand;
      [|discriminate].
    destruct (head (filter _ (osc_targets (db s)))) as [target|] eqn:Htarget;
      [|discriminate].
    intros [= <- <-] Hpool.
    destruct (attempt_new_client (ot_ip_address target) (ot_port target)
                (oc_address command) (test_args env command td)
                (after_lookups s) Hpool) as [Hc1 Hn1].
    rewrite (sendTestCommand_stages env td command target s Hq1 Hq2 Hcommand Htarget).
    match goal with
    | |- context [try_catch (?m ;; report env ?row ?notice) ?h (after_lookups s)] =>
        destruct (attempt_then_report_frame env m row notice h (after_lookups s))
          as (Hc & Hn & _);
          [intros e s0; apply report_then_throw_frame|]
    end.
    rewrite Hc, Hn. auto.
Qed.

(** X20: after [disconnect] no target reads connected, and the next
    request for an address and port constructs a new client, the only
    one pooled, different from every client pooled before. *)
Theorem disconnect_forgets_clients (r : Request) (s : State) (ip : string) (p : Z) :
  well_pooled s ->
  endpoint env r s = Some (ip, p) ->
  let s0 := disconnect s in
  let s1 := snd (serve env r s0) in
  let fresh := {| host := ip; client_port := p; serial := created s |} in
  (db_error env (db_calls s0) = None ->
   exists statuses,
     fst (getTargetStatus env s0) = Normal statuses /\
     Forall (fun st => connected st = false) statuses) /\
  clients s1 = {[ targetKey ip p := fresh ]} /\
  created s1 = S (created s) /\
  (forall k c, clients s !! k = Some c -> c <> fresh).
Proof.
  intros (Hkeys & _) Hend s0 s1 fresh.
  split.
  { intros Hdb. destruct (getTargetStatus_run s0 Hdb) as (statuses & Hrun & _ & Hflags).
    exists statuses. rewrite Hrun. split; [reflexivity|].
    eapply Forall_impl; [exact Hflags|]. intros st [_ Hconn].
    destruct (connected st); [|reflexivity].
    destruct (proj1 Hconn eq_refl) as [c Hc]. cbn in Hc.
    rewrite lookup_empty in Hc. discriminate Hc. }
  destruct (serve_new_client r s0 ip p Hend (lookup_empty _)) as [Hc Hn].
  split; [exact Hc|]. split; [exact Hn|].
  intros k c Hk ->. destruct (Hkeys _ _ Hk) as [_ Hlt]. cbn in Hlt. lia.
Qed.

End Status.

(** ** Writing the configuration *)

Section Writes.
Import Js Osc Config.

Lemma largest_ge (ids : list Z) (seq : Z) :
  seq <= largest ids seq /\ Forall (fun id => id <= largest ids seq) ids.
Proof.
  induction ids as [|id ids [IH1 IH2]]; cbn [largest fold_right];
    [split; [lia | constructor]|].
  fold (largest ids seq). split; [lia|].
  constructor; [lia|]. eapply Forall_impl; [exact IH2|]. cbn beta. lia.
Qed.

Lemma next_rowid_fresh (ids : list Z) (seq id : Z) :
  next_rowid ids seq = Some id ->
  seq < id /\ Forall (fun x => x < id) ids.
Proof.
  unfold next_rowid. destruct (_ <=? max_rowid); [|discriminate].
  intros [= <-]. destruct (largest_ge ids seq) as [H1 H2].
  split; [lia|]. eapply Forall_impl; [exact H2|]. cbn beta. lia.
Qed.

Lemma ids_handed_out_unbound (commands : list osc_command)
    (targets : list osc_target) :
  ids_handed_out (unbound commands targets).
Proof. split; constructor. Qed.

Lemma createBuzzerBinding_ids (mac name : string) (st : Store) :
  ids_handed_out st -> ids_handed_out (snd (createBuzzerBinding mac name st)).
Proof.
  intros [Hb Hm]. unfold createBuzzerBinding.
  destruct (next_rowid _ _) as [id|] eqn:Hid; cbn [snd]; [|split; assumption].
  apply next_rowid_fresh in Hid as [Hseq _].
  split; cbn [tables buzzer_bindings buzzer_command_mappings bindings_seq].
  - apply Forall_app. split; [|constructor; [cbn; lia | constructor]].
    apply Forall_forall. intros b Hin.
    apply list_elem_of_In, filter_In in Hin as [Hin _].
    apply list_elem_of_In in Hin.
    rewrite Forall_forall in Hb. specialize (Hb b Hin). cbn beta in Hb. lia.
  - eapply Forall_impl; [exact Hm|]. cbn beta. intros m H k Hk.
    specialize (H k Hk). lia.
Qed.

Lemma getBuzzerBindingByMac_elem (mac : string) (st : Store) (b : buzzer_binding) :
  getBuzzerBindingByMac mac st = Some b ->
  b ∈ buzzer_bindings (tables st) /\ bb_mac_address b = mac.
Proof.
  unfold getBuzzerBindingByMac. intros H.
  assert (Hin : In b (List.filter (fun b => String.eqb (bb_mac_address b) mac)
                        (buzzer_bindings (tables st)))).
  { destruct (List.filter _ _) as [|x l]; [discriminate H|].
    injection H as ->. left. reflexivity. }
  apply filter_In in Hin as [Hin Hmac]. apply String.eqb_eq in Hmac.
  apply list_elem_of_In in Hin. auto.
Qed.

Lemma post_ids (rq : Post) (st : Store) :
  ids_handed_out st -> ids_handed_out (snd (post rq st)).
Proof.
  intros Hst. destruct rq as [[mac|] [name|]|mac [c|] [t|]|[name|] [ip|] p];
    cbn [post]; try exact Hst.
  - unfold post_binding. destruct (_ || _); [exact Hst|].
    pose proof (createBuzzerBinding_ids mac name st Hst) as H.
    destruct (createBuzzerBinding mac name st) as [[id|e] st']; exact H.
  - unfold post_mapping. destruct (_ || _); [exact Hst|].
    destruct (getBuzzerBindingByMac mac st) as [b|] eqn:Hb; [|exact Hst].
    apply getBuzzerBindingByMac_elem in Hb as [Hin _].
    destruct Hst as [Hbs Hms]. unfold createMapping.
    destruct (next_rowid _ _) as [id|]; cbn [snd]; [|split; assumption].
    split; cbn [tables buzzer_bindings buzzer_command_mappings bindings_seq];
      [exact Hbs|].
    apply Forall_app. split; [exact Hms|]. constructor; [|constructor].
    cbn [buzzer_binding_id]. intros k [= <-].
    rewrite Forall_forall in Hbs. apply (Hbs b Hin).
  - unfold post_target. destruct (_ || _); [exact Hst|].
    destruct (parseInt p); try exact Hst.
    destruct (_ || _); [exact Hst|]. destruct (_ && _); [exact Hst|].
    unfold createOSCTarget. destruct (existsb _ _); [exact Hst|].
    destruct (next_rowid _ _); exact Hst.
Qed.

Lemma configure_ids (requests : list Post) (st : Store) :
  ids_handed_out st -> ids_handed_out (configure requests st).
Proof.
  revert st. induction requests as [|rq requests IH]; intros st Hst; [exact Hst|].
  cbn [configure fold_left]. apply IH, post_ids, Hst.
Qed.

Lemma flat_map_nil {A B} (f : A -> list B) (l : list A) :
  (forall x, f x = []) -> flat_map f l = [].
Proof.
  intros Hf. induction l as [|x l IH]; [reflexivity|].
  cbn [flat_map]. rewrite Hf, IH. reflexivity.
Qed.

(** The join of [getMappingsForBuzzer] reads the bindings that hold the
    address only. *)
Lemma select_mappings_bindings (d d' : Database) (mac : string) :
  osc_commands d' = osc_commands d ->
  osc_targets d' = osc_targets d ->
  buzzer_command_mappings d' = buzzer_command_mappings d ->
  List.filter (fun b => String.eqb (bb_mac_address b) mac) (buzzer_bindings d') =
  List.filter (fun b => String.eqb (bb_mac_address b) mac) (buzzer_bindings d) ->
  select_mappings d' mac = select_mappings d mac.
Proof.
  intros Hc Ht Hm Hb. unfold select_mappings. rewrite Hc, Ht, Hm.
  assert (Hjoin : forall (f : buzzer_binding -> list Mapping) (P : buzzer_binding -> Prop)
                    `{forall b, Decision (P b)} (l : list buzzer_binding),
            (forall b, String.eqb (bb_mac_address b) mac = false -> f b = []) ->
            flat_map f (filter P l) =
            flat_map f (filter P
              (List.filter (fun b => String.eqb (bb_mac_address b) mac) l))).
  { intros f P HP l Hf. induction l as [|b l IH]; [reflexivity|].
    cbn [List.filter]. destruct (String.eqb (bb_mac_address b) mac) eqn:Hmac.
    - rewrite !filter_cons. destruct (decide (P b)); cbn [flat_map];
        rewrite IH; reflexivity.
    - rewrite filter_cons. destruct (decide (P b)); cbn [flat_map];
        rewrite ?(Hf b Hmac), IH; reflexivity. }
  apply flat_map_ext. intros m.
  rewrite (Hjoin _ _ _ (buzzer_bindings d')), (Hjoin _ _ _ (buzzer_bindings d)), Hb;
    [reflexivity| |].
  all: intros b Hmac; rewrite Hmac; cbn [andb];
    apply flat_map_nil; intros c; apply flat_map_nil; reflexivity.
Qed.

Lemma largest_handed_out (ids : list Z) (seq : Z) :
  Forall (fun id => id <= seq) ids -> largest ids seq = seq.
Proof.
  induction 1 as [|id ids Hid _ IH]; cbn [largest fold_right]; [reflexivity|].
  fold (largest ids seq). rewrite IH. lia.
Qed.

Lemma flat_map_nil_Forall {A B} (f : A -> list B) (l : list A) :
  Forall (fun x => f x = []) l -> flat_map f l = [].
Proof.
  induction 1 as [|x l Hx _ IH]; [reflexivity|].
  cbn [flat_map]. rewrite Hx, IH. reflexivity.
Qed.

Lemma filter_other_mac (mac mac' : string) (l : list buzzer_binding) :
  mac' <> mac ->
  List.filter (fun b => String.eqb (bb_mac_address b) mac')
    (List.filter (fun b => negb (String.eqb (bb_mac_address b) mac)) l) =
  List.filter (fun b => String.eqb (bb_mac_address b) mac') l.
Proof.
  intros Hne. induction l as [|b l IH]; [reflexivity|].
  cbn [List.filter].
  destruct (String.eqb_spec (bb_mac_address b) mac) as [Hb|Hb]; cbn [negb].
  - rewrite IH. destruct (String.eqb_spec (bb_mac_address b) mac') as [Hb'|];
      [congruence | reflexivity].
  - cbn [List.filter]. rewrite IH. reflexivity.
Qed.

Lemma filter_same_mac (mac : string) (l : list buzzer_binding) :
  List.filter (fun b => String.eqb (bb_mac_address b) mac)
    (List.filter (fun b => negb (String.eqb (bb_mac_address b) mac)) l) = [].
Proof.
  induction l as [|b l IH]; [reflexivity|].
  cbn [List.filter]. destruct (String.eqb (bb_mac_address b) mac) eqn:Hb;
    cbn [negb List.filter]; [exact IH|]. rewrite Hb. exact IH.
Qed.

(** X21: after any history of the writing routes on a store that
    started without bindings, posting a binding for an address gives it
    a rowid larger than every rowid handed out before; the mapping rows
    stay as they are, so none of them resolves for the address any more:
    a rebound buzzer has no mappings, and the other buzzers keep
    theirs. *)
Theorem rebinding_orphans_mappings (commands : list osc_command)
    (targets : list osc_target) (requests : list Post) (mac name : string) :
  let st := configure requests (unbound commands targets) in
  mac <> "" -> name <> "" ->
  bindings_seq st < max_rowid ->
  let result := post_binding (Some mac) (Some name) st in
  let st' := snd result in
  (exists id,
     fst result = Ok id /\ bindings_seq st < id /\
     getBuzzerBindingByMac mac st' =
       Some {| bb_id := id; bb_mac_address := mac; bb_device_name := name;
               bb_is_active := 1 |}) /\
  buzzer_command_mappings (tables st') = buzzer_command_mappings (tables st) /\
  select_mappings (tables st') mac = [] /\
  (forall mac', mac' <> mac ->
     select_mappings (tables st') mac' = select_mappings (tables st) mac').
Proof.
  intros st Hmac Hname Hroom result st'. subst st' result.
  assert (Hst : ids_handed_out st).
  { apply configure_ids, ids_handed_out_unbound. }
  destruct Hst as [Hbs Hms].
  assert (Hnext : next_rowid (map bb_id (buzzer_bindings (tables st)))
                    (bindings_seq st) = Some (bindings_seq st + 1)).
  { unfold next_rowid. rewrite largest_handed_out by (apply Forall_map; exact Hbs).
    destruct (Z.leb_spec (bindings_seq st + 1) max_rowid); [reflexivity | lia]. }
  apply String.eqb_neq in Hmac, Hname.
  unfold post_binding, createBuzzerBinding. cbn [truthy].
  rewrite Hmac, Hname, Hnext. cbn [negb orb fst snd tables buzzer_command_mappings].
  set (new := {| bb_id := bindings_seq st + 1; bb_mac_address := mac;
                 bb_device_name := name; bb_is_active := 1 |}).
  split.
  { exists (bindings_seq st + 1). split; [reflexivity|]. split; [lia|].
    unfold getBuzzerBindingByMac. cbn [tables buzzer_bindings].
    rewrite List.filter_app, filter_same_mac. cbn [List.filter app bb_mac_address new].
    rewrite String.eqb_refl. reflexivity. }
  split; [reflexivity|].
  split.
  - match goal with
    | |- select_mappings ?d' mac = [] =>
        rewrite (select_mappings_bindings
                   {| buzzer_bindings := [new]; osc_commands := osc_commands d';
                      osc_targets := osc_targets d';
                      buzzer_command_mappings := buzzer_command_mappings d';
                      activity_log := activity_log d' |} d' mac)
    end; try reflexivity.
    + unfold select_mappings.
      cbn [buzzer_command_mappings buzzer_bindings osc_commands osc_targets].
      apply flat_map_nil_Forall. eapply Forall_impl; [exact Hms|].
      cbn beta. intros m Hm.
      assert (Hnone : filter (fun bb => refers (buzzer_binding_id m) (bb_id bb) = true)
                        [new] = []).
      { rewrite filter_cons. destruct (decide _) as [Href|]; [|reflexivity].
        unfold refers in Href. destruct (buzzer_binding_id m) as [k|] eqn:Hk;
          [|discriminate Href].
        apply Z.eqb_eq in Href. specialize (Hm k eq_refl). cbn [bb_id new] in Href.
        lia. }
      rewrite Hnone. reflexivity.
    + cbn [buzzer_bindings]. rewrite List.filter_app, filter_same_mac.
      reflexivity.
  - intros mac' Hne. apply select_mappings_bindings; try reflexivity.
    cbn [buzzer_bindings]. rewrite List.filter_app, (filter_other_mac mac mac' _ Hne).
    cbn [List.filter bb_mac_address new].
    destruct (String.eqb_spec mac mac') as [Heq|]; [congruence|].
    apply app_nil_r.
Qed.

(** X22: posting a mapping for a bound, active buzzer with the ids of
    an existing command and an existing active target is answered with
    the new rowid, and from then on the query of a press of the buzzer
    returns a row for it with the address of the command and the address
    and port of the target; the only other answer is the error of a
    full table, which changes nothing. *)
Theorem posted_mapping_resolves (st : Store) (mac : string) (c t : Z)
    (binding : buzzer_binding) (command : osc_command) (target : osc_target) :
  getBuzzerBindingByMac mac st = Some binding ->
  bb_is_active binding = 1 ->
  command ∈ osc_commands (tables st) -> oc_id command = c ->
  target ∈ osc_targets (tables st) -> ot_id target = t ->
  ot_is_active target = 1 ->
  c <> 0 -> t <> 0 ->
  let result := post_mapping mac (Some c) (Some t) st in
  match fst result with
  | Ok id =>
      exists row,
        row ∈ select_mappings (tables (snd result)) mac /\
        bcm_id (bcm row) = id /\
        command_address row = oc_address command /\
        ip_address row = ot_ip_address target /\
        port row = ot_port target
  | ServerError e => e = full /\ snd result = st
  | _ => False
  end.
Proof.
  intros Hbinding Hactive Hcommand Hc Htarget Ht Hon Hc0 Ht0 result. subst result.
  apply Z.eqb_neq in Hc0, Ht0.
  unfold post_mapping. cbn [truthy]. rewrite Hc0, Ht0, Hbinding. cbn [negb orb].
  unfold createMapping.
  destruct (next_rowid _ _) as [id|]; cbn [fst snd]; [|split; reflexivity].
  apply getBuzzerBindingByMac_elem in Hbinding as [Hin Hmac].
  eexists. split; [|split; [|split; [|split]]].
  - unfold select_mappings. cbn [tables buzzer_command_mappings buzzer_bindings
                                 osc_commands osc_targets].
    apply list_elem_of_In, in_flat_map. eexists. split; [apply in_or_app; right; left; reflexivity|].
    apply in_flat_map. exists binding. split.
    { apply list_elem_of_In, list_elem_of_filter. split; [|exact Hin].
      cbn [buzzer_binding_id refers]. apply Z.eqb_refl. }
    apply in_flat_map. exists command. split.
    { apply list_elem_of_In, list_elem_of_filter. split; [|exact Hcommand].
      cbn [osc_command_id refers]. rewrite Hc. apply Z.eqb_refl. }
    apply in_flat_map. exists target. split.
    { apply list_elem_of_In, list_elem_of_filter. split; [|exact Htarget].
      cbn [osc_target_id refers]. rewrite Ht. apply Z.eqb_refl. }
    cbn [bcm_is_active]. rewrite Hmac, String.eqb_refl, Hactive, Hon.
    left. reflexivity.
  - reflexivity.
  - reflexivity.
  - reflexivity.
  - reflexivity.
Qed.

(** X23: [deleteMappingsForBuzzer] never deletes anything: for a bound
    buzzer its statement names the table [buzzer_mappings], which
    [createTables] does not create, and is rejected; for another buzzer
    it resolves with no change. *)
Theorem deleteMappingsForBuzzer_deletes_nothing (mac : string) (st : Store) :
  snd (deleteMappingsForBuzzer mac st) = st /\
  (is_Some (getBuzzerBindingByMac mac st) ->
   fst (deleteMappingsForBuzzer mac st) =
     Throw "SQLITE_ERROR: no such table: buzzer_mappings") /\
  (getBuzzerBindingByMac mac st = None ->
   fst (deleteMappingsForBuzzer mac st) = Normal O).
Proof.
  unfold deleteMappingsForBuzzer.
  destruct (getBuzzerBindingByMac mac st) as [b|].
  - split; [reflexivity|]. split; [reflexivity | discriminate].
  - split; [reflexivity|]. split; [intros [? H]; discriminate H | reflexivity].
Qed.

Lemma String_neq_empty (c : ascii) (r : string) : String c r <> "".
Proof. discriminate. Qed.

Lemma digit_value_digit (c : ascii) :
  is_digit c = true -> digit_value 10 c = Some (code c - 48) /\ 48 <= code c <= 57.
Proof.
  unfold is_digit, digit_value. intros H. rewrite H.
  apply andb_true_iff in H as [Hlo Hhi].
  apply Z.leb_le in Hlo. apply Z.leb_le in Hhi.
  assert (Hd : (code c - 48 <? 10) = true) by (apply Z.ltb_lt; lia).
  rewrite Hd. split; [reflexivity | lia].
Qed.

Lemma in_range_spec (lo hi c : ascii) :
  in_range lo hi c = true <-> code lo <= code c <= code hi.
Proof.
  unfold in_range. rewrite andb_true_iff, !Z.leb_le. reflexivity.
Qed.

Lemma code_eqb (a b : ascii) : Ascii.eqb a b = true -> code a = code b.
Proof. intros H. apply Ascii.eqb_eq in H. subst. reflexivity. Qed.

Lemma is_digit_code (c : ascii) : 48 <= code c <= 57 -> is_digit c = true.
Proof.
  intros H. unfold is_digit. apply andb_true_iff. rewrite !Z.leb_le. exact H.
Qed.

(** What the octet pattern lets through: one to three digits that read
    as a number up to 255. *)
Lemma octet_value (field : string) :
  octet field = true ->
  all_chars is_digit field = true /\
  (1 <= String.length field <= 3)%nat /\
  exists n, parseInt_string field = VNum n /\ 0 <= n <= 255.
Proof.
  destruct field as [|a [|b [|c [|x r]]]]; cbn [octet]; try discriminate.
  - intros Ha. apply in_range_spec in Ha. change (code "0") with 48 in Ha.
    change (code "9") with 57 in Ha.
    pose proof (is_digit_code a Ha) as Hda.
    assert (Hall : all_chars is_digit (String a "") = true).
    { cbn [all_chars]. rewrite Hda. reflexivity. }
    split; [exact Hall|]. split; [cbn; lia|].
    destruct (parseInt_string_digits _ (@String_neq_empty _ _) Hall) as [-> _].
    eexists. split; [reflexivity|].
    cbn [leading_digits]. rewrite (proj1 (digit_value_digit a Hda)).
    unfold digits_value. cbn [fold_left]. lia.
  - intros H. apply andb_true_iff in H as [Ha Hb].
    apply in_range_spec in Ha, Hb.
    change (code "0") with 48 in *. change (code "9") with 57 in *.
    pose proof (is_digit_code a Ha) as Hda. pose proof (is_digit_code b Hb) as Hdb.
    assert (Hall : all_chars is_digit (String a (String b "")) = true).
    { cbn [all_chars]. rewrite Hda, Hdb. reflexivity. }
    split; [exact Hall|]. split; [cbn; lia|].
    destruct (parseInt_string_digits _ (@String_neq_empty _ _) Hall) as [-> _].
    eexists. split; [reflexivity|].
    cbn [leading_digits].
    rewrite (proj1 (digit_value_digit a Hda)), (proj1 (digit_value_digit b Hdb)).
    unfold digits_value. cbn [fold_left]. lia.
  - intros H.
    assert (Hcodes :
      48 <= code a <= 57 /\ 48 <= code b <= 57 /\ 48 <= code c <= 57 /\
      ((code a - 48) * 10 + (code b - 48)) * 10 + (code c - 48) <= 255).
    { apply orb_true_iff in H as [H|H]; [apply orb_true_iff in H as [H|H]|];
        apply andb_true_iff in H as [H Hc]; apply andb_true_iff in H as [Ha Hb];
        repeat match goal with
               | Hx : Ascii.eqb _ _ = true |- _ => apply code_eqb in Hx
               | Hx : in_range _ _ _ = true |- _ => apply in_range_spec in Hx
               end;
        change (code "0") with 48 in *; change (code "1") with 49 in *;
        change (code "2") with 50 in *; change (code "4") with 52 in *;
        change (code "5") with 53 in *; change (code "9") with 57 in *;
        lia. }
    destruct Hcodes as (Ha & Hb & Hc & Hle).
    pose proof (is_digit_code a Ha) as Hda. pose proof (is_digit_code b Hb) as Hdb.
    pose proof (is_digit_code c Hc) as Hdc.
    assert (Hall : all_chars is_digit (String a (String b (String c ""))) = true).
    { cbn [all_chars]. rewrite Hda, Hdb, Hdc. reflexivity. }
    split; [exact Hall|]. split; [cbn; lia|].
    destruct (parseInt_string_digits _ (@String_neq_empty _ _) Hall) as [-> _].
    eexists. split; [reflexivity|].
    cbn [leading_digits].
    rewrite (proj1 (digit_value_digit a Hda)), (proj1 (digit_value_digit b Hdb)),
      (proj1 (digit_value_digit c Hdc)).
    unfold digits_value. cbn [fold_left]. lia.
Qed.

Lemma post_target_targets (name ip : option string) (p : Val) (st : Store) :
  osc_targets (tables (snd (post_target name ip p st))) = osc_targets (tables st) \/
  exists t,
    osc_targets (tables (snd (post_target name ip p st))) =
      osc_targets (tables st) ++ [t] /\
    fst (post_target name ip p st) = Ok (ot_id t) /\
    name = Some (ot_name t) /\ ip = Some (ot_ip_address t) /\
    parseInt p = VNum (ot_port t) /\ ot_is_active t = 1 /\
    Forall (fun t0 => ot_name t0 <> ot_name t /\ ot_id t0 < ot_id t)
      (osc_targets (tables st)) /\
    well_addressed t.
Proof.
  unfold post_target.
  destruct name as [name|]; [|left; reflexivity].
  destruct ip as [ip|]; [|left; reflexivity].
  destruct (_ || _); [left; reflexivity|].
  destruct (parseInt p) as [| | |portNum| |] eqn:Hport; try (left; reflexivity).
  destruct (_ || _) eqn:Hrange; [left; reflexivity|].
  destruct (_ && _) eqn:Hip; [left; reflexivity|].
  unfold createOSCTarget.
  destruct (existsb _ _) eqn:Hname; [left; reflexivity|].
  destruct (next_rowid _ _) as [id|] eqn:Hid; [|left; reflexivity].
  right. eexists. cbn [fst snd tables osc_targets].
  split; [reflexivity|]. cbn [ot_id ot_name ot_ip_address ot_port ot_is_active].
  split; [reflexivity|]. split; [reflexivity|]. split; [reflexivity|].
  split; [reflexivity|]. split; [reflexivity|].
  split.
  { apply next_rowid_fresh in Hid as [_ Hids].
    apply Forall_forall. intros t0 Hin. split.
    - intros Heq. rewrite <- not_true_iff_false in Hname. apply Hname.
      apply existsb_exists. exists t0.
      split; [apply list_elem_of_In, Hin | apply String.eqb_eq, Heq].
    - rewrite Forall_forall in Hids. apply Hids.
      apply list_elem_of_fmap. exists t0. auto. }
  split; cbn [ot_port ot_ip_address].
  - apply orb_false_iff in Hrange as [Hlo Hhi].
    apply Z.ltb_ge in Hlo. rewrite Z.gtb_ltb in Hhi. apply Z.ltb_ge in Hhi. lia.
  - apply andb_false_iff in Hip as [Hip|Hip]; apply negb_false_iff in Hip.
    + right. unfold ipPattern_test in Hip.
      destruct (split "." ip) as [|a [|b [|c [|d [|x r]]]]]; try discriminate Hip.
      apply andb_true_iff in Hip as [Hip Hd].
      apply andb_true_iff in Hip as [Hip Hc].
      apply andb_true_iff in Hip as [Ha Hb].
      exists a, b, c, d. split; [reflexivity|].
      do 4 (constructor; [apply octet_value; assumption|]). constructor.
    + left. apply String.eqb_eq, Hip.
Qed.

(** X24: every target [POST /] stores has a port between 1 and 65535,
    an address that is [localhost] or four fields of one to three digits
    each reading as a number up to 255, and is active; target names stay
    unique.  So this holds of every target after any history of the
    writing routes, when it held of the targets the store started
    with. *)
Theorem posted_targets_are_well_addressed (commands : list osc_command)
    (targets : list osc_target) (requests : list Post) :
  Forall well_addressed targets ->
  NoDup (map ot_name targets) ->
  let st := configure requests (unbound commands targets) in
  Forall well_addressed (osc_targets (tables st)) /\
  NoDup (map ot_name (osc_targets (tables st))) /\
  Forall (fun t => ot_is_active t = 1 \/ t ∈ targets) (osc_targets (tables st)).
Proof.
  intros Hvalid Hnames st. subst st.
  assert (Hrun : forall st,
            Forall well_addressed (osc_targets (tables st)) /\
            NoDup (map ot_name (osc_targets (tables st))) /\
            Forall (fun t => ot_is_active t = 1 \/ t ∈ targets)
              (osc_targets (tables st)) ->
            Forall well_addressed (osc_targets (tables (configure requests st))) /\
            NoDup (map ot_name (osc_targets (tables (configure requests st)))) /\
            Forall (fun t => ot_is_active t = 1 \/ t ∈ targets)
              (osc_targets (tables (configure requests st)))).
  { induction requests as [|rq requests IH]; intros st Hst; [exact Hst|].
    cbn [configure fold_left]. apply IH. destruct Hst as (Hwell & Hnodup & Hact).
    destruct rq as [mac name|mac c t|name ip p]; cbn [post].
    - assert (Hsame : osc_targets (tables (snd (post_binding mac name st))) =
                      osc_targets (tables st)).
      { unfold post_binding. destruct mac, name; try reflexivity.
        destruct (_ || _); [reflexivity|]. unfold createBuzzerBinding.
        destruct (next_rowid _ _); reflexivity. }
      rewrite Hsame. auto.
    - assert (Hsame : osc_targets (tables (snd (post_mapping mac c t st))) =
                      osc_targets (tables st)).
      { unfold post_mapping. destruct c, t; try reflexivity.
        destruct (_ || _); [reflexivity|].
        destruct (getBuzzerBindingByMac mac st); [|reflexivity].
        unfold createMapping. destruct (next_rowid _ _); reflexivity. }
      rewrite Hsame. auto.
    - destruct (post_target_targets name ip p st)
        as [->|(t & -> & _ & _ & _ & _ & Hon & Hfresh & Ht)]; [auto|].
      split; [apply Forall_app; split; [exact Hwell | constructor; [exact Ht|constructor]]|].
      split.
      + rewrite map_app. apply NoDup_app. split; [exact Hnodup|].
        split; [|apply NoDup_singleton].
        intros n Hn Hin. apply list_elem_of_singleton in Hin. subst n.
        apply list_elem_of_fmap in Hn as [t0 [Heq Hin]].
        rewrite Forall_forall in Hfresh. destruct (Hfresh t0 Hin) as [Hne _].
        congruence.
      + apply Forall_app. split; [exact Hact|]. constructor; [auto | constructor]. }
  apply Hrun. cbn [unbound tables osc_targets].
  split; [exact Hvalid|]. split; [exact Hnames|].
  apply Forall_forall. auto.
Qed.

End Writes.

(** ** Commands created through the route *)

Section Commands.
Import Js Osc Runs Config.
Variable env : Environment.

Lemma text_or_nonempty (x : option string) (y : string) :
  y <> "" -> text_or (Some (text_or x y)) y = text_or x y.
Proof.
  intros Hy. unfold text_or at 1.
  destruct (String.eqb_spec (text_or x y) "") as [He|Hne]; [|reflexivity].
  unfold text_or in He. destruct x as [t|]; [|contradiction].
  destruct (String.eqb_spec t ""); [contradiction | congruence].
Qed.

(** X29: a command [POST /] of the commands router stores is added at
    the end of the table under a name no other command has, and its
    arguments column always parses; so a dispatch of it never falls back
    to an empty argument list: it sends the elements of a parsed array,
    the characters of a parsed string, and nothing at all for any other
    parsed value, which the route accepts as well. *)
Theorem posted_command_on_the_wire (name address args : option string)
    (st st' : Store) (id : Z) :
  post_command env name address args st = (Ok id, st') ->
  exists c j,
    osc_commands (tables st') = osc_commands (tables st) ++ [c] /\
    oc_id c = id /\ name = Some (oc_name c) /\ address = Some (oc_address c) /\
    Forall (fun c' => oc_name c' <> oc_name c) (osc_commands (tables st)) /\
    JSON_parse env (text_or (oc_arguments c) "[]") = Some j /\
    forall (mapping : Mapping) (bd : BuzzerData) (s : State),
      command_args mapping = oc_arguments c ->
      exists datagrams,
        sent (snd (sendOSCMessage env mapping bd s)) = sent s ++ datagrams /\
        map dg_args datagrams =
          match j with
          | JArray items => [items]
          | JString str =>
              [map (fun ch => JString (String ch EmptyString))
                 (list_ascii_of_string str)]
          | _ => []
          end.
Proof.
  unfold post_command. intros H.
  destruct name as [name|]; [|discriminate].
  destruct address as [address|]; [|destruct name; discriminate].
  destruct (negb (truthy (VStr name)) || negb (truthy (VStr address)));
    [discriminate|].
  cbv zeta in H.
  destruct (JSON_parse env (text_or args "[]")) as [j|] eqn:Hj; [|discriminate].
  unfold createOSCCommand in H. cbv zeta in H.
  destruct (existsb _ _) eqn:Hname; [discriminate|].
  destruct (next_rowid _ _) as [k|]; [|discriminate].
  injection H as <- <-.
  eexists; exists j. cbn [tables osc_commands oc_id oc_name oc_address oc_arguments].
  split; [reflexivity|]. do 3 (split; [reflexivity|]).
  split.
  { apply Forall_forall. intros c' Hin Heq.
    assert (Hex : existsb (fun c0 => String.eqb (oc_name c0) name)
                    (osc_commands (tables st)) = true).
    { apply existsb_exists. exists c'. split; [apply list_elem_of_In, Hin|].
      apply String.eqb_eq, Heq. }
    congruence. }
  assert (Hcol : text_or (Some (text_or args "[]")) "[]" = text_or args "[]")
    by (apply text_or_nonempty; discriminate).
  cbn [oc_arguments].
  split; [rewrite Hcol; exact Hj|].
  intros mapping bd s Hargs.
  destruct (attempt_wire env (ip_address mapping) (port mapping)
              (command_address mapping) (mapping_args env mapping) s)
    as (datagrams & Hsent & Hwire & _ & _).
  rewrite sendOSCMessage_stages.
  match goal with
  | |- context [try_catch (?m ;; report env ?row ?notice) ?h s] =>
      destruct (attempt_then_report_frame env m row notice h s) as (_ & _ & Hd);
        [intros e s0; apply report_frame|]
  end.
  exists datagrams. rewrite Hd. split; [exact Hsent|].
  rewrite Hwire. unfold mapping_args, parse_args.
  rewrite Hargs, Hcol, Hj. destruct j; reflexivity.
Qed.

End Commands.

(** ** From the serial line to the engine *)

Section Wiring.
Import Js Presence Server.
Variable rt : Esp32.Runtime.



(** X25: the line [BUZZER:<id>,<ts>] emits the press event and, unless
    the broadcast to the admin room throws, starts exactly one call of
    [processBuzzerPress], after the calls started before, with the
    identifier, [parseInt(<ts>)] and the time of reception of the event;
    when the broadcast throws, no call is started. *)
Theorem press_line_starts_one_call (id ts : string) (sv : Server) :
  includes "," id = false ->
  let sv' := deliver rt ("BUZZER:" +:+ id +:+ "," +:+ ts) sv in
  let now := Esp32.tick rt (Esp32.clock_reads (esp sv)) in
  Esp32.emitted (esp sv') =
    Esp32.emitted (esp sv) ++ [Esp32.BuzzerPress id (parseInt_string ts) now] /\
  started sv' =
    started sv ++
    match Esp32.listener_error rt (List.length (Esp32.emitted (esp sv))) with
    | None => [press_data id (parseInt_string ts) now]
    | Some _ => []
    end.
Proof.
  intros Hid sv' now. subst sv' now.
  assert (Hevs : Esp32.emitted
                   (Esp32.handleSerialData rt ("BUZZER:" +:+ id +:+ "," +:+ ts) (esp sv)) =
                 Esp32.emitted (esp sv) ++
                   [Esp32.BuzzerPress id (parseInt_string ts)
                      (Esp32.tick rt (Esp32.clock_reads (esp sv)))]).
  { rewrite (handleSerialData_buzzer_stamp rt id ts (esp sv) Hid).
    apply handleBuzzerPress_emitted. }
  unfold deliver. cbn [esp started]. split; [exact Hevs|].
  rewrite (new_events_app _ _ _ Hevs). cbn [listeners].
  destruct (Esp32.listener_error rt _); [rewrite app_nil_r|]; reflexivity.
Qed.

End Wiring.

(** * The further properties on the sample store *)

(** The press of the sample buzzer on the freshly started engine. *)
Lemma press_reaches_active_targets_only_witness :
  let s := Osc.initial Sample.database in
  let s' := snd (Osc.processBuzzerPress Sample.environment Sample.press s) in
  Runs.well_pooled s /\
  exists datagrams,
    Osc.sent s' = Osc.sent s ++ datagrams /\
    Forall (fun dg =>
              exists b t,
                b ∈ Osc.buzzer_bindings (Osc.db s) /\
                Osc.bb_mac_address b = Osc.bd_mac_address Sample.press /\
                Osc.bb_is_active b = 1 /\
                t ∈ Osc.osc_targets (Osc.db s) /\ Osc.ot_is_active t = 1 /\
                Osc.host (Osc.via dg) = Osc.ot_ip_address t /\
                Osc.client_port (Osc.via dg) = Osc.ot_port t) datagrams.
Proof.
  intros s s'.
  assert (Hs : Runs.well_pooled s) by apply well_pooled_initial.
  split; [exact Hs|].
  apply (press_reaches_active_targets_only Sample.environment Sample.press s Hs).
Defined.

(** The same press with a database that rejects every operation. *)
Lemma mapping_query_rejected_witness :
  let s := Osc.initial Sample.database in
  let result := Osc.processBuzzerPress Faults.environment_db_down Sample.press s in
  Osc.db_error Faults.environment_db_down (Osc.db_calls s) = Some "SQLITE_BUSY" /\
  Osc.sent (snd result) = Osc.sent s /\
  Osc.published (snd result) = Osc.published s /\
  Osc.clients (snd result) = Osc.clients s /\
  Osc.created (snd result) = Osc.created s /\
  match Osc.db_error Faults.environment_db_down (S (Osc.db_calls s)) with
  | None =>
      fst result = Js.Normal tt /\
      Osc.activity_log (Osc.db (snd result)) =
        Osc.activity_log (Osc.db s) ++ [Runs.press_error_row Sample.press "SQLITE_BUSY"]
  | Some e' =>
      fst result = Js.Throw e' /\
      Osc.activity_log (Osc.db (snd result)) = Osc.activity_log (Osc.db s)
  end.
Proof.
  intros s result. split; [reflexivity|].
  apply (mapping_query_rejected Faults.environment_db_down Sample.press s
           "SQLITE_BUSY").
  reflexivity.
Defined.

(** The press of the sample buzzer when the log rejects every row: the
    first of the three mappings is sent, its outcome cannot be logged,
    and the other two are never attempted. *)
Lemma fan_out_stops_at_first_throw_witness :
  let env := Sample.environment_log_down in
  let s := Osc.initial Sample.database in
  let s0 := Runs.after_query s in
  let mappings := Osc.select_mappings (Osc.db s) (Osc.bd_mac_address Sample.press) in
  let rest := List.tl mappings in
  let s2 := snd (Osc.sendOSCMessage env Sample.mapping_local Sample.press s0) in
  let result := Osc.processBuzzerPress env Sample.press s in
  Osc.getMappingsForBuzzer env (Osc.bd_mac_address Sample.press) s =
    (Js.Normal ([] ++ Sample.mapping_local :: rest), s0) /\
  Osc.for_each [] (fun mapping => Osc.sendOSCMessage env mapping Sample.press) s0 =
    (Js.Normal tt, s0) /\
  Osc.sendOSCMessage env Sample.mapping_local Sample.press s0 =
    (Js.Throw "SQLITE_FULL", s2) /\
  List.length rest = 2%nat /\
  List.length (Osc.sent s2) = 1%nat /\
  Osc.sent (snd result) = Osc.sent s2 /\
  Osc.published (snd result) = Osc.published s2 /\
  Osc.clients (snd result) = Osc.clients s2 /\
  Osc.created (snd result) = Osc.created s2 /\
  match Osc.db_error env (Osc.db_calls s2) with
  | None =>
      fst result = Js.Normal tt /\
      Osc.activity_log (Osc.db (snd result)) =
        Osc.activity_log (Osc.db s2) ++
          [Runs.press_error_row Sample.press "SQLITE_FULL"]
  | Some e' =>
      fst result = Js.Throw e' /\
      Osc.activity_log (Osc.db (snd result)) = Osc.activity_log (Osc.db s2)
  end.
Proof.
  intros env s s0 mappings rest s2 result.
  split; [reflexivity|]. split; [reflexivity|]. split; [reflexivity|].
  split; [reflexivity|]. split; [reflexivity|].
  apply (fan_out_stops_at_first_throw env Sample.press s s0 s0 s2 []
           rest Sample.mapping_local "SQLITE_FULL"); reflexivity.
Defined.

(** A test of a command that does not exist. *)
Lemma test_stopped_at_lookup_witness :
  let env := Sample.environment in
  let td := {| Osc.commandId := 99; Osc.targetId := 1; Osc.customArgs := None |} in
  let s := Osc.initial Sample.database in
  let result := Osc.sendTestCommand env td s in
  Osc.endpoint env (Osc.Test td) s = None /\
  Osc.sent (snd result) = Osc.sent s /\
  Osc.clients (snd result) = Osc.clients s /\
  Osc.created (snd result) = Osc.created s /\
  (exists e, fst result = Js.Throw e) /\
  (Osc.sinks_healthy env ->
     exists e now,
       fst result = Js.Throw e /\
       Osc.activity_log (Osc.db (snd result)) =
         Osc.activity_log (Osc.db s) ++ [Osc.test_failed_row td e] /\
       Osc.published (snd result) =
         Osc.published s ++ [Osc.test_failed_notice e now] /\
       (head (filter (fun c => Osc.oc_id c = Osc.commandId td)
                (Osc.osc_commands (Osc.db s))) = None ->
        e = "Command not found: " +:+ pretty (Osc.commandId td)) /\
       (is_Some (head (filter (fun c => Osc.oc_id c = Osc.commandId td)
                         (Osc.osc_commands (Osc.db s)))) ->
        e = "Target not found: " +:+ pretty (Osc.targetId td))).
Proof.
  intros env td s result. split; [reflexivity|].
  apply (test_stopped_at_lookup env td s). reflexivity.
Defined.


(** The dispatch to the booth, whose sends fail: the target reads
    connected. *)
Lemma attempted_target_reads_connected_witness :
  let env := Sample.environment in
  let s := Osc.initial Sample.database in
  let mapping_booth :=
    {| Osc.bcm :=
         {| Osc.bcm_id := 2; Osc.buzzer_binding_id := Some 1;
            Osc.osc_command_id := Some 1; Osc.osc_target_id := Some 2;
            Osc.bcm_is_active := 1 |};
       Osc.mac_address := "AA:BB:CC:DD:EE:FF";
       Osc.device_name := "Buzzer 1";
       Osc.command_name := "QLab - GO";
       Osc.command_address := "/go";
       Osc.command_args := Some "[]";
       Osc.target_name := "Booth";
       Osc.ip_address := "10.0.0.66";
       Osc.port := 53000 |} in
  let r := Osc.Dispatch mapping_booth Sample.press in
  let s1 := snd (Osc.serve env r s) in
  Osc.endpoint env r s = Some ("10.0.0.66", 53000) /\
  Osc.db_error env (Osc.db_calls s1) = None /\
  map Osc.dg_error (Osc.sent s1) = [Some "getaddrinfo ENOTFOUND"] /\
  exists statuses s2,
    Admin.getTargetStatus env s1 = (Js.Normal statuses, s2) /\
    (forall t, t ∈ map Admin.row statuses <->
               t ∈ Osc.osc_targets (Osc.db s) /\ Osc.ot_is_active t = 1) /\
    Forall (fun st =>
              Osc.ot_ip_address (Admin.row st) = "10.0.0.66" ->
              Osc.ot_port (Admin.row st) = 53000 ->
              Admin.connected st = true /\ Admin.client_created st = true)
      statuses.
Proof.
  intros env s mapping_booth r s1.
  split; [reflexivity|]. split; [reflexivity|]. split; [reflexivity|].
  apply (attempted_target_reads_connected env r s "10.0.0.66" 53000); reflexivity.
Defined.

(** Shutdown after the press of the sample buzzer, then a dispatch to
    the local target again. *)
Lemma disconnect_forgets_clients_witness :
  let env := Sample.environment in
  let s := Runs.run env [Runs.Press Sample.press] (Osc.initial Sample.database) in
  let r := Osc.Dispatch Sample.mapping_local Sample.press in
  let s0 := Admin.disconnect s in
  let s1 := snd (Osc.serve env r s0) in
  let fresh :=
    {| Osc.host := "127.0.0.1"; Osc.client_port := 53000;
       Osc.serial := Osc.created s |} in
  Runs.well_pooled s /\
  Osc.endpoint env r s = Some ("127.0.0.1", 53000) /\
  Osc.created s = 3%nat /\
  (Osc.db_error env (Osc.db_calls s0) = None ->
   exists statuses,
     fst (Admin.getTargetStatus env s0) = Js.Normal statuses /\
     Forall (fun st => Admin.connected st = false) statuses) /\
  Osc.clients s1 = {[ Osc.targetKey "127.0.0.1" 53000 := fresh ]} /\
  Osc.created s1 = S (Osc.created s) /\
  (forall k c, Osc.clients s !! k = Some c -> c <> fresh).
Proof.
  intros env s r s0 s1 fresh.
  assert (Hs : Runs.well_pooled s).
  { apply (processBuzzerPress_well_pooled env Sample.press
             (Osc.initial Sample.database)), well_pooled_initial. }
  split; [exact Hs|]. split; [reflexivity|]. split; [reflexivity|].
  apply (disconnect_forgets_clients env r s "127.0.0.1" 53000 Hs). reflexivity.
Defined.

(** The sample buzzer bound and mapped through the routes, then bound
    again under another name. *)
Lemma rebinding_orphans_mappings_witness :
  let commands := Osc.osc_commands Sample.database in
  let targets := Osc.osc_targets Sample.database in
  let mac := "AA:BB:CC:DD:EE:FF" in
  let name := "Buzzer 1 (stage left)" in
  let requests :=
    [Config.PostBinding (Some mac) (Some "Buzzer 1");
     Config.PostMapping mac (Some 1) (Some 1);
     Config.PostBinding (Some "11:22:33:44:55:66") (Some "Buzzer 2");
     Config.PostMapping "11:22:33:44:55:66" (Some 1) (Some 3)] in
  let st := Config.configure requests (Config.unbound commands targets) in
  let result := Config.post_binding (Some mac) (Some name) st in
  let st' := snd result in
  mac <> "" /\ name <> "" /\
  Config.bindings_seq st < Config.max_rowid /\
  List.length (Osc.select_mappings (Config.tables st) mac) = 1%nat /\
  (exists id,
     fst result = Config.Ok id /\ Config.bindings_seq st < id /\
     Config.getBuzzerBindingByMac mac st' =
       Some {| Osc.bb_id := id; Osc.bb_mac_address := mac;
               Osc.bb_device_name := name; Osc.bb_is_active := 1 |}) /\
  Osc.buzzer_command_mappings (Config.tables st') =
    Osc.buzzer_command_mappings (Config.tables st) /\
  Osc.select_mappings (Config.tables st') mac = [] /\
  (forall mac', mac' <> mac ->
     Osc.select_mappings (Config.tables st') mac' =
     Osc.select_mappings (Config.tables st) mac').
Proof.
  intros commands targets mac name requests st result st'.
  split; [discriminate|]. split; [discriminate|]. split; [reflexivity|].
  split; [reflexivity|].
  apply (rebinding_orphans_mappings commands targets requests mac name);
    [discriminate | discriminate | reflexivity].
Defined.

(** The sample buzzer bound through the route, then mapped to the
    sample command on the stage target. *)
Lemma posted_mapping_resolves_witness :
  let mac := "AA:BB:CC:DD:EE:FF" in
  let st :=
    Config.configure [Config.PostBinding (Some mac) (Some "Buzzer 1")]
      (Config.unbound (Osc.osc_commands Sample.database)
         (Osc.osc_targets Sample.database)) in
  let binding :=
    {| Osc.bb_id := 1; Osc.bb_mac_address := mac;
       Osc.bb_device_name := "Buzzer 1"; Osc.bb_is_active := 1 |} in
  let command :=
    {| Osc.oc_id := 1; Osc.oc_name := "QLab - GO"; Osc.oc_address := "/go";
       Osc.oc_arguments := Some "[]" |} in
  let target :=
    {| Osc.ot_id := 3; Osc.ot_name := "Stage"; Osc.ot_ip_address := "10.0.0.7";
       Osc.ot_port := 8000; Osc.ot_is_active := 1 |} in
  let result := Config.post_mapping mac (Some 1) (Some 3) st in
  Config.getBuzzerBindingByMac mac st = Some binding /\
  Osc.bb_is_active binding = 1 /\
  command ∈ Osc.osc_commands (Config.tables st) /\ Osc.oc_id command = 1 /\
  target ∈ Osc.osc_targets (Config.tables st) /\ Osc.ot_id target = 3 /\
  Osc.ot_is_active target = 1 /\
  1 <> 0 /\ 3 <> 0 /\
  fst result = Config.Ok 1 /\
  match fst result with
  | Config.Ok id =>
      exists row,
        row ∈ Osc.select_mappings (Config.tables (snd result)) mac /\
        Osc.bcm_id (Osc.bcm row) = id /\
        Osc.command_address row = Osc.oc_address command /\
        Osc.ip_address row = Osc.ot_ip_address target /\
        Osc.port row = Osc.ot_port target
  | Config.ServerError e => e = Config.full /\ snd result = st
  | _ => False
  end.
Proof.
  intros mac st binding command target result.
  assert (Hcommand : command ∈ Osc.osc_commands (Config.tables st)).
  { apply list_elem_of_In. left. reflexivity. }
  assert (Htarget : target ∈ Osc.osc_targets (Config.tables st)).
  { apply list_elem_of_In. right. right. left. reflexivity. }
  split; [reflexivity|]. split; [reflexivity|]. split; [exact Hcommand|].
  split; [reflexivity|]. split; [exact Htarget|]. split; [reflexivity|].
  split; [reflexivity|]. split; [discriminate|]. split; [discriminate|].
  split; [reflexivity|].
  apply (posted_mapping_resolves st mac 1 3 binding command target);
    [reflexivity | reflexivity | exact Hcommand | reflexivity | exact Htarget
    | reflexivity | reflexivity | discriminate | discriminate].
Defined.

(** The seeded target, then two posts: one stored, one refused for its
    address. *)
Lemma posted_targets_are_well_addressed_witness :
  let seed :=
    {| Osc.ot_id := 1; Osc.ot_name := "Local Test";
       Osc.ot_ip_address := "127.0.0.1"; Osc.ot_port := 53000;
       Osc.ot_is_active := 1 |} in
  let requests :=
    [Config.PostTarget (Some "Booth") (Some "10.0.0.66") (Js.VStr "53000");
     Config.PostTarget (Some "Nowhere") (Some "10.0.0.256") (Js.VNum 8000)] in
  let st := Config.configure requests (Config.unbound [] [seed]) in
  Forall Config.well_addressed [seed] /\
  NoDup (map Osc.ot_name [seed]) /\
  map Osc.ot_name (Osc.osc_targets (Config.tables st)) = ["Local Test"; "Booth"] /\
  Forall Config.well_addressed (Osc.osc_targets (Config.tables st)) /\
  NoDup (map Osc.ot_name (Osc.osc_targets (Config.tables st))) /\
  Forall (fun t => Osc.ot_is_active t = 1 \/ t ∈ [seed])
    (Osc.osc_targets (Config.tables st)).
Proof.
  intros seed requests st.
  assert (Hseed : Forall Config.well_addressed [seed]).
  { constructor; [|constructor]. split; [cbn; lia|]. right.
    exists "127", "0", "0", "1". split; [reflexivity|].
    do 4 (constructor;
          [split; [reflexivity|]; split; [cbn; lia|];
           eexists; split; [vm_compute; reflexivity | lia]|]).
    constructor. }
  assert (Hnames : NoDup (map Osc.ot_name [seed])).
  { apply NoDup_singleton. }
  split; [exact Hseed|]. split; [exact Hnames|]. split; [reflexivity|].
  apply (posted_targets_are_well_addressed [] [seed] requests Hseed Hnames).
Defined.

(** The press line of the sample buzzer through the wiring. *)
Lemma press_line_starts_one_call_witness :
  let rt := Sample.runtime in
  let sv :=
    {| Server.esp := Esp32.initial; Server.osc := Osc.initial Sample.database;
       Server.started := [] |} in
  let id := "AA:BB:CC:DD:EE:FF" in
  let sv' := Server.deliver rt ("BUZZER:" +:+ id +:+ "," +:+ "1700000000000") sv in
  Js.includes "," id = false /\
  Esp32.emitted (Server.esp sv') =
    [Esp32.BuzzerPress id (Js.VNum 1700000000000) 1700000000000] /\
  Server.started sv' =
    [Server.press_data id (Js.VNum 1700000000000) 1700000000000].
Proof.
  intros rt sv id sv'. split; [reflexivity|].
  apply (press_line_starts_one_call rt id "1700000000000" sv). reflexivity.
Defined.


(** A scan on the freshly started service, without hardware. *)
Lemma simulated_scan_registers_first_octets_witness :
  let rt := Sample.runtime in
  let l :=
    {| Link.core := Esp32.initial; Link.isConnectedFlag := false;
       Link.serialPort := false; Link.written := []; Link.timers := [] |} in
  let reply := fst (Link.startDeviceScan rt l) in
  let l1 := snd (Link.startDeviceScan rt l) in
  let l2 := Link.run_timer rt l1 in
  Link.isConnectedFlag l && Link.serialPort l = false /\
  Link.timers l = [] /\
  Presence.keys (Link.core l2) = ["AA"; "11"] /\
  Link.hardwareConnected reply = false /\ Link.scan_success reply = true /\
  Esp32.deviceStates (Link.core l1) = Esp32.deviceStates (Link.core l) /\
  Link.written l1 = Link.written l /\ Link.timers l1 = ["SCAN"] /\
  Link.timers l2 = [] /\ Link.written l2 = Link.written l /\
  Esp32.stored (Link.core l2) "AA" "online" = Js.VBool true /\
  Esp32.stored (Link.core l2) "11" "online" = Js.VBool true /\
  (forall k, k <> "AA" -> k <> "11" ->
     Esp32.Map_get k (Esp32.deviceStates (Link.core l2)) =
     Esp32.Map_get k (Esp32.deviceStates (Link.core l))).
Proof.
  intros rt l reply l1 l2.
  split; [reflexivity|]. split; [reflexivity|]. split; [reflexivity|].
  apply (simulated_scan_registers_first_octets rt l); reflexivity.
Defined.

(** A test of the sample command with custom arguments. *)
Lemma test_arguments_on_the_wire_witness :
  let env := Sample.environment in
  let td :=
    {| Osc.commandId := 1; Osc.targetId := 1; Osc.customArgs := Some "[1]" |} in
  let s := Osc.initial Sample.database in
  let command :=
    {| Osc.oc_id := 1; Osc.oc_name := "QLab - GO"; Osc.oc_address := "/go";
       Osc.oc_arguments := Some "[]" |} in
  let target :=
    {| Osc.ot_id := 1; Osc.ot_name := "Local Test";
       Osc.ot_ip_address := "127.0.0.1"; Osc.ot_port := 53000;
       Osc.ot_is_active := 1 |} in
  let s' := snd (Osc.sendTestCommand env td s) in
  let defaults := Osc.text_or (Osc.oc_arguments command) "[]" in
  let text :=
    match Osc.customArgs td with
    | Some custom => if String.eqb custom "" then defaults else custom
    | None => defaults
    end in
  Osc.db_error env (Osc.db_calls s) = None /\
  Osc.db_error env (S (Osc.db_calls s)) = None /\
  head (filter (fun c => Osc.oc_id c = Osc.commandId td)
          (Osc.osc_commands (Osc.db s))) = Some command /\
  head (filter (fun t => Osc.ot_id t = Osc.targetId td)
          (Osc.osc_targets (Osc.db s))) = Some target /\
  Runs.wire_arguments env text = [[Osc.JInt 1]] /\
  exists datagrams,
    Osc.sent s' = Osc.sent s ++ datagrams /\
    map Osc.dg_args datagrams = Runs.wire_arguments env text /\
    Forall (fun dg => Osc.dg_address dg = Osc.oc_address command) datagrams.
Proof.
  intros env td s command target s' defaults text.
  split; [reflexivity|]. split; [reflexivity|]. split; [reflexivity|].
  split; [reflexivity|]. split; [reflexivity|].
  apply (test_arguments_on_the_wire env td command target s); reflexivity.
Defined.

(** A command posted with the arguments text 5: accepted, and never
    sent. *)
Lemma posted_command_on_the_wire_witness :
  let env := Faults.environment_reads_numbers in
  let st :=
    Config.unbound (Osc.osc_commands Sample.database)
      (Osc.osc_targets Sample.database) in
  let result :=
    Config.post_command env (Some "Level") (Some "/level") (Some "5") st in
  result = (Config.Ok 2, snd result) /\
  exists c j,
    Osc.osc_commands (Config.tables (snd result)) =
      Osc.osc_commands (Config.tables st) ++ [c] /\
    Osc.oc_id c = 2 /\ Some "Level" = Some (Osc.oc_name c) /\
    Some "/level" = Some (Osc.oc_address c) /\
    Forall (fun c' => Osc.oc_name c' <> Osc.oc_name c)
      (Osc.osc_commands (Config.tables st)) /\
    Osc.JSON_parse env (Osc.text_or (Osc.oc_arguments c) "[]") = Some j /\
    forall (mapping : Osc.Mapping) (bd : Osc.BuzzerData) (s : Osc.State),
      Osc.command_args mapping = Osc.oc_arguments c ->
      exists datagrams,
        Osc.sent (snd (Osc.sendOSCMessage env mapping bd s)) =
          Osc.sent s ++ datagrams /\
        map Osc.dg_args datagrams =
          match j with
          | Osc.JArray items => [items]
          | Osc.JString str =>
              [map (fun ch => Osc.JString (String ch EmptyString))
                 (list_ascii_of_string str)]
          | _ => []
          end.
Proof.
  intros env st result.
  split; [reflexivity|].
  apply (posted_command_on_the_wire env (Some "Level") (Some "/level")
           (Some "5") st (snd result) 2).
  reflexivity.
Defined.
